(** * Cricket Auction Hub: tournament configuration, team formation and
      captain voting, verified against the React/Supabase sources.

    The development is a shallow embedding of the event handlers of
    [BidTimerConfigModal], [TournamentActionMenu], [CategoryConfigModal],
    [CreateTeams], [CreateCaptains] and [ViewCaptainVotes], together with
    the relations of the schema migration they talk to.

    - [JS]: the fragment of ECMAScript the handlers rely on (strings as
      sequences of UTF-16 code units, [trim], [parseInt], [parseFloat],
      truthiness, [Math.max], [reduce]).
    - [Store]: the relations, their constraints and row-level policies.
    - [App]: the monad the handlers run in (component state, the store,
      notifications, navigation and a log of the requests sent; errors
      thrown by [throw] and handled by [try_catch] / [finally]).
    - one module per component, then the theorems. *)

From Stdlib Require Import ZArith NArith List String Ascii Bool Lia.
From Stdlib Require Import Permutation Sorted DecimalString QArith.
Import ListNotations.
Local Open Scope Z_scope.

(* ===================================================================== *)
(** ** The ECMAScript fragment *)
(* ===================================================================== *)

Module JS.

(** A JavaScript string is a sequence of UTF-16 code units. *)
Definition jsstring := list N.

(** String literals of the sources (all of them ASCII). *)
Definition js (s : string) : jsstring :=
  map N_of_ascii (list_ascii_of_string s).

Fixpoint jseqb (a b : jsstring) : bool :=
  match a, b with
  | [], [] => true
  | x :: a', y :: b' => N.eqb x y && jseqb a' b'
  | _, _ => false
  end.

(** Truthiness of a string: only the empty string is falsy. *)
Definition truthy (s : jsstring) : bool :=
  match s with [] => false | _ :: _ => true end.

(** Truthiness of [string | null]. *)
Definition truthy_opt (s : option jsstring) : bool :=
  match s with Some t => truthy t | None => false end.

(** [a || b] on strings. *)
Definition or_else (a b : jsstring) : jsstring :=
  if truthy a then a else b.

(** WhiteSpace and LineTerminator code points (ECMA-262, 12.2 and 12.3):
    TAB, LF, VT, FF, CR, SP, NBSP, the Zs category, LS, PS and ZWNBSP. *)
Definition is_white_space (c : N) : bool :=
  ((9 <=? c) && (c <=? 13) || (c =? 32) || (c =? 160) || (c =? 5760)
   || (8192 <=? c) && (c <=? 8202) || (c =? 8232) || (c =? 8233)
   || (c =? 8239) || (c =? 8287) || (c =? 12288) || (c =? 65279))%N.

Fixpoint trimStart (s : jsstring) : jsstring :=
  match s with
  | c :: r => if is_white_space c then trimStart r else s
  | [] => []
  end.

Definition trimEnd (s : jsstring) : jsstring := rev (trimStart (rev s)).

(** [String.prototype.trim]. *)
Definition trim (s : jsstring) : jsstring := trimEnd (trimStart s).

(** [String.prototype.length]: the number of code units. *)
Definition jslength (s : jsstring) : Z := Z.of_nat (List.length s).

(** *** Numerals *)

(** Value of a code unit as a digit: 0-9, a-z and A-Z. *)
Definition digit_value (c : N) : option Z :=
  if ((48 <=? c) && (c <=? 57))%N then Some (Z.of_N (c - 48))
  else if ((97 <=? c) && (c <=? 122))%N then Some (Z.of_N (c - 87))
  else if ((65 <=? c) && (c <=? 90))%N then Some (Z.of_N (c - 55))
  else None.

Definition radix_digit (R : Z) (c : N) : option Z :=
  match digit_value c with
  | Some d => if d <? R then Some d else None
  | None => None
  end.

(** The longest prefix of radix-[R] digits, and what follows it. *)
Fixpoint span_digits (R : Z) (s : jsstring) : list Z * jsstring :=
  match s with
  | c :: r =>
      match radix_digit R c with
      | Some d => let (ds, rest) := span_digits R r in (d :: ds, rest)
      | None => ([], s)
      end
  | [] => ([], [])
  end.

Definition digits_value (R : Z) (ds : list Z) : Z :=
  fold_left (fun acc d => acc * R + d) ds 0.

(** An optional sign: [true] for a minus. *)
Definition strip_sign (s : jsstring) : bool * jsstring :=
  match s with
  | 45%N :: r => (true, r)
  | 43%N :: r => (false, r)
  | _ => (false, s)
  end.

(** [parseInt(string)] with the radix argument absent (ECMA-262, 19.2.5):
    leading white space is skipped, a sign is read, a [0x]/[0X] prefix
    selects radix 16 and otherwise the radix is 10; the digits that follow
    are read up to the first other code unit. [None] is NaN.

    The result is the mathematical integer that was read. The engine
    rounds it to a double, which changes nothing below 2^53 and keeps a
    value above 2^53 above 2^53; a negative zero is the integer 0. No
    comparison made by the handlers can tell the difference. *)
Definition parseInt (s : jsstring) : option Z :=
  let (neg, t) := strip_sign (trimStart s) in
  let (R, u) :=
    match t with
    | 48%N :: 120%N :: r => (16, r)
    | 48%N :: 88%N :: r => (16, r)
    | _ => (10, t)
    end in
  match fst (span_digits R u) with
  | [] => None
  | ds => Some (if neg then - digits_value R ds else digits_value R ds)
  end.

(** [isNaN(x) || x < lo || x > hi] on a [parseInt] result; every
    comparison with NaN is false, hence the separate test. *)
Definition isNaN (x : option Z) : bool :=
  match x with None => true | Some _ => false end.

Definition lt (x : option Z) (k : Z) : bool :=
  match x with Some v => v <? k | None => false end.

Definition gt (x : option Z) (k : Z) : bool :=
  match x with Some v => k <? v | None => false end.

(** A Number obtained from a decimal literal, kept as the exact value that
    was written: [Decimal neg m e] is (-1)^neg * m * 10^e. The engine
    stores its rounding to binary64; [le_zero] below decides the only
    thing the handlers ask about it. *)
Inductive jsnum : Type :=
  | NaN
  | Infinity (negative : bool)
  | Decimal (negative : bool) (mantissa : Z) (exponent : Z).

Fixpoint starts_with (p s : jsstring) : bool :=
  match p, s with
  | [], _ => true
  | x :: p', y :: s' => N.eqb x y && starts_with p' s'
  | _ :: _, [] => false
  end.

(** The ExponentPart of a StrDecimalLiteral: [e] or [E], an optional sign
    and at least one digit; anything else is not an exponent and is left
    unread. *)
Definition exponent_part (s : jsstring) : Z :=
  match s with
  | c :: r =>
      if ((c =? 101) || (c =? 69))%N then
        let (neg, r') := strip_sign r in
        match fst (span_digits 10 r') with
        | [] => 0
        | ds => if neg then - digits_value 10 ds else digits_value 10 ds
        end
      else 0
  | [] => 0
  end.

(** [parseFloat(string)] (ECMA-262, 19.2.4): the longest prefix of the
    string, leading white space skipped, that is a StrDecimalLiteral;
    NaN when there is none. *)
Definition parseFloat (s : jsstring) : jsnum :=
  let (neg, u) := strip_sign (trimStart s) in
  if starts_with (js "Infinity") u then Infinity neg
  else
    let (ip, r1) := span_digits 10 u in
    let (fp, r2) :=
      match r1 with
      | 46%N :: r => span_digits 10 r
      | _ => ([], r1)
      end in
    match ip ++ fp with
    | [] => NaN
    | ds =>
        Decimal neg (digits_value 10 ds)
                (exponent_part r2 - Z.of_nat (List.length fp))
    end.

(** Does a positive decimal m * 10^e round to +0 in binary64? Exactly when
    it is at most 2^-1075, half the least subnormal (ties go to the even
    neighbour, which is zero). *)
Definition rounds_to_zero (m e : Z) : bool :=
  if 0 <=? e then m =? 0
  else m * 2 ^ 1075 <=? 10 ^ (- e).

(** [x <= 0] on Numbers: false on NaN, true on negative values and on both
    zeros. *)
Definition le_zero (x : jsnum) : bool :=
  match x with
  | NaN => false
  | Infinity neg => neg
  | Decimal true _ _ => true
  | Decimal false m e => rounds_to_zero m e
  end.

(** [x > 0] on Numbers. *)
Definition gt_zero (x : jsnum) : bool :=
  match x with
  | NaN => false
  | Infinity neg => negb neg
  | Decimal true _ _ => false
  | Decimal false m e => negb (rounds_to_zero m e)
  end.

Definition is_NaN (x : jsnum) : bool :=
  match x with NaN => true | _ => false end.

(** [JSON.stringify] of a Number field: NaN and the infinities, and the
    finite literals whose rounding overflows, are written [null]. *)
Definition overflows (m e : Z) : bool :=
  (* at or above 2^1024 - 2^970, the rounding boundary to Infinity *)
  if 0 <=? e then 2 ^ 1024 - 2 ^ 970 <=? m * 10 ^ e
  else (2 ^ 1024 - 2 ^ 970) * 10 ^ (- e) <=? m.

Definition json_number (x : jsnum) : option jsnum :=
  match x with
  | NaN => None
  | Infinity _ => None
  | Decimal _ m e => if overflows m e then None else Some x
  end.

(** [Number.prototype.toString] on an integer of moderate size (below
    10^21 in magnitude): its decimal digits, with a minus sign. *)
Definition toString (n : Z) : jsstring :=
  js (NilZero.string_of_int (Z.to_int n)).

(** [Math.max(...xs, 1)] on integers. *)
Definition Math_max (xs : list Z) : Z :=
  fold_left Z.max xs 1.

End JS.

Import JS.

(* ===================================================================== *)
(** ** The persistent store *)
(* ===================================================================== *)

Module Store.

Definition uuid := jsstring.
Definition timestamp := Z.

(** What a failed statement reports to the client. *)
Record Error := { message : jsstring }.

(** The [{ data, error }] pair of a reply: exactly one side is set. *)
Inductive response (A : Type) : Type :=
  | Data (a : A)
  | Failed (e : Error).
Arguments Data {A} a.
Arguments Failed {A} e.

(** *** Relations *)

Module Tournament.
(** Modelled from the spec: the [tournaments] relation is created by an
    earlier migration; these are the columns the pages select and update,
    with [number_of_teams] and [team_budget] whole numbers. *)
Record row := {
  id : uuid;
  name : jsstring;
  organizer_id : uuid;
  number_of_teams : Z;
  team_budget : Z;
  captain_voting_enabled : bool;
  is_voting_live : bool;
  is_auction_live : bool
}.
Definition set_is_voting_live (b : bool) (r : row) : row :=
  {| id := id r; name := name r; organizer_id := organizer_id r;
     number_of_teams := number_of_teams r; team_budget := team_budget r;
     captain_voting_enabled := captain_voting_enabled r;
     is_voting_live := b; is_auction_live := is_auction_live r |}.
End Tournament.

(** [CREATE TABLE public.auction_config]. *)
Module AuctionConfig.
Record row := {
  id : uuid;
  tournament_id : uuid;
  category : jsstring;
  max_players : Z;
  base_price : jsnum;
  created_by : option uuid;
  created_at : timestamp;
  updated_at : timestamp;
  is_active : option bool
}.
Definition set_is_active (b : option bool) (r : row) : row :=
  {| id := id r; tournament_id := tournament_id r; category := category r;
     max_players := max_players r; base_price := base_price r;
     created_by := created_by r; created_at := created_at r;
     updated_at := updated_at r; is_active := b |}.
Definition set_updated_at (t : timestamp) (r : row) : row :=
  {| id := id r; tournament_id := tournament_id r; category := category r;
     max_players := max_players r; base_price := base_price r;
     created_by := created_by r; created_at := created_at r;
     updated_at := t; is_active := is_active r |}.
End AuctionConfig.

(** [CREATE TABLE public.auction_timer]. *)
Module AuctionTimer.
Record row := {
  id : uuid;
  tournament_id : uuid;
  bid_time : Z;
  created_by : option uuid;
  created_at : timestamp;
  updated_at : timestamp;
  is_active : option bool
}.
Definition set_bid_time (v : Z) (r : row) : row :=
  {| id := id r; tournament_id := tournament_id r; bid_time := v;
     created_by := created_by r; created_at := created_at r;
     updated_at := updated_at r; is_active := is_active r |}.
Definition set_updated_at (t : timestamp) (r : row) : row :=
  {| id := id r; tournament_id := tournament_id r; bid_time := bid_time r;
     created_by := created_by r; created_at := created_at r;
     updated_at := t; is_active := is_active r |}.
End AuctionTimer.

(** [CREATE TABLE public.tournament_captain]. *)
Module Captain.
Record row := {
  id : uuid;
  tournament_id : uuid;
  name : jsstring;
  mobile : jsstring;
  photo_url : option jsstring;
  votes : Z;
  created_by : option uuid;
  created_at : timestamp;
  is_active : option bool
}.
End Captain.

Module Team.
(** Modelled from the spec: the [teams] relation is created by an earlier
    migration; the columns are those of the [Team] interface and of the
    insert in [handleCreateTeam]. [budget_remaining] is declared [number]
    there, not [number | null]: the column rejects NULL. *)
Record row := {
  id : uuid;
  tournament_id : uuid;
  name : jsstring;
  logo_url : option jsstring;
  captain_id : option uuid;
  budget_remaining : jsnum;
  owner_id : option uuid;
  created_at : timestamp
}.
End Team.

Record Db := {
  tournaments : list Tournament.row;
  teams : list Team.row;
  auction_config : list AuctionConfig.row;
  auction_timer : list AuctionTimer.row;
  tournament_captain : list Captain.row
}.

Definition with_tournaments (d : Db) (l : list Tournament.row) : Db :=
  {| tournaments := l; teams := teams d; auction_config := auction_config d;
     auction_timer := auction_timer d;
     tournament_captain := tournament_captain d |}.
Definition with_teams (d : Db) (l : list Team.row) : Db :=
  {| tournaments := tournaments d; teams := l;
     auction_config := auction_config d; auction_timer := auction_timer d;
     tournament_captain := tournament_captain d |}.
Definition with_auction_config (d : Db) (l : list AuctionConfig.row) : Db :=
  {| tournaments := tournaments d; teams := teams d; auction_config := l;
     auction_timer := auction_timer d;
     tournament_captain := tournament_captain d |}.
Definition with_auction_timer (d : Db) (l : list AuctionTimer.row) : Db :=
  {| tournaments := tournaments d; teams := teams d;
     auction_config := auction_config d; auction_timer := l;
     tournament_captain := tournament_captain d |}.
Definition with_tournament_captain (d : Db) (l : list Captain.row) : Db :=
  {| tournaments := tournaments d; teams := teams d;
     auction_config := auction_config d; auction_timer := auction_timer d;
     tournament_captain := l |}.

(** What the store knows when it runs a statement: the caller's identity
    ([auth.uid()], NULL for an anonymous caller), the time ([now()]) and
    the next value of [gen_random_uuid()]. *)
Record Session := {
  uid : option uuid;
  now : timestamp;
  gen_random_uuid : uuid
}.

(** *** Generic statement parts *)

(** [UPDATE ... SET ... WHERE p]: the rows selected by [p] are rewritten
    in place, the others are untouched. *)
Definition update_where {A : Type} (p : A -> bool) (f : A -> A)
    (l : list A) : list A :=
  map (fun r => if p r then f r else r) l.

(** [WHERE column = k] on a text column. *)
Definition keyed {A : Type} (column : A -> jsstring) (k : jsstring) (x : A)
    : bool :=
  jseqb (column x) k.

(** [ORDER BY]: SQL leaves the order of rows with equal keys open and
    returns them as the scan meets them. Rows are kept in scan order in
    the lists of [Db], and the sort is stable. *)
Fixpoint insert_sorted {A : Type} (leb : A -> A -> bool) (x : A)
    (l : list A) : list A :=
  match l with
  | [] => [x]
  | y :: r => if leb x y then x :: l else y :: insert_sorted leb x r
  end.

Definition order_by {A : Type} (leb : A -> A -> bool) (l : list A)
    : list A :=
  fold_right (insert_sorted leb) [] l.

(** [.single()]: exactly one row, an error otherwise;
    [.maybeSingle()]: no row is [null], several are an error. *)
Definition no_single : Error :=
  {| message := js "JSON object requested, multiple (or no) rows returned" |}.

Definition single {A : Type} (rows : list A) : response A :=
  match rows with
  | [r] => Data r
  | _ => Failed no_single
  end.

Definition maybeSingle {A : Type} (rows : list A) : response (option A) :=
  match rows with
  | [] => Data None
  | [r] => Data (Some r)
  | _ => Failed no_single
  end.

Definition opt_uuid_eqb (a : option uuid) (b : uuid) : bool :=
  match a with Some x => jseqb x b | None => false end.

(** The policy shared by the three relations of the migration:
    [EXISTS (SELECT 1 FROM tournaments t WHERE t.id = row.tournament_id
             AND t.organizer_id = auth.uid())]. *)
Definition organizer_policy (d : Db) (s : Session) (tournament_id : uuid)
    : bool :=
  existsb (fun t => jseqb (Tournament.id t) tournament_id
                    && opt_uuid_eqb (uid s) (Tournament.organizer_id t))
          (tournaments d).

(** A name between double quotes, as the store's messages print it. *)
Definition quoted (name : string) : jsstring :=
  [34%N] ++ js name ++ [34%N].

(** The messages of the store name the relation, constraint, column or
    value concerned. *)
Definition rls_violation (table : string) : Error :=
  {| message := js "new row violates row-level security policy for table "
                ++ quoted table |}.
Definition duplicate_key (constraint : string) : Error :=
  {| message := js "duplicate key value violates unique constraint "
                ++ quoted constraint |}.
Definition not_null_violation (column relation : string) : Error :=
  {| message := js "null value in column " ++ quoted column
                ++ js " of relation " ++ quoted relation
                ++ js " violates not-null constraint" |}.
Definition int4_out_of_range (v : Z) : Error :=
  {| message := js "value " ++ [34%N] ++ toString v ++ [34%N]
                ++ js " is out of range for type integer" |}.

Definition int4 (v : Z) : bool :=
  (-2147483648 <=? v) && (v <=? 2147483647).

(** *** [tournaments] *)

(** [.from("tournaments").select(...).eq("id", id).single()]; the pages
    read tournaments of any organizer (they compare [organizer_id] with
    the user afterwards), so reading is open. *)
Definition tournaments_select_single (d : Db) (id : uuid)
    : response Tournament.row :=
  single (filter (fun t => jseqb (Tournament.id t) id) (tournaments d)).

(** Modelled from the spec: writing a tournament row is allowed to its
    organizer only, by a row-level policy; rows the policy hides are not
    updated and no error is raised.
    [.from("tournaments").update({ is_voting_live }).eq("id", id)]. *)
Definition tournaments_update_is_voting_live (s : Session) (d : Db)
    (id : uuid) (b : bool) : response unit * Db :=
  (Data tt,
   with_tournaments d
     (update_where
        (fun t => jseqb (Tournament.id t) id
                  && opt_uuid_eqb (uid s) (Tournament.organizer_id t))
        (Tournament.set_is_voting_live b) (tournaments d))).

(** *** [auction_timer] *)

(** [.select("*").eq("tournament_id", tid).maybeSingle()]; the select
    policy is [USING (true)]. *)
Definition auction_timer_select_maybeSingle (d : Db) (tid : uuid)
    : response (option AuctionTimer.row) :=
  maybeSingle
    (filter (fun r => jseqb (AuctionTimer.tournament_id r) tid)
            (auction_timer d)).

(** Modelled from the spec: [update_updated_at_column()] is declared by an
    earlier migration; it is the "updated_at maintenance trigger fired on
    every update" and stamps the row with [now()]. Here on a row of
    [auction_timer] ([update_auction_timer_updated_at]). *)
Definition update_auction_timer_updated_at (s : Session)
    (r : AuctionTimer.row) : AuctionTimer.row :=
  AuctionTimer.set_updated_at (now s) r.

(** [.update({ bid_time }).eq("id", id)], under the organizer policy and
    the trigger. *)
Definition auction_timer_update_bid_time (s : Session) (d : Db)
    (id : uuid) (v : Z) : response unit * Db :=
  if int4 v then
    (Data tt,
     with_auction_timer d
       (update_where
          (fun r => jseqb (AuctionTimer.id r) id
                    && organizer_policy d s (AuctionTimer.tournament_id r))
          (fun r => update_auction_timer_updated_at s
                      (AuctionTimer.set_bid_time v r))
          (auction_timer d)))
  else (Failed (int4_out_of_range v), d).

(** [.insert({ tournament_id, bid_time })]: the other columns take their
    defaults; the policy is checked on the new row, then the primary key
    and the UNIQUE constraint on [tournament_id]. The policy implies the
    foreign key. *)
Definition auction_timer_insert (s : Session) (d : Db) (tid : uuid)
    (v : Z) : response unit * Db :=
  if negb (int4 v) then (Failed (int4_out_of_range v), d)
  else if negb (organizer_policy d s tid)
  then (Failed (rls_violation "auction_timer"), d)
  else if existsb (fun r => jseqb (AuctionTimer.id r) (gen_random_uuid s)
                            || jseqb (AuctionTimer.tournament_id r) tid)
                  (auction_timer d)
  then (Failed (duplicate_key
                  (if existsb (fun r => jseqb (AuctionTimer.id r)
                                              (gen_random_uuid s))
                              (auction_timer d)
                   then "auction_timer_pkey"
                   else "auction_timer_tournament_id_key")), d)
  else
    (Data tt,
     with_auction_timer d
       (auction_timer d ++
        [ {| AuctionTimer.id := gen_random_uuid s;
             AuctionTimer.tournament_id := tid;
             AuctionTimer.bid_time := v;
             AuctionTimer.created_by := None;
             AuctionTimer.created_at := now s;
             AuctionTimer.updated_at := now s;
             AuctionTimer.is_active := Some true |} ])).

(** *** [auction_config] *)

Definition is_true (b : option bool) : bool :=
  match b with Some true => true | _ => false end.

(** [.select("*").eq("tournament_id", tid).eq("is_active", true)
     .order("created_at", { ascending: true })]. *)
Definition auction_config_select_active (d : Db) (tid : uuid)
    : response (list AuctionConfig.row) :=
  Data (order_by
          (fun a b => AuctionConfig.created_at a
                      <=? AuctionConfig.created_at b)
          (filter (fun r => jseqb (AuctionConfig.tournament_id r) tid
                            && is_true (AuctionConfig.is_active r))
                  (auction_config d))).

(** [SELECT * FROM auction_config WHERE id = ...]: retrieval by key. *)
Definition auction_config_select_by_id (d : Db) (id : uuid)
    : list AuctionConfig.row :=
  filter (fun r => jseqb (AuctionConfig.id r) id) (auction_config d).

(** Modelled from the spec: [update_updated_at_column()] on a row of
    [auction_config] ([update_auction_config_updated_at]); see
    [update_auction_timer_updated_at]. *)
Definition update_auction_config_updated_at (s : Session)
    (r : AuctionConfig.row) : AuctionConfig.row :=
  AuctionConfig.set_updated_at (now s) r.

(** [.update({ is_active }).eq("id", id)], under the organizer policy and
    the trigger. *)
Definition auction_config_update_is_active (s : Session) (d : Db)
    (id : uuid) (b : bool) : response unit * Db :=
  (Data tt,
   with_auction_config d
     (update_where
        (fun r => jseqb (AuctionConfig.id r) id
                  && organizer_policy d s (AuctionConfig.tournament_id r))
        (fun r => update_auction_config_updated_at s
                    (AuctionConfig.set_is_active (Some b) r))
        (auction_config d))).

(** *** [tournament_captain] *)

Definition captain_active_of (tid : uuid) (r : Captain.row) : bool :=
  jseqb (Captain.tournament_id r) tid && is_true (Captain.is_active r).

(** [a] may come before [b] when ordering by votes, descending. *)
Definition votes_desc (a b : Captain.row) : bool :=
  Captain.votes b <=? Captain.votes a.

(** [.select("*").eq("tournament_id", tid).eq("is_active", true)
     .order("votes", { ascending: false })]. *)
Definition tournament_captain_select_by_votes (d : Db) (tid : uuid)
    : response (list Captain.row) :=
  Data (order_by votes_desc
          (filter (captain_active_of tid) (tournament_captain d))).

(** [... .order("created_at", { ascending: false })]. *)
Definition tournament_captain_select_recent (d : Db) (tid : uuid)
    : response (list Captain.row) :=
  Data (order_by (fun a b => Captain.created_at b <=? Captain.created_at a)
          (filter (captain_active_of tid) (tournament_captain d))).

(** [.insert({ tournament_id, name, mobile, photo_url, created_by })]:
    [votes] defaults to 0, [is_active] to true, [created_at] to [now()]. *)
Definition tournament_captain_insert (s : Session) (d : Db)
    (tid : uuid) (name mobile : jsstring) (photo_url : option jsstring)
    (created_by : option uuid) : response unit * Db :=
  if negb (organizer_policy d s tid)
  then (Failed (rls_violation "tournament_captain"), d)
  else if existsb (fun r => jseqb (Captain.id r) (gen_random_uuid s))
                  (tournament_captain d)
  then (Failed (duplicate_key "tournament_captain_pkey"), d)
  else
    (Data tt,
     with_tournament_captain d
       (tournament_captain d ++
        [ {| Captain.id := gen_random_uuid s;
             Captain.tournament_id := tid;
             Captain.name := name;
             Captain.mobile := mobile;
             Captain.photo_url := photo_url;
             Captain.votes := 0;
             Captain.created_by := created_by;
             Captain.created_at := now s;
             Captain.is_active := Some true |} ])).

(** *** [teams] *)

(** [.select("*").eq("tournament_id", tid)
     .order("created_at", { ascending: true })]. *)
Definition teams_select (d : Db) (tid : uuid) : response (list Team.row) :=
  Data (order_by (fun a b => Team.created_at a <=? Team.created_at b)
          (filter (fun r => jseqb (Team.tournament_id r) tid) (teams d))).

(** Modelled from the spec: teams are written by the organizer of their
    tournament ("enforces row-level authorization by owner/organizer
    identity"); the request body is JSON, where a Number that is not
    finite is [null].
    [.insert({ tournament_id, name, captain_id, budget_remaining,
               owner_id })]. *)
Definition teams_insert (s : Session) (d : Db) (tid : uuid)
    (name : jsstring) (captain_id : option uuid) (budget_remaining : jsnum)
    (owner_id : option uuid) : response unit * Db :=
  match json_number budget_remaining with
  | None => (Failed (not_null_violation "budget_remaining" "teams"), d)
  | Some budget =>
      if negb (organizer_policy d s tid)
      then (Failed (rls_violation "teams"), d)
      else if existsb (fun r => jseqb (Team.id r) (gen_random_uuid s))
                      (teams d)
      then (Failed (duplicate_key "teams_pkey"), d)
      else
        (Data tt,
         with_teams d
           (teams d ++
            [ {| Team.id := gen_random_uuid s;
                 Team.tournament_id := tid;
                 Team.name := name;
                 Team.logo_url := None;
                 Team.captain_id := captain_id;
                 Team.budget_remaining := budget;
                 Team.owner_id := owner_id;
                 Team.created_at := now s |} ]))
  end.

(** *** Constraints of the schema *)

Fixpoint distinct (l : list jsstring) : bool :=
  match l with
  | [] => true
  | x :: r => negb (existsb (jseqb x) r) && distinct r
  end.

(** Primary keys are distinct and are not the empty string (they are
    UUIDs); [auction_timer.tournament_id] is UNIQUE. *)
Definition constraints_hold (d : Db) : bool :=
  distinct (map Tournament.id (tournaments d))
  && forallb truthy (map Tournament.id (tournaments d))
  && distinct (map AuctionTimer.id (auction_timer d))
  && forallb truthy (map AuctionTimer.id (auction_timer d))
  && distinct (map AuctionTimer.tournament_id (auction_timer d))
  && distinct (map AuctionConfig.id (auction_config d))
  && distinct (map Captain.id (tournament_captain d))
  && distinct (map Team.id (teams d)).

End Store.

(* ===================================================================== *)
(** ** The monad of the event handlers *)
(* ===================================================================== *)

Module App.
Import Store.

(** [useAuth().user]. *)
Module Auth.
Record User := { id : uuid }.
End Auth.

Inductive Variant : Type := Default | Destructive.

(** The argument of [toast({ title, description, variant })]. *)
Record Toast := {
  title : jsstring;
  description : jsstring;
  variant : Variant
}.

(** The statements a component sends through the Supabase client. *)
Inductive Request : Type :=
  | TournamentsSelectSingle (id : uuid)
  | TournamentsUpdateIsVotingLive (id : uuid) (is_voting_live : bool)
  | AuctionTimerSelectMaybeSingle (tournament_id : uuid)
  | AuctionTimerUpdateBidTime (id : uuid) (bid_time : Z)
  | AuctionTimerInsert (tournament_id : uuid) (bid_time : Z)
  | AuctionConfigSelectActive (tournament_id : uuid)
  | AuctionConfigUpdateIsActive (id : uuid) (is_active : bool)
  | CaptainSelectByVotes (tournament_id : uuid)
  | CaptainSelectRecent (tournament_id : uuid)
  | CaptainInsert (tournament_id : uuid) (name mobile : jsstring)
      (photo_url : option jsstring) (created_by : option uuid)
  | TeamsSelect (tournament_id : uuid)
  | TeamsInsert (tournament_id : uuid) (name : jsstring)
      (captain_id : option uuid) (budget_remaining : jsnum)
      (owner_id : option uuid).

(** Everything outside the component: the store, the notifications
    shown, the routes navigated to and the requests sent, oldest first. *)
Record World := {
  db : Db;
  toasts : list Toast;
  navigations : list jsstring;
  requests : list Request
}.

Definition world_of (d : Db) : World :=
  {| db := d; toasts := []; navigations := []; requests := [] |}.

(** What a handler reads but cannot change: the signed-in user, and the
    clock and identifier source of the store. The store sees the same
    user as [auth.uid()]. *)
Record Env := {
  user : option Auth.User;
  clock : timestamp;
  next_uuid : uuid
}.

Definition session (e : Env) : Session :=
  {| uid := option_map Auth.id (user e);
     now := clock e;
     gen_random_uuid := next_uuid e |}.

Inductive outcome (A : Type) : Type :=
  | Returned (a : A)
  | Thrown (e : Error).
Arguments Returned {A} a.
Arguments Thrown {A} e.

(** A handler of a component with state [S]. *)
Definition M (S A : Type) : Type :=
  Env -> S -> World -> outcome A * S * World.

Definition ret {S A : Type} (a : A) : M S A :=
  fun _ st w => (Returned a, st, w).

Definition bind {S A B : Type} (m : M S A) (k : A -> M S B) : M S B :=
  fun env st w =>
    match m env st w with
    | (Returned a, st', w') => k a env st' w'
    | (Thrown e, st', w') => (Thrown e, st', w')
    end.

Definition throw {S A : Type} (e : Error) : M S A :=
  fun _ st w => (Thrown e, st, w).

(** [try { body } catch (error) { handler(error) }]. *)
Definition try_catch {S A : Type} (body : M S A) (handler : Error -> M S A)
    : M S A :=
  fun env st w =>
    match body env st w with
    | (Returned a, st', w') => (Returned a, st', w')
    | (Thrown e, st', w') => handler e env st' w'
    end.

(** [try { body } finally { final }]: [final] runs on both exits and the
    exit of [body] is kept. *)
Definition finally {S A : Type} (body : M S A) (final : M S unit)
    : M S A :=
  fun env st w =>
    match body env st w with
    | (r, st', w') =>
        match final env st' w' with
        | (Returned _, st'', w'') => (r, st'', w'')
        | (Thrown e, st'', w'') => (Thrown e, st'', w'')
        end
    end.

(** The state as the handler's closure sees it. *)
Definition get {S : Type} : M S S :=
  fun _ st w => (Returned st, st, w).

(** A [useState] setter. *)
Definition set {S : Type} (f : S -> S) : M S unit :=
  fun _ st w => (Returned tt, f st, w).

Definition ask {S : Type} : M S Env :=
  fun env st w => (Returned env, st, w).

Definition toast {S : Type} (t : Toast) : M S unit :=
  fun _ st w =>
    (Returned tt, st,
     {| db := db w; toasts := toasts w ++ [t];
        navigations := navigations w; requests := requests w |}).

Definition navigate {S : Type} (to : jsstring) : M S unit :=
  fun _ st w =>
    (Returned tt, st,
     {| db := db w; toasts := toasts w;
        navigations := navigations w ++ [to]; requests := requests w |}).

(** [await supabase.from(...)...]: the request is sent, the store runs
    the statement and the reply comes back; the client never throws. *)
Definition supabase {S A : Type} (r : Request)
    (statement : Session -> Db -> response A * Db) : M S (response A) :=
  fun env st w =>
    let (reply, d) := statement (session env) (db w) in
    (Returned reply, st,
     {| db := d; toasts := toasts w; navigations := navigations w;
        requests := requests w ++ [r] |}).

(** [if (error) throw error]. *)
Definition or_throw {S A : Type} (r : response A) : M S A :=
  match r with
  | Data a => ret a
  | Failed e => throw e
  end.

(** The notification of every [catch] block:
    [description: error.message || fallback]. *)
Definition error_toast (e : Error) (fallback : string) : Toast :=
  {| title := js "Error";
     description := or_else (message e) (js fallback);
     variant := Destructive |}.

Definition validation_error (text : string) : Toast :=
  {| title := js "Validation Error";
     description := js text;
     variant := Destructive |}.

(** Running a handler from a given state of the component and the
    world. *)
Definition run {S A : Type} (m : M S A) (env : Env) (st : S) (w : World)
    : S * World :=
  match m env st w with (_, st', w') => (st', w') end.

End App.

Import Store App.

Declare Scope app_scope.
Delimit Scope app_scope with app.
Notation "x <- m ;; k" := (bind m (fun x => k))
  (at level 61, m at next level, right associativity) : app_scope.
Notation "m ;; k" := (bind m (fun _ => k))
  (at level 61, right associativity) : app_scope.
Local Open Scope app_scope.

(* ===================================================================== *)
(** ** [BidTimerConfigModal] *)
(* ===================================================================== *)

Module BidTimerConfigModal.

(** The [useState] cells of the modal and its [open] prop, which the
    parent keeps and [onOpenChange] sets ([setTimerModalOpen] in
    [TournamentActionMenu]). *)
Record State := {
  open : bool;
  bidTime : jsstring;
  loading : bool;
  saving : bool;
  existingId : option uuid
}.

Definition initial : State :=
  {| open := false; bidTime := js "10"; loading := false; saving := false;
     existingId := None |}.

Definition onOpenChange (b : bool) : M State unit :=
  set (fun s => {| open := b; bidTime := bidTime s; loading := loading s;
                   saving := saving s; existingId := existingId s |}).
Definition setBidTime (v : jsstring) : M State unit :=
  set (fun s => {| open := open s; bidTime := v; loading := loading s;
                   saving := saving s; existingId := existingId s |}).
Definition setLoading (b : bool) : M State unit :=
  set (fun s => {| open := open s; bidTime := bidTime s; loading := b;
                   saving := saving s; existingId := existingId s |}).
Definition setSaving (b : bool) : M State unit :=
  set (fun s => {| open := open s; bidTime := bidTime s;
                   loading := loading s; saving := b;
                   existingId := existingId s |}).
Definition setExistingId (i : option uuid) : M State unit :=
  set (fun s => {| open := open s; bidTime := bidTime s;
                   loading := loading s; saving := saving s;
                   existingId := i |}).

(** The notification of a saved configuration. *)
Definition saved : Toast :=
  {| title := js "Success";
     description := js "Bid timer configuration saved.";
     variant := Default |}.

Section Component.
Variable tournamentId : uuid.

Definition fetchTimer : M State unit :=
  setLoading true ;;
  finally
    (try_catch
       (reply <- supabase (AuctionTimerSelectMaybeSingle tournamentId)
                   (fun _ d =>
                      (auction_timer_select_maybeSingle d tournamentId, d)) ;;
        data <- or_throw reply ;;
        match data with
        | Some row =>
            setBidTime (toString (AuctionTimer.bid_time row)) ;;
            setExistingId (Some (AuctionTimer.id row))
        | None =>
            setBidTime (js "10") ;;
            setExistingId None
        end)
       (fun error =>
          toast (error_toast error "Failed to load timer config.")))
    (setLoading false).

(** [useEffect(() => { if (open) fetchTimer(); }, [open, tournamentId])]. *)
Definition useEffect : M State unit :=
  s <- get ;;
  if open s then fetchTimer else ret tt.

Definition handleSubmit : M State unit :=
  s <- get ;;
  let bidTimeNum := parseInt (bidTime s) in
  if isNaN bidTimeNum || lt bidTimeNum 5 || gt bidTimeNum 120 then
    toast (validation_error "Bid time must be between 5 and 120 seconds.")
  else
    let bid_time := match bidTimeNum with Some v => v | None => 0 end in
    setSaving true ;;
    finally
      (try_catch
         ((if truthy_opt (existingId s) then
             let id := match existingId s with Some i => i | None => [] end in
             reply <- supabase (AuctionTimerUpdateBidTime id bid_time)
                        (fun ses d =>
                           auction_timer_update_bid_time ses d id bid_time) ;;
             or_throw reply
           else
             reply <- supabase (AuctionTimerInsert tournamentId bid_time)
                        (fun ses d =>
                           auction_timer_insert ses d tournamentId bid_time) ;;
             or_throw reply) ;;
          toast saved ;;
          onOpenChange false)
         (fun error =>
            toast (error_toast error "Failed to save timer config.")))
      (setSaving false).

(** The form is rendered while the dialog is open and not loading. *)
Definition form_shown (s : State) : bool := open s && negb (loading s).

(** One round of configuration as the organizer performs it: the menu
    item opens the dialog ([onOpenChange(true)]), the effect loads the
    timer, the field is edited ([onChange] is [setBidTime]) and the form
    is submitted. *)
Definition configure (text : jsstring) : M State unit :=
  onOpenChange true ;;
  useEffect ;;
  s <- get ;;
  if form_shown s then setBidTime text ;; handleSubmit else ret tt.

End Component.
End BidTimerConfigModal.

(* ===================================================================== *)
(** ** [TournamentActionMenu] *)
(* ===================================================================== *)

Module TournamentActionMenu.

(** [votingToggled] counts the calls of the [onVotingToggle] prop, the
    parent's way to learn that it must read the tournament again. *)
Record State := {
  categoryModalOpen : bool;
  timerModalOpen : bool;
  isTogglingVoting : bool;
  votingToggled : nat
}.

Definition initial : State :=
  {| categoryModalOpen := false; timerModalOpen := false;
     isTogglingVoting := false; votingToggled := 0 |}.

Definition setIsTogglingVoting (b : bool) : M State unit :=
  set (fun s => {| categoryModalOpen := categoryModalOpen s;
                   timerModalOpen := timerModalOpen s;
                   isTogglingVoting := b;
                   votingToggled := votingToggled s |}).

Definition onVotingToggle : M State unit :=
  set (fun s => {| categoryModalOpen := categoryModalOpen s;
                   timerModalOpen := timerModalOpen s;
                   isTogglingVoting := isTogglingVoting s;
                   votingToggled := S (votingToggled s) |}).

Section Component.
Variable tournamentId : uuid.
Variable numTeams currentTeamsCount : Z.
(** The flag as the parent last read it. *)
Variable isVotingLive : bool.

Definition hasAllTeams : bool := numTeams <=? currentTeamsCount.

Definition handleToggleVoting : M State unit :=
  setIsTogglingVoting true ;;
  finally
    (try_catch
       (reply <- supabase
                   (TournamentsUpdateIsVotingLive tournamentId
                      (negb isVotingLive))
                   (fun ses d =>
                      tournaments_update_is_voting_live ses d tournamentId
                        (negb isVotingLive)) ;;
        or_throw reply ;;
        toast {| title := if isVotingLive then js "Voting Stopped"
                          else js "Voting Started";
                 description :=
                   if isVotingLive then js "Captain voting has been stopped."
                   else js "Captain voting is now live!";
                 variant := Default |} ;;
        onVotingToggle)
       (fun error => toast (error_toast error "Failed to toggle voting.")))
    (setIsTogglingVoting false).

End Component.
End TournamentActionMenu.

(* ===================================================================== *)
(** ** [CategoryConfigModal] *)
(* ===================================================================== *)

Module CategoryConfigModal.

Record State := {
  configs : list AuctionConfig.row;
  loading : bool;
  saving : bool;
  editingId : option uuid;
  category : jsstring;
  maxPlayers : jsstring;
  basePrice : jsstring
}.

Definition initial : State :=
  {| configs := []; loading := false; saving := false; editingId := None;
     category := []; maxPlayers := []; basePrice := [] |}.

Definition setConfigs (l : list AuctionConfig.row) : M State unit :=
  set (fun s => {| configs := l; loading := loading s; saving := saving s;
                   editingId := editingId s; category := category s;
                   maxPlayers := maxPlayers s; basePrice := basePrice s |}).
Definition setLoading (b : bool) : M State unit :=
  set (fun s => {| configs := configs s; loading := b; saving := saving s;
                   editingId := editingId s; category := category s;
                   maxPlayers := maxPlayers s; basePrice := basePrice s |}).

Section Component.
Variable tournamentId : uuid.

Definition fetchConfigs : M State unit :=
  setLoading true ;;
  finally
    (try_catch
       (reply <- supabase (AuctionConfigSelectActive tournamentId)
                   (fun _ d =>
                      (auction_config_select_active d tournamentId, d)) ;;
        data <- or_throw reply ;;
        setConfigs data)
       (fun error =>
          toast (error_toast error "Failed to load category config.")))
    (setLoading false).

(** [fetchConfigs()] is not awaited and handles its own errors. *)
Definition handleDelete (id : uuid) : M State unit :=
  try_catch
    (reply <- supabase (AuctionConfigUpdateIsActive id false)
                (fun ses d => auction_config_update_is_active ses d id false) ;;
     or_throw reply ;;
     toast {| title := js "Success"; description := js "Category deleted.";
              variant := Default |} ;;
     fetchConfigs)
    (fun error => toast (error_toast error "Failed to delete category.")).

End Component.
End CategoryConfigModal.

(* ===================================================================== *)
(** ** [CreateTeams] *)
(* ===================================================================== *)

Module CreateTeams.

(** A registered player found by the captain search. *)
Record Player := {
  id : uuid;
  user_id : uuid;
  full_name : jsstring;
  mobile : jsstring
}.

Record State := {
  tournament : option Tournament.row;
  teams : list Team.row;
  loading : bool;
  creating : bool;
  teamName : jsstring;
  teamBudget : jsstring;
  selectedCaptain : option Player
}.

Definition initial : State :=
  {| tournament := None; teams := []; loading := true; creating := false;
     teamName := []; teamBudget := []; selectedCaptain := None |}.

Definition setTournament (t : option Tournament.row) : M State unit :=
  set (fun s => {| tournament := t; teams := teams s; loading := loading s;
                   creating := creating s; teamName := teamName s;
                   teamBudget := teamBudget s;
                   selectedCaptain := selectedCaptain s |}).
Definition setTeams (l : list Team.row) : M State unit :=
  set (fun s => {| tournament := tournament s; teams := l;
                   loading := loading s; creating := creating s;
                   teamName := teamName s; teamBudget := teamBudget s;
                   selectedCaptain := selectedCaptain s |}).
Definition setLoading (b : bool) : M State unit :=
  set (fun s => {| tournament := tournament s; teams := teams s;
                   loading := b; creating := creating s;
                   teamName := teamName s; teamBudget := teamBudget s;
                   selectedCaptain := selectedCaptain s |}).
Definition setCreating (b : bool) : M State unit :=
  set (fun s => {| tournament := tournament s; teams := teams s;
                   loading := loading s; creating := b;
                   teamName := teamName s; teamBudget := teamBudget s;
                   selectedCaptain := selectedCaptain s |}).
Definition setTeamName (v : jsstring) : M State unit :=
  set (fun s => {| tournament := tournament s; teams := teams s;
                   loading := loading s; creating := creating s;
                   teamName := v; teamBudget := teamBudget s;
                   selectedCaptain := selectedCaptain s |}).
Definition setTeamBudget (v : jsstring) : M State unit :=
  set (fun s => {| tournament := tournament s; teams := teams s;
                   loading := loading s; creating := creating s;
                   teamName := teamName s; teamBudget := v;
                   selectedCaptain := selectedCaptain s |}).
Definition setSelectedCaptain (p : option Player) : M State unit :=
  set (fun s => {| tournament := tournament s; teams := teams s;
                   loading := loading s; creating := creating s;
                   teamName := teamName s; teamBudget := teamBudget s;
                   selectedCaptain := p |}).

(** [user && tournamentData.organizer_id !== user.id]. *)
Definition not_the_organizer (u : option Auth.User) (t : Tournament.row)
    : bool :=
  match u with
  | Some usr => negb (jseqb (Tournament.organizer_id t) (Auth.id usr))
  | None => false
  end.

Section Component.
Variable tournamentId : uuid.

(** The branch [if (!tournamentData)] after [.single()] is never taken:
    a reply without an error carries the row. *)
Definition fetchTournamentAndTeams : M State unit :=
  setLoading true ;;
  finally
    (try_catch
       (reply <- supabase (TournamentsSelectSingle tournamentId)
                   (fun _ d => (tournaments_select_single d tournamentId, d)) ;;
        tournamentData <- or_throw reply ;;
        env <- ask ;;
        if not_the_organizer (user env) tournamentData then
          toast {| title := js "Access Denied";
                   description := js "Only the organizer can manage teams.";
                   variant := Destructive |} ;;
          navigate (js "/tournaments/" ++ tournamentId)
        else
          setTournament (Some tournamentData) ;;
          setTeamBudget (toString (Tournament.team_budget tournamentData)) ;;
          reply <- supabase (TeamsSelect tournamentId)
                     (fun _ d => (teams_select d tournamentId, d)) ;;
          teamsData <- or_throw reply ;;
          setTeams teamsData)
       (fun error =>
          toast (error_toast error "Failed to load tournament data.")))
    (setLoading false).

(** [fetchTournamentAndTeams()] at the end of the [try] block is not
    awaited; it touches [loading], [tournament], [teamBudget] and [teams]
    only, so running it before [setCreating(false)] gives the state the
    page settles in. *)
Definition handleCreateTeam : M State unit :=
  s <- get ;;
  env <- ask ;;
  if negb (truthy (trim (teamName s))) then
    toast (validation_error "Team name is required.")
  else if negb (truthy (teamBudget s))
          || le_zero (parseFloat (teamBudget s)) then
    toast (validation_error "Please enter a valid team budget.")
  else
    setCreating true ;;
    finally
      (try_catch
         (let captain_id :=
            match selectedCaptain s with
            | Some p => if truthy (user_id p) then Some (user_id p) else None
            | None => None
            end in
          let owner_id := option_map Auth.id (user env) in
          reply <- supabase
                     (TeamsInsert tournamentId (trim (teamName s)) captain_id
                        (parseFloat (teamBudget s)) owner_id)
                     (fun ses d =>
                        teams_insert ses d tournamentId (trim (teamName s))
                          captain_id (parseFloat (teamBudget s)) owner_id) ;;
          or_throw reply ;;
          toast {| title := js "Success";
                   description :=
                     js "Team " ++ [34%N] ++ teamName s ++ [34%N]
                     ++ js " created successfully.";
                   variant := Default |} ;;
          setTeamName [] ;;
          setSelectedCaptain None ;;
          setTeamBudget
            (match tournament s with
             | Some t => or_else (toString (Tournament.team_budget t)) []
             | None => []
             end) ;;
          fetchTournamentAndTeams)
         (fun error => toast (error_toast error "Failed to create team.")))
      (setCreating false).

End Component.

(** What the page renders, as far as the creation form and the banner
    are concerned. *)
Inductive View : Type :=
  | Spinner
  | TournamentNotFound
  | Page (createTeamForm : bool) (banner : option jsstring).

Definition canCreateMore (s : State) (t : Tournament.row) : bool :=
  Z.of_nat (List.length (teams s)) <? Tournament.number_of_teams t.

Definition render (s : State) : View :=
  if loading s then Spinner
  else
    match tournament s with
    | None => TournamentNotFound
    | Some t =>
        Page (canCreateMore s t)
             (if negb (canCreateMore s t)
              then Some (js "All " ++ toString (Tournament.number_of_teams t)
                         ++ js " teams have been created!")
              else None)
    end.

End CreateTeams.

(* ===================================================================== *)
(** ** [CreateCaptains] *)
(* ===================================================================== *)

Module CreateCaptains.

Record State := {
  tournament : option Tournament.row;
  captains : list Captain.row;
  loading : bool;
  creating : bool;
  captainName : jsstring;
  captainMobile : jsstring;
  photoPreview : option jsstring
}.

Definition initial : State :=
  {| tournament := None; captains := []; loading := true;
     creating := false; captainName := []; captainMobile := [];
     photoPreview := None |}.

Definition setTournament (t : option Tournament.row) : M State unit :=
  set (fun s => {| tournament := t; captains := captains s;
                   loading := loading s; creating := creating s;
                   captainName := captainName s;
                   captainMobile := captainMobile s;
                   photoPreview := photoPreview s |}).
Definition setCaptains (l : list Captain.row) : M State unit :=
  set (fun s => {| tournament := tournament s; captains := l;
                   loading := loading s; creating := creating s;
                   captainName := captainName s;
                   captainMobile := captainMobile s;
                   photoPreview := photoPreview s |}).
Definition setLoading (b : bool) : M State unit :=
  set (fun s => {| tournament := tournament s; captains := captains s;
                   loading := b; creating := creating s;
                   captainName := captainName s;
                   captainMobile := captainMobile s;
                   photoPreview := photoPreview s |}).
Definition setCreating (b : bool) : M State unit :=
  set (fun s => {| tournament := tournament s; captains := captains s;
                   loading := loading s; creating := b;
                   captainName := captainName s;
                   captainMobile := captainMobile s;
                   photoPreview := photoPreview s |}).
Definition setCaptainName (v : jsstring) : M State unit :=
  set (fun s => {| tournament := tournament s; captains := captains s;
                   loading := loading s; creating := creating s;
                   captainName := v; captainMobile := captainMobile s;
                   photoPreview := photoPreview s |}).
Definition setCaptainMobile (v : jsstring) : M State unit :=
  set (fun s => {| tournament := tournament s; captains := captains s;
                   loading := loading s; creating := creating s;
                   captainName := captainName s; captainMobile := v;
                   photoPreview := photoPreview s |}).
Definition setPhotoPreview (v : option jsstring) : M State unit :=
  set (fun s => {| tournament := tournament s; captains := captains s;
                   loading := loading s; creating := creating s;
                   captainName := captainName s;
                   captainMobile := captainMobile s; photoPreview := v |}).

Section Component.
Variable tournamentId : uuid.

Definition fetchCaptains : M State unit :=
  reply <- supabase (CaptainSelectRecent tournamentId)
             (fun _ d => (tournament_captain_select_recent d tournamentId, d)) ;;
  data <- or_throw reply ;;
  setCaptains data.

Definition fetchData : M State unit :=
  setLoading true ;;
  finally
    (try_catch
       (reply <- supabase (TournamentsSelectSingle tournamentId)
                   (fun _ d => (tournaments_select_single d tournamentId, d)) ;;
        tournamentData <- or_throw reply ;;
        env <- ask ;;
        if CreateTeams.not_the_organizer (user env) tournamentData then
          toast {| title := js "Access Denied";
                   description := js "Only the organizer can manage captains.";
                   variant := Destructive |} ;;
          navigate (js "/tournaments/" ++ tournamentId)
        else if negb (Tournament.captain_voting_enabled tournamentData) then
          toast {| title := js "Not Available";
                   description :=
                     js "Captain voting is not enabled for this tournament.";
                   variant := Destructive |} ;;
          navigate (js "/tournaments/" ++ tournamentId)
        else
          setTournament (Some tournamentData) ;;
          fetchCaptains)
       (fun error =>
          toast (error_toast error "Failed to load tournament data.")))
    (setLoading false).

Definition handleCreateCaptain : M State unit :=
  s <- get ;;
  env <- ask ;;
  if negb (truthy (trim (captainName s)))
     || negb (truthy (trim (captainMobile s))) then
    toast (validation_error "Name and mobile number are required.")
  else if jslength (captainMobile s) <? 10 then
    toast (validation_error "Please enter a valid mobile number.")
  else
    setCreating true ;;
    finally
      (try_catch
         (reply <- supabase
                     (CaptainInsert tournamentId (trim (captainName s))
                        (trim (captainMobile s)) (photoPreview s)
                        (option_map Auth.id (user env)))
                     (fun ses d =>
                        tournament_captain_insert ses d tournamentId
                          (trim (captainName s)) (trim (captainMobile s))
                          (photoPreview s) (option_map Auth.id (user env))) ;;
          or_throw reply ;;
          toast {| title := js "Success";
                   description :=
                     js "Captain " ++ [34%N] ++ captainName s ++ [34%N]
                     ++ js " added successfully.";
                   variant := Default |} ;;
          setCaptainName [] ;;
          setCaptainMobile [] ;;
          setPhotoPreview None ;;
          fetchCaptains)
         (fun error => toast (error_toast error "Failed to add captain.")))
      (setCreating false).

End Component.
End CreateCaptains.

(* ===================================================================== *)
(** ** [ViewCaptainVotes] *)
(* ===================================================================== *)

Module ViewCaptainVotes.

Record State := {
  tournament : option Tournament.row;
  captains : list Captain.row;
  loading : bool
}.

Definition initial : State :=
  {| tournament := None; captains := []; loading := true |}.

Definition setTournament (t : option Tournament.row) : M State unit :=
  set (fun s => {| tournament := t; captains := captains s;
                   loading := loading s |}).
Definition setCaptains (l : list Captain.row) : M State unit :=
  set (fun s => {| tournament := tournament s; captains := l;
                   loading := loading s |}).
Definition setLoading (b : bool) : M State unit :=
  set (fun s => {| tournament := tournament s; captains := captains s;
                   loading := b |}).

Section Component.
Variable tournamentId : uuid.

Definition fetchData : M State unit :=
  setLoading true ;;
  finally
    (try_catch
       (reply <- supabase (TournamentsSelectSingle tournamentId)
                   (fun _ d => (tournaments_select_single d tournamentId, d)) ;;
        tournamentData <- or_throw reply ;;
        setTournament (Some tournamentData) ;;
        reply <- supabase (CaptainSelectByVotes tournamentId)
                   (fun _ d =>
                      (tournament_captain_select_by_votes d tournamentId, d)) ;;
        captainsData <- or_throw reply ;;
        setCaptains captainsData)
       (fun error =>
          toast (error_toast error "Failed to load voting data.")))
    (setLoading false).

End Component.

(** [captains.length > 0 ? Math.max(...captains.map((c) => c.votes), 1) : 1] *)
Definition maxVotes (captains : list Captain.row) : Z :=
  if (0 <? List.length captains)%nat
  then Math_max (map Captain.votes captains)
  else 1.

(** [captains.reduce((sum, c) => sum + c.votes, 0)] *)
Definition totalVotes (captains : list Captain.row) : Z :=
  fold_left (fun sum c => sum + Captain.votes c) captains 0.

(** [(captain.votes / maxVotes) * 100], the value of a progress bar, as an
    exact fraction; a division by zero has no such value. *)
Definition progress (captains : list Captain.row) (captain : Captain.row)
    : option Q :=
  if maxVotes captains =? 0 then None
  else Some (inject_Z (Captain.votes captain)
             / inject_Z (maxVotes captains) * inject_Z 100)%Q.

End ViewCaptainVotes.

(* ===================================================================== *)
(** ** The claims in the words of the specification *)
(* ===================================================================== *)

Module Spec.

(** "totalVotes = sum(votes)". *)
Definition sum (votes : list Z) : Z := fold_right Z.add 0 votes.

(** "ordered by votes descending". *)
Definition by_votes_descending (l : list Captain.row) : Prop :=
  StronglySorted (fun a b => Captain.votes b <= Captain.votes a) l.

(** "the budget is a strictly positive number". *)
Definition strictly_positive_number (text : jsstring) : bool :=
  gt_zero (parseFloat text).

(** "a non-empty trimmed team name and a strictly positive numeric
    budget". *)
Definition team_submission_valid (s : CreateTeams.State) : bool :=
  truthy (trim (CreateTeams.teamName s))
  && strictly_positive_number (CreateTeams.teamBudget s).

(** A submission is rejected client-side: a validation notification is
    shown, nothing is sent to the store and the store is as before. *)
Definition rejected_client_side (before after : World) : Prop :=
  (exists text, toasts after = toasts before ++ [validation_error text])
  /\ requests after = requests before
  /\ db after = db before.

(** The team-creation claim as the specification states it, for one
    submission. *)
Definition team_creation_claim (tournamentId : uuid) (env : Env)
    (s : CreateTeams.State) (w : World) : Prop :=
  let w' := snd (run (CreateTeams.handleCreateTeam tournamentId) env s w) in
  (teams (db w') <> teams (db w) -> team_submission_valid s = true)
  /\ (team_submission_valid s = false -> rejected_client_side w w').

(** "the mobile number has at least 10 characters" and "non-empty name". *)
Definition captain_submission_valid (s : CreateCaptains.State) : bool :=
  truthy (trim (CreateCaptains.captainName s))
  && (10 <=? jslength (CreateCaptains.captainMobile s)).

(** The rows of [auction_timer] that belong to a tournament. *)
Definition timer_rows (d : Db) (tournament_id : uuid)
    : list AuctionTimer.row :=
  filter (fun r => jseqb (AuctionTimer.tournament_id r) tournament_id)
         (auction_timer d).

End Spec.

(* ===================================================================== *)
(** ** Sample data *)
(* ===================================================================== *)

Module Sample.

Definition organizer : Auth.User := {| Auth.id := js "u-organizer" |}.
Definition visitor : Auth.User := {| Auth.id := js "u-visitor" |}.

Definition cup : Tournament.row :=
  {| Tournament.id := js "t-cup";
     Tournament.name := js "Summer Cup";
     Tournament.organizer_id := js "u-organizer";
     Tournament.number_of_teams := 8;
     Tournament.team_budget := 100000;
     Tournament.captain_voting_enabled := true;
     Tournament.is_voting_live := false;
     Tournament.is_auction_live := false |}.

Definition captain (id name : string) (votes : Z) (active : option bool)
    (at_ : Z) : Captain.row :=
  {| Captain.id := js id; Captain.tournament_id := js "t-cup";
     Captain.name := js name; Captain.mobile := js "9876543210";
     Captain.photo_url := None; Captain.votes := votes;
     Captain.created_by := Some (js "u-organizer");
     Captain.created_at := at_; Captain.is_active := active |}.

Definition gold : AuctionConfig.row :=
  {| AuctionConfig.id := js "c-gold";
     AuctionConfig.tournament_id := js "t-cup";
     AuctionConfig.category := js "Gold";
     AuctionConfig.max_players := 5;
     AuctionConfig.base_price := Decimal false 5000 0;
     AuctionConfig.created_by := None;
     AuctionConfig.created_at := 10;
     AuctionConfig.updated_at := 10;
     AuctionConfig.is_active := Some true |}.

Definition silver : AuctionConfig.row :=
  {| AuctionConfig.id := js "c-silver";
     AuctionConfig.tournament_id := js "t-cup";
     AuctionConfig.category := js "Silver";
     AuctionConfig.max_players := 7;
     AuctionConfig.base_price := Decimal false 1000 0;
     AuctionConfig.created_by := None;
     AuctionConfig.created_at := 11;
     AuctionConfig.updated_at := 11;
     AuctionConfig.is_active := Some true |}.

(** A tournament of eight teams with none created yet, two categories
    and four captains, two of them level on votes and one retired. *)
Definition store : Db :=
  {| tournaments := [cup];
     teams := [];
     auction_config := [gold; silver];
     auction_timer := [];
     tournament_captain :=
       [ captain "k-asha" "Asha" 3 (Some true) 1;
         captain "k-ravi" "Ravi" 5 (Some true) 2;
         captain "k-meera" "Meera" 3 (Some true) 3;
         captain "k-john" "John" 9 (Some false) 4 ] |}.

Definition env_of (u : option Auth.User) (t : Z) (fresh : string) : Env :=
  {| user := u; clock := t; next_uuid := js fresh |}.

Definition by_organizer : Env := env_of (Some organizer) 100 "id-100".
Definition by_visitor : Env := env_of (Some visitor) 100 "id-100".

(** The team form filled with a name and a budget. *)
Definition team_form (name budget : string) : CreateTeams.State :=
  {| CreateTeams.tournament := Some cup; CreateTeams.teams := [];
     CreateTeams.loading := false; CreateTeams.creating := false;
     CreateTeams.teamName := js name; CreateTeams.teamBudget := js budget;
     CreateTeams.selectedCaptain := None |}.

(** The organizer creates the teams named in [names], one after the
    other, each with the budget typed in. *)
Fixpoint create_teams (names : list string) (n : nat)
    (sw : CreateTeams.State * World) : CreateTeams.State * World :=
  match names with
  | [] => sw
  | name :: rest =>
      let (s, w) := sw in
      let (s1, w1) :=
        run (CreateTeams.setTeamName (js name) ;;
             CreateTeams.setTeamBudget (js "50000") ;;
             CreateTeams.handleCreateTeam (js "t-cup"))
            {| user := Some organizer; clock := Z.of_nat n;
               next_uuid := js "team-" ++ toString (Z.of_nat n) |}
            s w in
      create_teams rest (S n) (s1, w1)
  end.

Definition page_loaded : CreateTeams.State * World :=
  run (CreateTeams.fetchTournamentAndTeams (js "t-cup")) by_organizer
      CreateTeams.initial (world_of store).

Definition eight_teams_later : CreateTeams.State * World :=
  create_teams ["Lions"; "Tigers"; "Bears"; "Wolves";
                "Hawks"; "Kings"; "Royals"; "Stars"]%string 1 page_loaded.

End Sample.


From Stdlib Require Import DecimalPos.

(* ===================================================================== *)
(** ** The remaining statements of the store *)
(* ===================================================================== *)

Module StoreMore.

(** [.insert({ tournament_id, category, max_players, base_price })] into
    [auction_config]. The body is JSON: a [parseInt] that is NaN and a
    Number that is not finite are [null], which the NOT NULL columns
    refuse; [max_players] is an INTEGER. The other columns take their
    defaults. *)
Definition auction_config_insert (s : Session) (d : Db) (tid : uuid)
    (category : jsstring) (max_players : option Z) (base_price : jsnum)
    : response unit * Db :=
  match max_players, json_number base_price with
  | None, _ => (Failed (not_null_violation "max_players" "auction_config"), d)
  | _, None => (Failed (not_null_violation "base_price" "auction_config"), d)
  | Some n, Some price =>
      if negb (int4 n) then (Failed (int4_out_of_range n), d)
      else if negb (organizer_policy d s tid)
      then (Failed (rls_violation "auction_config"), d)
      else if existsb (fun r => jseqb (AuctionConfig.id r)
                                      (gen_random_uuid s))
                      (auction_config d)
      then (Failed (duplicate_key "auction_config_pkey"), d)
      else
        (Data tt,
         with_auction_config d
           (auction_config d ++
            [ {| AuctionConfig.id := gen_random_uuid s;
                 AuctionConfig.tournament_id := tid;
                 AuctionConfig.category := category;
                 AuctionConfig.max_players := n;
                 AuctionConfig.base_price := price;
                 AuctionConfig.created_by := None;
                 AuctionConfig.created_at := now s;
                 AuctionConfig.updated_at := now s;
                 AuctionConfig.is_active := Some true |} ]))
  end.

Definition set_config_fields (category : jsstring) (max_players : Z)
    (base_price : jsnum) (r : AuctionConfig.row) : AuctionConfig.row :=
  {| AuctionConfig.id := AuctionConfig.id r;
     AuctionConfig.tournament_id := AuctionConfig.tournament_id r;
     AuctionConfig.category := category;
     AuctionConfig.max_players := max_players;
     AuctionConfig.base_price := base_price;
     AuctionConfig.created_by := AuctionConfig.created_by r;
     AuctionConfig.created_at := AuctionConfig.created_at r;
     AuctionConfig.updated_at := AuctionConfig.updated_at r;
     AuctionConfig.is_active := AuctionConfig.is_active r |}.

(** [.update({ category, max_players, base_price }).eq("id", id)], under
    the organizer policy and the trigger. *)
Definition auction_config_update (s : Session) (d : Db) (id : uuid)
    (category : jsstring) (max_players : option Z) (base_price : jsnum)
    : response unit * Db :=
  match max_players, json_number base_price with
  | None, _ => (Failed (not_null_violation "max_players" "auction_config"), d)
  | _, None => (Failed (not_null_violation "base_price" "auction_config"), d)
  | Some n, Some price =>
      if negb (int4 n) then (Failed (int4_out_of_range n), d)
      else
        (Data tt,
         with_auction_config d
           (update_where
              (fun r => jseqb (AuctionConfig.id r) id
                        && organizer_policy d s
                             (AuctionConfig.tournament_id r))
              (fun r => update_auction_config_updated_at s
                          (set_config_fields category n price r))
              (auction_config d)))
  end.

(** Modelled from the spec: the [profiles] relation of the identity
    provider, "read-only here"; the columns are those of the select in
    [handleSearchCaptain] and of its filter. *)
Record Profile := {
  id : uuid;
  user_id : uuid;
  full_name : jsstring;
  mobile : jsstring;
  is_player_registered : bool
}.

(** [.from("profiles").select("id, user_id, full_name, mobile")
     .eq("mobile", m).eq("is_player_registered", true)]: the rows come in
    scan order. *)
Definition profiles_select_registered (profiles : list Profile)
    (m : jsstring) : response (list CreateTeams.Player) :=
  Data (map (fun p => {| CreateTeams.id := id p;
                         CreateTeams.user_id := user_id p;
                         CreateTeams.full_name := full_name p;
                         CreateTeams.mobile := mobile p |})
            (filter (fun p => jseqb (mobile p) m && is_player_registered p)
                    profiles)).

(** Every row of the three relations of the migration and of [teams]
    refers to a tournament that exists ([REFERENCES public.tournaments]). *)
Definition references_hold (d : Db) : bool :=
  let known (tid : uuid) :=
    existsb (fun t => jseqb (Tournament.id t) tid) (tournaments d) in
  forallb (fun r => known (AuctionConfig.tournament_id r)) (auction_config d)
  && forallb (fun r => known (AuctionTimer.tournament_id r)) (auction_timer d)
  && forallb (fun r => known (Captain.tournament_id r)) (tournament_captain d)
  && forallb (fun r => known (Team.tournament_id r)) (teams d).

(** The constraints of the schema and its references together. *)
Definition schema_ok (d : Db) : Prop :=
  constraints_hold d = true /\ references_hold d = true.

(** The bid times stored lie between 5 and 120 seconds. *)
Definition bid_times_in_range (d : Db) : bool :=
  forallb (fun r => (5 <=? AuctionTimer.bid_time r)
                    && (AuctionTimer.bid_time r <=? 120))
          (auction_timer d).

End StoreMore.

Import StoreMore.

(* ===================================================================== *)
(** ** Decimal numerals *)
(* ===================================================================== *)

Module Numerals.

(** The digits of a decimal numeral, most significant first. *)
Fixpoint uint_digits (d : Decimal.uint) : list Z :=
  match d with
  | Decimal.Nil => []
  | Decimal.D0 r => 0 :: uint_digits r
  | Decimal.D1 r => 1 :: uint_digits r
  | Decimal.D2 r => 2 :: uint_digits r
  | Decimal.D3 r => 3 :: uint_digits r
  | Decimal.D4 r => 4 :: uint_digits r
  | Decimal.D5 r => 5 :: uint_digits r
  | Decimal.D6 r => 6 :: uint_digits r
  | Decimal.D7 r => 7 :: uint_digits r
  | Decimal.D8 r => 8 :: uint_digits r
  | Decimal.D9 r => 9 :: uint_digits r
  end.

(** A text that neither begins nor ends with white space. *)
Definition trimmed (s : jsstring) : bool :=
  match s, rev s with
  | c :: _, d :: _ => negb (is_white_space c) && negb (is_white_space d)
  | _, _ => true
  end.

End Numerals.

Import Numerals.

(* ===================================================================== *)
(** ** Handlers on a part of the state *)
(* ===================================================================== *)

Module Zoom.

(** A handler of the state [S] run where the state is a pair: the second
    part is left alone. *)
Definition zoom {S T A : Type} (m : M S A) : M (S * T) A :=
  fun env st w =>
    match m env (fst st) w with
    | (r, s', w') => (r, (s', snd st), w')
    end.

(** A note kept in the second part of the state. *)
Definition note {S T : Type} (t : T) : M (S * list T) unit :=
  set (fun st => (fst st, snd st ++ [t])).

End Zoom.

Import Zoom.

(* ===================================================================== *)
(** ** [BidTimerConfigModal]: saving what was loaded *)
(* ===================================================================== *)

Module BidTimerRounds.

(** The dialog is opened, the timer is loaded and the form is submitted
    as it stands, the field untouched. *)
Definition save_as_loaded (tournamentId : uuid)
    : M BidTimerConfigModal.State unit :=
  BidTimerConfigModal.onOpenChange true ;;
  BidTimerConfigModal.useEffect tournamentId ;;
  s <- get ;;
  if BidTimerConfigModal.form_shown s
  then BidTimerConfigModal.handleSubmit tournamentId
  else ret tt.

(** The dialog is opened and the timer is loaded. *)
Definition open_dialog (tournamentId : uuid)
    : M BidTimerConfigModal.State unit :=
  BidTimerConfigModal.onOpenChange true ;;
  BidTimerConfigModal.useEffect tournamentId.

End BidTimerRounds.

(* ===================================================================== *)
(** ** [TournamentActionMenu]: the items *)
(* ===================================================================== *)

Module TournamentActionMenuItems.

Section Items.
Variable tournamentId : uuid.
Variable numTeams currentTeamsCount : Z.
Variable isVotingLive : bool.

(** [to={hasAllTeams ? `/tournaments/${tournamentId}/teams`
                     : `/tournaments/${tournamentId}/teams/create`}] *)
Definition teamsLink : jsstring :=
  if TournamentActionMenu.hasAllTeams numTeams currentTeamsCount
  then js "/tournaments/" ++ tournamentId ++ js "/teams"
  else js "/tournaments/" ++ tournamentId ++ js "/teams/create".

(** [{hasAllTeams ? "View Teams" : "Create Teams"}] *)
Definition teamsLabel : jsstring :=
  if TournamentActionMenu.hasAllTeams numTeams currentTeamsCount
  then js "View Teams" else js "Create Teams".

(** [{isVotingLive ? "Stop Voting" : "Start Voting"}] *)
Definition votingLabel : jsstring :=
  if isVotingLive then js "Stop Voting" else js "Start Voting".

End Items.

(** The routes of the two team pages. *)
Definition viewTeamsRoute (tournamentId : uuid) : jsstring :=
  js "/tournaments/" ++ tournamentId ++ js "/teams".
Definition createTeamsRoute (tournamentId : uuid) : jsstring :=
  js "/tournaments/" ++ tournamentId ++ js "/teams/create".

End TournamentActionMenuItems.

(* ===================================================================== *)
(** ** [CategoryConfigModal]: the form *)
(* ===================================================================== *)

Module CategoryConfigForm.
Import CategoryConfigModal.

(** The statements of the form, as sent. *)
Inductive Statement : Type :=
  | AuctionConfigInsert (tournament_id : uuid) (category : jsstring)
      (max_players : option Z) (base_price : jsnum)
  | AuctionConfigUpdate (id : uuid) (category : jsstring)
      (max_players : option Z) (base_price : jsnum).

(** The state of the modal, and the statements the form has sent. *)
Definition FormState : Type := State * list Statement.

Definition setSaving (b : bool) : M State unit :=
  set (fun s => {| configs := configs s; loading := loading s; saving := b;
                   editingId := editingId s; category := category s;
                   maxPlayers := maxPlayers s; basePrice := basePrice s |}).
Definition setEditingId (i : option uuid) : M State unit :=
  set (fun s => {| configs := configs s; loading := loading s;
                   saving := saving s; editingId := i;
                   category := category s; maxPlayers := maxPlayers s;
                   basePrice := basePrice s |}).
Definition setCategory (v : jsstring) : M State unit :=
  set (fun s => {| configs := configs s; loading := loading s;
                   saving := saving s; editingId := editingId s;
                   category := v; maxPlayers := maxPlayers s;
                   basePrice := basePrice s |}).
Definition setMaxPlayers (v : jsstring) : M State unit :=
  set (fun s => {| configs := configs s; loading := loading s;
                   saving := saving s; editingId := editingId s;
                   category := category s; maxPlayers := v;
                   basePrice := basePrice s |}).
Definition setBasePrice (v : jsstring) : M State unit :=
  set (fun s => {| configs := configs s; loading := loading s;
                   saving := saving s; editingId := editingId s;
                   category := category s; maxPlayers := maxPlayers s;
                   basePrice := v |}).

Definition resetForm : M State unit :=
  setCategory [] ;;
  setMaxPlayers [] ;;
  setBasePrice [] ;;
  setEditingId None.

(** The statement is noted, the store runs it and the reply comes back. *)
Definition send {A : Type} (st : Statement)
    (statement : Session -> Db -> response A * Db)
    : M FormState (response A) :=
  note st ;;
  fun env s w =>
    let (reply, d) := statement (session env) (db w) in
    (Returned reply, s,
     {| db := d; toasts := toasts w; navigations := navigations w;
        requests := requests w |}).

Section Component.
Variable tournamentId : uuid.

Definition handleSubmit : M FormState unit :=
  st <- get ;;
  let s := fst st in
  if negb (truthy (category s)) || negb (truthy (maxPlayers s))
     || negb (truthy (basePrice s)) then
    toast (validation_error "All fields are required.")
  else
    zoom (setSaving true) ;;
    finally
      (try_catch
         ((if truthy_opt (editingId s) then
             let id := match editingId s with Some i => i | None => [] end in
             reply <- send
                        (AuctionConfigUpdate id (category s)
                           (parseInt (maxPlayers s))
                           (parseFloat (basePrice s)))
                        (fun ses d =>
                           auction_config_update ses d id (category s)
                             (parseInt (maxPlayers s))
                             (parseFloat (basePrice s))) ;;
             or_throw reply ;;
             toast {| title := js "Success";
                      description := js "Category updated.";
                      variant := Default |}
           else
             reply <- send
                        (AuctionConfigInsert tournamentId (category s)
                           (parseInt (maxPlayers s))
                           (parseFloat (basePrice s)))
                        (fun ses d =>
                           auction_config_insert ses d tournamentId
                             (category s) (parseInt (maxPlayers s))
                             (parseFloat (basePrice s))) ;;
             or_throw reply ;;
             toast {| title := js "Success";
                      description := js "Category added.";
                      variant := Default |}) ;;
          zoom resetForm ;;
          zoom (fetchConfigs tournamentId))
         (fun error => toast (error_toast error "Failed to save category.")))
      (zoom (setSaving false)).

(** [Number.prototype.toString] on the price of a row, a function of the
    engine that is taken as given. *)
Variable Number_toString : jsnum -> jsstring.

Definition handleEdit (config : AuctionConfig.row) : M State unit :=
  setCategory (AuctionConfig.category config) ;;
  setMaxPlayers (toString (AuctionConfig.max_players config)) ;;
  setBasePrice (Number_toString (AuctionConfig.base_price config)) ;;
  setEditingId (Some (AuctionConfig.id config)).

End Component.
End CategoryConfigForm.

(* ===================================================================== *)
(** ** [CreateTeams]: the captain search *)
(* ===================================================================== *)

Module CaptainSearch.

(** The [useState] cells of the search dialog, and the mobile numbers
    looked up in [profiles], as sent. *)
Record Search := {
  searchModalOpen : bool;
  searchMobile : jsstring;
  searchResults : list CreateTeams.Player;
  searching : bool;
  lookups : list jsstring
}.

Definition closed : Search :=
  {| searchModalOpen := false; searchMobile := []; searchResults := [];
     searching := false; lookups := [] |}.

Definition PageState : Type := CreateTeams.State * Search.

Definition on_search (f : Search -> Search) : M PageState unit :=
  set (fun st => (fst st, f (snd st))).

Definition setSearchModalOpen (b : bool) : M PageState unit :=
  on_search (fun s => {| searchModalOpen := b;
                         searchMobile := searchMobile s;
                         searchResults := searchResults s;
                         searching := searching s; lookups := lookups s |}).
Definition setSearchMobile (v : jsstring) : M PageState unit :=
  on_search (fun s => {| searchModalOpen := searchModalOpen s;
                         searchMobile := v;
                         searchResults := searchResults s;
                         searching := searching s; lookups := lookups s |}).
Definition setSearchResults (l : list CreateTeams.Player)
    : M PageState unit :=
  on_search (fun s => {| searchModalOpen := searchModalOpen s;
                         searchMobile := searchMobile s;
                         searchResults := l;
                         searching := searching s; lookups := lookups s |}).
Definition setSearching (b : bool) : M PageState unit :=
  on_search (fun s => {| searchModalOpen := searchModalOpen s;
                         searchMobile := searchMobile s;
                         searchResults := searchResults s;
                         searching := b; lookups := lookups s |}).
Definition look_up (m : jsstring) : M PageState unit :=
  on_search (fun s => {| searchModalOpen := searchModalOpen s;
                         searchMobile := searchMobile s;
                         searchResults := searchResults s;
                         searching := searching s;
                         lookups := lookups s ++ [m] |}).

Section Component.
(** The rows of [profiles] when the search runs. *)
Variable profiles : list Profile.

Definition handleSearchCaptain : M PageState unit :=
  st <- get ;;
  let s := snd st in
  if negb (truthy (searchMobile s)) || (jslength (searchMobile s) <? 10) then
    toast (validation_error "Please enter a valid mobile number.")
  else
    setSearching true ;;
    finally
      (try_catch
         (look_up (searchMobile s) ;;
          data <- or_throw
                    (profiles_select_registered profiles (searchMobile s)) ;;
          setSearchResults data ;;
          if (List.length data =? 0)%nat then
            toast {| title := js "No Results";
                     description :=
                       js "No registered player found with this mobile number.";
                     variant := Default |}
          else ret tt)
         (fun error => toast (error_toast error "Failed to search players.")))
      (setSearching false).

End Component.

Definition handleSelectCaptain (player : CreateTeams.Player)
    : M PageState unit :=
  zoom (CreateTeams.setSelectedCaptain (Some player)) ;;
  setSearchModalOpen false ;;
  setSearchMobile [] ;;
  setSearchResults [].

End CaptainSearch.

(* ===================================================================== *)
(** ** [ViewTeams] *)
(* ===================================================================== *)

Module ViewTeams.

(** The [useState] cells of the page. Of the tournament the page selects
    [id], [name] and [number_of_teams]; the row stands for these columns. *)
Record State := {
  tournament : option Tournament.row;
  teams : list Team.row;
  loading : bool
}.

Definition initial : State :=
  {| tournament := None; teams := []; loading := true |}.

Definition setTournament (t : option Tournament.row) : M State unit :=
  set (fun s => {| tournament := t; teams := teams s;
                   loading := loading s |}).
Definition setTeams (l : list Team.row) : M State unit :=
  set (fun s => {| tournament := tournament s; teams := l;
                   loading := loading s |}).
Definition setLoading (b : bool) : M State unit :=
  set (fun s => {| tournament := tournament s; teams := teams s;
                   loading := b |}).

Section Component.
Variable tournamentId : uuid.

Definition fetchData : M State unit :=
  setLoading true ;;
  finally
    (try_catch
       (reply <- supabase (TournamentsSelectSingle tournamentId)
                   (fun _ d => (tournaments_select_single d tournamentId, d)) ;;
        tournamentData <- or_throw reply ;;
        setTournament (Some tournamentData) ;;
        reply <- supabase (TeamsSelect tournamentId)
                   (fun _ d => (teams_select d tournamentId, d)) ;;
        teamsData <- or_throw reply ;;
        setTeams teamsData)
       (fun error => toast (error_toast error "Failed to load teams.")))
    (setLoading false).

End Component.

(** [{teams.length} / {tournament?.number_of_teams} Teams]; an undefined
    value renders as nothing. *)
Definition counter (s : State) : jsstring :=
  toString (Z.of_nat (List.length (teams s))) ++ js " / "
  ++ match tournament s with
     | Some t => toString (Tournament.number_of_teams t)
     | None => []
     end
  ++ js " Teams".

End ViewTeams.

(* ===================================================================== *)
(** ** [ViewCaptainVotes]: the ranks *)
(* ===================================================================== *)

Module ViewCaptainVotesRanks.

Inductive Rank : Type :=
  | Trophy
  | Place (text : jsstring).

(** [{index === 0 ? <Trophy /> : `#${index + 1}`}] *)
Definition rank (index : nat) : Rank :=
  match index with
  | O => Trophy
  | S _ => Place (js "#" ++ toString (Z.of_nat index + 1))
  end.

End ViewCaptainVotesRanks.

(* ===================================================================== *)
(** ** More sample data *)
(* ===================================================================== *)

Module SampleMore.

Definition timer : AuctionTimer.row :=
  {| AuctionTimer.id := js "tm-1";
     AuctionTimer.tournament_id := js "t-cup";
     AuctionTimer.bid_time := 45;
     AuctionTimer.created_by := None;
     AuctionTimer.created_at := 20;
     AuctionTimer.updated_at := 20;
     AuctionTimer.is_active := Some true |}.

(** The sample store with a bid timer of 45 seconds. *)
Definition store_with_timer : Db :=
  with_auction_timer Sample.store [timer].

Definition asha_profile : Profile :=
  {| id := js "p-asha"; user_id := js "u-asha"; full_name := js "Asha Rao";
     mobile := js "9876543210"; is_player_registered := true |}.
Definition ravi_profile : Profile :=
  {| id := js "p-ravi"; user_id := js "u-ravi"; full_name := js "Ravi Iyer";
     mobile := js "9876543210"; is_player_registered := false |}.
Definition meera_profile : Profile :=
  {| id := js "p-meera"; user_id := js "u-meera";
     full_name := js "Meera Nair";
     mobile := js "9123456780"; is_player_registered := true |}.

Definition profiles : list Profile :=
  [asha_profile; ravi_profile; meera_profile].

Definition anonymous : Env := Sample.env_of None 100 "id-100".

(** The category form filled in. *)
Definition category_form (category maxPlayers basePrice : string)
    (editing : option uuid) : CategoryConfigModal.State :=
  {| CategoryConfigModal.configs := [];
     CategoryConfigModal.loading := false;
     CategoryConfigModal.saving := false;
     CategoryConfigModal.editingId := editing;
     CategoryConfigModal.category := js category;
     CategoryConfigModal.maxPlayers := js maxPlayers;
     CategoryConfigModal.basePrice := js basePrice |}.

(** The captain form filled in. *)
Definition captain_form (name mobile : string) : CreateCaptains.State :=
  {| CreateCaptains.tournament := Some Sample.cup;
     CreateCaptains.captains := [];
     CreateCaptains.loading := false;
     CreateCaptains.creating := false;
     CreateCaptains.captainName := js name;
     CreateCaptains.captainMobile := js mobile;
     CreateCaptains.photoPreview := None |}.

End SampleMore.

(* ===================================================================== *)
(** ** [CreateTeams]: the budget field *)
(* ===================================================================== *)

Module BudgetField.

(** A valid floating-point number of HTML (the syntax of the value of an
    [<input type="number">]) after its optional minus sign: digits, or a
    point followed by digits, or both in this order; then optionally [e]
    or [E], an optional sign and digits. *)
Definition unsigned_number (u : jsstring) : bool :=
  let (ip, r1) := span_digits 10 u in
  let fraction : option (list Z * jsstring) :=
    match r1 with
    | c :: r => if (c =? 46)%N then Some (span_digits 10 r) else None
    | [] => None
    end in
  let rest : option jsstring :=
    match fraction with
    | Some (fp, r2) => match fp with [] => None | _ :: _ => Some r2 end
    | None => match ip with [] => None | _ :: _ => Some r1 end
    end in
  match rest with
  | None => false
  | Some [] => true
  | Some (c :: r) =>
      ((c =? 101) || (c =? 69))%N
      && match span_digits 10
                 (match r with
                  | d :: t => if ((d =? 45) || (d =? 43))%N then t else r
                  | [] => r
                  end) with
         | (_ :: _, []) => true
         | _ => false
         end
  end.

Definition valid_floating_point_number (s : jsstring) : bool :=
  unsigned_number (match s with
                   | c :: r => if (c =? 45)%N then r else s
                   | [] => s
                   end).

(** [e.target.value] of [<Input type="number">]: the value sanitization
    of the element leaves a valid floating-point number as it is and
    turns any other text into the empty string. *)
Definition value (typed : jsstring) : jsstring :=
  if valid_floating_point_number typed then typed else [].

(** [onChange={(e) => setTeamBudget(e.target.value)}]. *)
Definition onChange (typed : jsstring) : M CreateTeams.State unit :=
  CreateTeams.setTeamBudget (value typed).

(** The texts the page writes into [teamBudget]: [useState("")]; the
    value of the field; [team_budget.toString()] when the tournament is
    loaded; [tournament?.team_budget.toString() || ""] after a team is
    created. *)
Inductive written : jsstring -> Prop :=
  | initially : written []
  | by_the_field (typed : jsstring) : written (value typed)
  | on_loading (team_budget : Z) : written (toString team_budget)
  | on_reset (team_budget : Z) :
      written (or_else (toString team_budget) []).

End BudgetField.

(* ===================================================================== *)
(** ** Properties of the ECMAScript fragment and of the store *)
(* ===================================================================== *)

Lemma jseqb_eq (a b : jsstring) : jseqb a b = true <-> a = b.
Proof.
  revert b; induction a as [|x a IH]; intros [|y b]; simpl;
    try (split; [discriminate | discriminate]); [tauto|].
  rewrite andb_true_iff, N.eqb_eq, IH.
  split; [intros [-> ->]; reflexivity | intros H; inversion H; auto].
Qed.

Lemma jseqb_refl (a : jsstring) : jseqb a a = true.
Proof. apply jseqb_eq; reflexivity. Qed.

Lemma jseqb_neq (a b : jsstring) : jseqb a b = false <-> a <> b.
Proof.
  rewrite <- jseqb_eq. destruct (jseqb a b); split; congruence.
Qed.

Lemma jseqb_sym (a b : jsstring) : jseqb a b = jseqb b a.
Proof.
  destruct (jseqb a b) eqn:E; symmetry.
  - apply jseqb_eq; symmetry; apply jseqb_eq; exact E.
  - apply jseqb_neq; intros H; apply jseqb_neq in E; congruence.
Qed.

(** [Math.max(...xs, 1)] is at least 1 and at least every argument. *)
Lemma fold_max_ge (xs : list Z) (a : Z) : a <= fold_left Z.max xs a.
Proof.
  revert a; induction xs as [|x xs IH]; intros a; simpl; [lia|].
  specialize (IH (Z.max a x)); lia.
Qed.

Lemma fold_max_In (xs : list Z) (a x : Z) :
  In x xs -> x <= fold_left Z.max xs a.
Proof.
  revert a; induction xs as [|y xs IH]; intros a; simpl; [tauto|].
  intros [->|H]; [|auto].
  pose proof (fold_max_ge xs (Z.max a x)); lia.
Qed.

(** [reduce] from the left and the sum from the right agree. *)
Lemma fold_left_votes (l : list Captain.row) (a : Z) :
  fold_left (fun sum c => sum + Captain.votes c) l a
  = a + Spec.sum (map Captain.votes l).
Proof.
  revert a; induction l as [|c l IH]; intros a; simpl; [lia|].
  rewrite IH; lia.
Qed.

(* ===================================================================== *)
(** ** Bid timer: validation *)
(* ===================================================================== *)

(** C1. A bid-timer submission whose text does not parse ([parseInt]) to
    an integer between 5 and 120 inclusive - NaN included - is rejected:
    the validation notification is shown, no request is sent, and neither
    the store nor the state of the modal changes. *)
Theorem C1_bid_time_out_of_range_rejected :
  forall (tournamentId : uuid) (env : Env) (s : BidTimerConfigModal.State)
         (w : World),
    ~ (exists v, parseInt (BidTimerConfigModal.bidTime s) = Some v
                 /\ 5 <= v <= 120) ->
    run (BidTimerConfigModal.handleSubmit tournamentId) env s w
    = (s, {| db := db w;
             toasts := toasts w ++
               [validation_error
                  "Bid time must be between 5 and 120 seconds."];
             navigations := navigations w;
             requests := requests w |}).
Proof.
  intros tid env s w H.
  unfold run, BidTimerConfigModal.handleSubmit, bind, get.
  destruct (parseInt (BidTimerConfigModal.bidTime s)) as [v|] eqn:E.
  - assert (Hv : v < 5 \/ 120 < v).
    { destruct (Z_lt_dec v 5); [auto|].
      destruct (Z_lt_dec 120 v); [auto|].
      exfalso; apply H; exists v; split; [reflexivity | lia]. }
    simpl.
    destruct (v <? 5) eqn:E5.
    + reflexivity.
    + apply Z.ltb_ge in E5.
      assert (E120 : (120 <? v) = true) by (apply Z.ltb_lt; lia).
      rewrite E120; reflexivity.
  - reflexivity.
Qed.

Lemma C1_bid_time_out_of_range_rejected_witness :
  run (BidTimerConfigModal.handleSubmit (js "t-cup")) Sample.by_organizer
      {| BidTimerConfigModal.open := true;
         BidTimerConfigModal.bidTime := js "121";
         BidTimerConfigModal.loading := false;
         BidTimerConfigModal.saving := false;
         BidTimerConfigModal.existingId := None |}
      (world_of Sample.store)
  = ({| BidTimerConfigModal.open := true;
        BidTimerConfigModal.bidTime := js "121";
        BidTimerConfigModal.loading := false;
        BidTimerConfigModal.saving := false;
        BidTimerConfigModal.existingId := None |},
     {| db := Sample.store;
        toasts := [validation_error
                     "Bid time must be between 5 and 120 seconds."];
        navigations := [];
        requests := [] |}).
Proof.
  apply (C1_bid_time_out_of_range_rejected (js "t-cup") Sample.by_organizer).
  intros [v [E Hv]]. vm_compute in E. inversion E; subst v. lia.
Defined.

(* ===================================================================== *)
(** ** Vote results: normalisation *)
(* ===================================================================== *)

(** C4. For every list of captains - empty, all at zero votes or any
    other - [maxVotes] is at least 1, so every progress value
    [votes / maxVotes * 100] has a non-zero divisor; and [totalVotes] is
    the sum of the votes of the listed captains. *)
Theorem C4_maxVotes_positive_totalVotes_sum :
  forall captains : list Captain.row,
    1 <= ViewCaptainVotes.maxVotes captains
    /\ ViewCaptainVotes.maxVotes captains <> 0
    /\ (forall c, exists q, ViewCaptainVotes.progress captains c = Some q)
    /\ ViewCaptainVotes.totalVotes captains
       = Spec.sum (map Captain.votes captains).
Proof.
  intros captains.
  assert (H1 : 1 <= ViewCaptainVotes.maxVotes captains).
  { unfold ViewCaptainVotes.maxVotes, Math_max.
    destruct (0 <? List.length captains)%nat; [apply fold_max_ge | lia]. }
  repeat split.
  - exact H1.
  - lia.
  - intros c. unfold ViewCaptainVotes.progress.
    destruct (ViewCaptainVotes.maxVotes captains =? 0) eqn:E.
    + apply Z.eqb_eq in E; lia.
    + eexists; reflexivity.
  - unfold ViewCaptainVotes.totalVotes. rewrite fold_left_votes; lia.
Qed.

(* ===================================================================== *)
(** ** Captain creation: validation *)
(* ===================================================================== *)

(** C8. A captain row is inserted only if the trimmed name is not empty
    and the mobile number entered has at least 10 characters; every other
    submission is rejected with a validation notification, sends nothing
    to the store and inserts nothing. *)
Theorem C8_captain_inserted_only_if_valid :
  forall (tournamentId : uuid) (env : Env) (s : CreateCaptains.State)
         (w : World),
    let s' := fst (run (CreateCaptains.handleCreateCaptain tournamentId)
                       env s w) in
    let w' := snd (run (CreateCaptains.handleCreateCaptain tournamentId)
                       env s w) in
    (tournament_captain (db w') <> tournament_captain (db w) ->
     Spec.captain_submission_valid s = true)
    /\ (Spec.captain_submission_valid s = false ->
        Spec.rejected_client_side w w' /\ s' = s).
Proof.
  intros tid env s w s' w'.
  assert (R : Spec.captain_submission_valid s = false ->
              Spec.rejected_client_side w w' /\ s' = s).
  { subst s' w'. unfold Spec.captain_submission_valid.
    unfold run, CreateCaptains.handleCreateCaptain, bind, get, ask.
    intros Hv.
    destruct (truthy (trim (CreateCaptains.captainName s))) eqn:En; simpl.
    - simpl in Hv. apply Z.leb_gt in Hv.
      destruct (truthy (trim (CreateCaptains.captainMobile s))); simpl.
      + apply Z.ltb_lt in Hv. rewrite Hv. simpl.
        split; [|reflexivity].
        split; [eexists; reflexivity | split; reflexivity].
      + split; [|reflexivity].
        split; [eexists; reflexivity | split; reflexivity].
    - split; [|reflexivity].
      split; [eexists; reflexivity | split; reflexivity]. }
  split; [|exact R].
  intros Hchanged.
  destruct (Spec.captain_submission_valid s) eqn:E; [reflexivity|].
  destruct (R eq_refl) as [[_ [_ Hdb]] _].
  exfalso; apply Hchanged; rewrite Hdb; reflexivity.
Qed.

Lemma C8_captain_inserted_only_if_valid_witness :
  let s := {| CreateCaptains.tournament := Some Sample.cup;
              CreateCaptains.captains := [];
              CreateCaptains.loading := false;
              CreateCaptains.creating := false;
              CreateCaptains.captainName := js "Asha";
              CreateCaptains.captainMobile := js "98765";
              CreateCaptains.photoPreview := None |} in
  Spec.rejected_client_side (world_of Sample.store)
    (snd (run (CreateCaptains.handleCreateCaptain (js "t-cup"))
              Sample.by_organizer s (world_of Sample.store))).
Proof.
  intros s.
  destruct (C8_captain_inserted_only_if_valid (js "t-cup")
              Sample.by_organizer s (world_of Sample.store)) as [_ H].
  destruct (H eq_refl) as [H1 _]. exact H1.
Defined.

(** The length test reads the mobile number as it was typed, the insert
    stores it trimmed: ten characters of which five are blanks pass the
    test and a mobile of five characters is stored. *)
Example padded_mobile_is_stored_trimmed :
  let s := {| CreateCaptains.tournament := Some Sample.cup;
              CreateCaptains.captains := [];
              CreateCaptains.loading := false;
              CreateCaptains.creating := false;
              CreateCaptains.captainName := js "Asha";
              CreateCaptains.captainMobile := js "  98765   ";
              CreateCaptains.photoPreview := None |} in
  Spec.captain_submission_valid s = true
  /\ map Captain.mobile
       (tournament_captain
          (db (snd (run (CreateCaptains.handleCreateCaptain (js "t-cup"))
                        Sample.by_organizer s (world_of Sample.store)))))
     = map Captain.mobile (tournament_captain Sample.store) ++ [js "98765"].
Proof. split; vm_compute; reflexivity. Qed.

(* ===================================================================== *)
(** ** Team creation: the form and the completion banner *)
(* ===================================================================== *)

(** C9. On the loaded page, while the number of existing teams is below
    [number_of_teams] the creation form is shown and there is no banner;
    once the count has reached [number_of_teams] the form is gone and the
    banner reads "All {number_of_teams} teams have been created!" - for
    eight teams, "All 8 teams have been created!". *)
Theorem C9_form_until_all_teams_created :
  forall (s : CreateTeams.State) (t : Tournament.row),
    CreateTeams.loading s = false ->
    CreateTeams.tournament s = Some t ->
    (Z.of_nat (List.length (CreateTeams.teams s))
     < Tournament.number_of_teams t ->
     CreateTeams.render s = CreateTeams.Page true None)
    /\ (Tournament.number_of_teams t
        <= Z.of_nat (List.length (CreateTeams.teams s)) ->
        CreateTeams.render s
        = CreateTeams.Page false
            (Some (js "All " ++ toString (Tournament.number_of_teams t)
                   ++ js " teams have been created!")))
    /\ (Tournament.number_of_teams t = 8 ->
        js "All " ++ toString (Tournament.number_of_teams t)
        ++ js " teams have been created!"
        = js "All 8 teams have been created!").
Proof.
  intros s t Hl Ht. unfold CreateTeams.render, CreateTeams.canCreateMore.
  rewrite Hl, Ht. repeat split.
  - intros H. apply Z.ltb_lt in H. rewrite H. reflexivity.
  - intros H. apply Z.ltb_ge in H. rewrite H. reflexivity.
  - intros ->. reflexivity.
Qed.

(** The scenario of the specification: the organizer of a tournament of
    eight teams opens the page with no team created and sees the form;
    eight creations later the banner has replaced it. *)
Lemma C9_form_until_all_teams_created_witness :
  CreateTeams.render (fst Sample.page_loaded) = CreateTeams.Page true None
  /\ List.length (teams (db (snd Sample.eight_teams_later))) = 8%nat
  /\ CreateTeams.render (fst Sample.eight_teams_later)
     = CreateTeams.Page false (Some (js "All 8 teams have been created!")).
Proof.
  split; [|split].
  - apply (C9_form_until_all_teams_created
             (fst Sample.page_loaded) Sample.cup);
      [reflexivity | reflexivity | vm_compute; reflexivity].
  - vm_compute; reflexivity.
  - destruct (C9_form_until_all_teams_created
                (fst Sample.eight_teams_later) Sample.cup)
      as [_ [H _]]; [reflexivity | reflexivity |].
    rewrite H; [reflexivity | vm_compute; discriminate].
Defined.

(* ===================================================================== *)
(** ** The organizer check of the management pages *)
(* ===================================================================== *)

(** C10. When the team-management or the captain-management page loads
    for a signed-in user who is not the organizer of the tournament, the
    page fetches the tournament, shows "Access Denied", navigates to the
    tournament and sets none of its tournament, team or captain state:
    only [loading] changes, and no further request is sent. *)
Theorem C10_non_organizer_is_turned_away :
  forall (tournamentId : uuid) (env : Env) (usr : Auth.User)
         (t : Tournament.row) (w : World),
    user env = Some usr ->
    tournaments_select_single (db w) tournamentId = Data t ->
    Tournament.organizer_id t <> Auth.id usr ->
    let away (about : string) : World :=
      {| db := db w;
         toasts := toasts w ++
           [ {| title := js "Access Denied";
                description := js about;
                variant := Destructive |} ];
         navigations := navigations w ++ [js "/tournaments/" ++ tournamentId];
         requests := requests w ++ [TournamentsSelectSingle tournamentId] |} in
    (forall s : CreateTeams.State,
        run (CreateTeams.fetchTournamentAndTeams tournamentId) env s w
        = ({| CreateTeams.tournament := CreateTeams.tournament s;
              CreateTeams.teams := CreateTeams.teams s;
              CreateTeams.loading := false;
              CreateTeams.creating := CreateTeams.creating s;
              CreateTeams.teamName := CreateTeams.teamName s;
              CreateTeams.teamBudget := CreateTeams.teamBudget s;
              CreateTeams.selectedCaptain := CreateTeams.selectedCaptain s |},
           away "Only the organizer can manage teams."%string))
    /\ (forall s : CreateCaptains.State,
        run (CreateCaptains.fetchData tournamentId) env s w
        = ({| CreateCaptains.tournament := CreateCaptains.tournament s;
              CreateCaptains.captains := CreateCaptains.captains s;
              CreateCaptains.loading := false;
              CreateCaptains.creating := CreateCaptains.creating s;
              CreateCaptains.captainName := CreateCaptains.captainName s;
              CreateCaptains.captainMobile := CreateCaptains.captainMobile s;
              CreateCaptains.photoPreview := CreateCaptains.photoPreview s |},
           away "Only the organizer can manage captains."%string))
    /\ CreateTeams.tournament
         (fst (run (CreateTeams.fetchTournamentAndTeams tournamentId) env
                   CreateTeams.initial w)) = None
    /\ CreateTeams.teams
         (fst (run (CreateTeams.fetchTournamentAndTeams tournamentId) env
                   CreateTeams.initial w)) = []
    /\ CreateCaptains.tournament
         (fst (run (CreateCaptains.fetchData tournamentId) env
                   CreateCaptains.initial w)) = None
    /\ CreateCaptains.captains
         (fst (run (CreateCaptains.fetchData tournamentId) env
                   CreateCaptains.initial w)) = [].
Proof.
  intros tid env usr t w Hu Ht Hne away.
  assert (Hno : CreateTeams.not_the_organizer (user env) t = true).
  { unfold CreateTeams.not_the_organizer. rewrite Hu.
    apply negb_true_iff, jseqb_neq, Hne. }
  assert (A : forall s : CreateTeams.State,
             run (CreateTeams.fetchTournamentAndTeams tid) env s w
             = ({| CreateTeams.tournament := CreateTeams.tournament s;
                   CreateTeams.teams := CreateTeams.teams s;
                   CreateTeams.loading := false;
                   CreateTeams.creating := CreateTeams.creating s;
                   CreateTeams.teamName := CreateTeams.teamName s;
                   CreateTeams.teamBudget := CreateTeams.teamBudget s;
                   CreateTeams.selectedCaptain :=
                     CreateTeams.selectedCaptain s |},
                away "Only the organizer can manage teams."%string)).
  { intros s.
    unfold run, CreateTeams.fetchTournamentAndTeams, finally, try_catch,
      bind, supabase, CreateTeams.setLoading, set, ask; simpl.
    rewrite Ht; simpl. rewrite Hno; simpl. reflexivity. }
  assert (B : forall s : CreateCaptains.State,
             run (CreateCaptains.fetchData tid) env s w
             = ({| CreateCaptains.tournament := CreateCaptains.tournament s;
                   CreateCaptains.captains := CreateCaptains.captains s;
                   CreateCaptains.loading := false;
                   CreateCaptains.creating := CreateCaptains.creating s;
                   CreateCaptains.captainName := CreateCaptains.captainName s;
                   CreateCaptains.captainMobile :=
                     CreateCaptains.captainMobile s;
                   CreateCaptains.photoPreview :=
                     CreateCaptains.photoPreview s |},
                away "Only the organizer can manage captains."%string)).
  { intros s.
    unfold run, CreateCaptains.fetchData, finally, try_catch,
      bind, supabase, CreateCaptains.setLoading, set, ask; simpl.
    rewrite Ht; simpl. rewrite Hno; simpl. reflexivity. }
  split; [exact A|]. split; [exact B|].
  rewrite A, B. repeat split.
Qed.

Lemma C10_non_organizer_is_turned_away_witness :
  CreateTeams.tournament
    (fst (run (CreateTeams.fetchTournamentAndTeams (js "t-cup"))
              Sample.by_visitor CreateTeams.initial
              (world_of Sample.store))) = None
  /\ CreateCaptains.captains
       (fst (run (CreateCaptains.fetchData (js "t-cup"))
                 Sample.by_visitor CreateCaptains.initial
                 (world_of Sample.store))) = [].
Proof.
  destruct (C10_non_organizer_is_turned_away (js "t-cup") Sample.by_visitor
              Sample.visitor Sample.cup (world_of Sample.store))
    as [_ [_ [H1 [_ [_ H2]]]]].
  - reflexivity.
  - reflexivity.
  - vm_compute; discriminate.
  - split; [exact H1 | exact H2].
Defined.

(* ===================================================================== *)
(** ** Keys, selections and updates *)
(* ===================================================================== *)

Section Keyed.
Context {A : Type}.
Variable key : A -> jsstring.

Lemma filter_key_absent (k : jsstring) (l : list A) :
  existsb (jseqb k) (map key l) = false -> filter (keyed key k) l = [].
Proof.
  induction l as [|x l IH]; simpl; [reflexivity|].
  intros H. apply orb_false_iff in H as [H1 H2].
  unfold keyed at 1. rewrite jseqb_sym, H1. auto.
Qed.

(** A key that occurs once selects its row and nothing else. *)
Lemma filter_key_unique (r : A) (l : list A) :
  distinct (map key l) = true -> In r l -> filter (keyed key (key r)) l = [r].
Proof.
  induction l as [|x l IH]; simpl; [tauto|].
  intros D [->|Hin]; apply andb_true_iff in D as [D1 D2];
    apply negb_true_iff in D1.
  - unfold keyed at 1. rewrite jseqb_refl.
    rewrite (filter_key_absent _ _ D1). reflexivity.
  - unfold keyed at 1.
    destruct (jseqb (key x) (key r)) eqn:E.
    + apply jseqb_eq in E. exfalso.
      assert (X : existsb (jseqb (key x)) (map key l) = true).
      { apply existsb_exists. exists (key r). split.
        - apply in_map; exact Hin.
        - apply jseqb_eq; exact E. }
      congruence.
    + auto.
Qed.

(** With distinct keys a selection by key has at most one row. *)
Lemma filter_key_at_most_one (k : jsstring) (l : list A) :
  distinct (map key l) = true ->
  filter (keyed key k) l = [] \/ exists r, In r l /\ filter (keyed key k) l = [r].
Proof.
  intros D. destruct (filter (keyed key k) l) as [|r rest] eqn:E; [auto|].
  right. assert (Hin : In r (filter (keyed key k) l)) by (rewrite E; left; auto).
  apply filter_In in Hin as [Hin Hk]. apply jseqb_eq in Hk. subst k.
  rewrite (filter_key_unique r l D Hin) in E. inversion E; subst.
  exists r; auto.
Qed.

Lemma update_where_nowhere (p : A -> bool) (f : A -> A) (l : list A) :
  (forall x, In x l -> p x = false) -> update_where p f l = l.
Proof.
  induction l as [|x l IH]; simpl; [reflexivity|]. intros H.
  rewrite (H x (or_introl eq_refl)). f_equal. apply IH. intros; apply H; auto.
Qed.

(** An update that keeps the keys commutes with a selection by key. *)
Lemma filter_update_where (p : A -> bool) (f : A -> A) (k : jsstring)
    (l : list A) :
  (forall x, key (f x) = key x) ->
  filter (keyed key k) (update_where p f l)
  = update_where p f (filter (keyed key k) l).
Proof.
  intros Hf.
  assert (Hk : forall x, keyed key k (f x) = keyed key k x)
    by (intros x; unfold keyed; rewrite Hf; reflexivity).
  induction l as [|x l IH]; simpl; [reflexivity|].
  destruct (p x) eqn:Ep; rewrite ?Hk;
    destruct (keyed key k x); simpl; rewrite ?Ep, IH; reflexivity.
Qed.

(** Rows with the same key in a relation with distinct keys are the same
    row. *)
Lemma distinct_key_inj (l : list A) (x y : A) :
  distinct (map key l) = true -> In x l -> In y l -> key x = key y -> x = y.
Proof.
  intros D Hx Hy E.
  pose proof (filter_key_unique x l D Hx) as Fx.
  pose proof (filter_key_unique y l D Hy) as Fy.
  rewrite E, Fy in Fx. inversion Fx; reflexivity.
Qed.

(** Updating the same rows twice, the second update undoing the first. *)
Lemma update_where_undo (p : A -> bool) (f g : A -> A) (l : list A) :
  (forall x, In x l -> p x = true -> p (f x) = true /\ g (f x) = x) ->
  update_where p g (update_where p f l) = l.
Proof.
  induction l as [|x l IH]; simpl; [reflexivity|]. intros H.
  rewrite IH by (intros; apply H; auto). f_equal.
  destruct (p x) eqn:Ep.
  - destruct (H x (or_introl eq_refl) Ep) as [-> ->]. reflexivity.
  - rewrite Ep. reflexivity.
Qed.

Lemma map_key_update_where (p : A -> bool) (f : A -> A) (l : list A) :
  (forall x, key (f x) = key x) ->
  map key (update_where p f l) = map key l.
Proof.
  intros Hf. induction l as [|x l IH]; simpl; [reflexivity|].
  destruct (p x); rewrite ?Hf, IH; reflexivity.
Qed.

End Keyed.

Lemma constraints_tournament_ids (d : Db) :
  constraints_hold d = true -> distinct (map Tournament.id (tournaments d)) = true.
Proof.
  unfold constraints_hold. intros H.
  repeat (apply andb_true_iff in H as [H ?]). exact H.
Qed.

Lemma constraints_config_ids (d : Db) :
  constraints_hold d = true ->
  distinct (map AuctionConfig.id (auction_config d)) = true.
Proof.
  unfold constraints_hold. intros H.
  repeat (apply andb_true_iff in H as [H ?]). assumption.
Qed.

Lemma constraints_timer (d : Db) :
  constraints_hold d = true ->
  distinct (map AuctionTimer.id (auction_timer d)) = true
  /\ forallb truthy (map AuctionTimer.id (auction_timer d)) = true
  /\ distinct (map AuctionTimer.tournament_id (auction_timer d)) = true.
Proof.
  unfold constraints_hold. intros H.
  repeat (apply andb_true_iff in H as [H ?]). auto.
Qed.

(** The organizer passes the policy of the relations of the tournament. *)
Lemma organizer_passes_policy (d : Db) (env : Env) (t : Tournament.row) :
  In t (tournaments d) ->
  option_map Auth.id (user env) = Some (Tournament.organizer_id t) ->
  organizer_policy d (session env) (Tournament.id t) = true.
Proof.
  intros Hin Hu. unfold organizer_policy. apply existsb_exists.
  exists t. split; [exact Hin|]. simpl. rewrite Hu. simpl.
  rewrite !jseqb_refl. reflexivity.
Qed.

(* ===================================================================== *)
(** ** Voting flag *)
(* ===================================================================== *)

(** C3. Toggling the voting flag sends a single update of the tournament
    row, keyed by its id, after which the store holds the row with
    [is_voting_live] negated and every other column as it was, and
    notifies "Voting Started" when the flag was false and "Voting
    Stopped" when it was true. Toggling again, the [isVotingLive] prop
    being the flag of the row as the store then holds it, stores the
    original value and shows the other notification: after two toggles
    the row, and the whole store, is what it was. No other tournament
    row changes. *)
Theorem C3_toggle_voting_is_an_involution :
  forall (tournamentId : uuid) (env : Env) (t : Tournament.row)
         (s : TournamentActionMenu.State) (w : World),
    constraints_hold (db w) = true ->
    In t (tournaments (db w)) ->
    Tournament.id t = tournamentId ->
    option_map Auth.id (user env) = Some (Tournament.organizer_id t) ->
    let live := Tournament.is_voting_live t in
    let notice (was_live : bool) : Toast :=
      {| title := if was_live then js "Voting Stopped"
                  else js "Voting Started";
         description := if was_live then js "Captain voting has been stopped."
                        else js "Captain voting is now live!";
         variant := Default |} in
    let with_flag (flag : bool) : Tournament.row :=
      {| Tournament.id := Tournament.id t;
         Tournament.name := Tournament.name t;
         Tournament.organizer_id := Tournament.organizer_id t;
         Tournament.number_of_teams := Tournament.number_of_teams t;
         Tournament.team_budget := Tournament.team_budget t;
         Tournament.captain_voting_enabled :=
           Tournament.captain_voting_enabled t;
         Tournament.is_voting_live := flag;
         Tournament.is_auction_live := Tournament.is_auction_live t |} in
    let once :=
      run (TournamentActionMenu.handleToggleVoting tournamentId live)
          env s w in
    requests (snd once)
      = requests w ++ [TournamentsUpdateIsVotingLive tournamentId (negb live)]
    /\ toasts (snd once) = toasts w ++ [notice live]
    /\ tournaments_select_single (db (snd once)) tournamentId
       = Data (with_flag (negb live))
    /\ (exists stored,
          tournaments_select_single (db (snd once)) tournamentId = Data stored
          /\ Tournament.is_voting_live stored = negb live)
    /\ (forall other, other <> tournamentId ->
          tournaments_select_single (db (snd once)) other
          = tournaments_select_single (db w) other)
    /\ (forall stored,
          tournaments_select_single (db (snd once)) tournamentId = Data stored ->
          let twice :=
            run (TournamentActionMenu.handleToggleVoting tournamentId
                   (Tournament.is_voting_live stored))
                env (fst once) (snd once) in
          requests (snd twice)
          = requests (snd once)
            ++ [TournamentsUpdateIsVotingLive tournamentId live]
          /\ toasts (snd twice) = toasts (snd once) ++ [notice (negb live)]
          /\ tournaments_select_single (db (snd twice)) tournamentId = Data t
          /\ (exists restored,
                tournaments_select_single (db (snd twice)) tournamentId
                = Data restored
                /\ Tournament.is_voting_live restored = live)
          /\ db (snd twice) = db w).
Proof.
  intros tid env t s w C Hin Hid Hu live notice with_flag once.
  pose proof (constraints_tournament_ids _ C) as D.
  set (p := fun x : Tournament.row =>
              jseqb (Tournament.id x) tid
              && opt_uuid_eqb (uid (session env)) (Tournament.organizer_id x)).
  assert (Hpt : p t = true).
  { unfold p. simpl. rewrite Hu, Hid. simpl.
    rewrite !jseqb_refl. reflexivity. }
  assert (Hsel : filter (keyed Tournament.id tid) (tournaments (db w)) = [t]).
  { rewrite <- Hid. apply filter_key_unique; assumption. }
  assert (E1 : db (snd once)
               = with_tournaments (db w)
                   (update_where p (Tournament.set_is_voting_live (negb live))
                      (tournaments (db w)))) by reflexivity.
  assert (S1 : tournaments_select_single (db (snd once)) tid
               = Data (with_flag (negb live))).
  { rewrite E1. unfold tournaments_select_single. simpl.
    change (fun t0 => jseqb (Tournament.id t0) tid)
      with (keyed Tournament.id tid).
    rewrite filter_update_where by reflexivity.
    rewrite Hsel. simpl. rewrite Hpt. reflexivity. }
  split; [reflexivity|]. split; [reflexivity|]. split; [exact S1|].
  split; [exists (with_flag (negb live)); split; [exact S1 | reflexivity]|].
  split.
  { intros other Hother. rewrite E1. unfold tournaments_select_single. simpl.
    change (fun t0 => jseqb (Tournament.id t0) other)
      with (keyed Tournament.id other).
    rewrite filter_update_where by reflexivity.
    rewrite update_where_nowhere; [reflexivity|].
    intros x Hx. apply filter_In in Hx as [_ Hx]. apply jseqb_eq in Hx.
    unfold p. apply andb_false_iff. left. apply jseqb_neq. congruence. }
  intros stored Hstored twice.
  assert (Es : Tournament.is_voting_live stored = negb live).
  { rewrite S1 in Hstored. inversion Hstored. reflexivity. }
  assert (E2 : db (snd twice)
               = with_tournaments (db (snd once))
                   (update_where p (Tournament.set_is_voting_live
                                      (negb (negb live)))
                      (tournaments (db (snd once))))).
  { subst twice. rewrite Es. reflexivity. }
  assert (T2 : tournaments (db (snd twice)) = tournaments (db w)).
  { rewrite E2, E1. simpl. rewrite negb_involutive.
    apply update_where_undo. intros x Hx Ex. split; [exact Ex|].
    assert (x = t).
    { apply (distinct_key_inj Tournament.id (tournaments (db w)));
        try assumption.
      unfold p in Ex. apply andb_true_iff in Ex as [Ex _].
      apply jseqb_eq in Ex. congruence. }
    subst x. subst live. destruct t; reflexivity. }
  assert (S2 : tournaments_select_single (db (snd twice)) tid = Data t).
  { unfold tournaments_select_single. rewrite T2.
    change (fun t0 => jseqb (Tournament.id t0) tid)
      with (keyed Tournament.id tid).
    rewrite Hsel. reflexivity. }
  split.
  { subst twice. rewrite Es.
    unfold run, TournamentActionMenu.handleToggleVoting,
      finally, try_catch, bind, supabase; simpl.
    rewrite negb_involutive. reflexivity. }
  split.
  { subst twice. rewrite Es. destruct live; reflexivity. }
  split; [exact S2|].
  split; [exists t; split; [exact S2 | reflexivity]|].
  destruct (db w) as [a b c d' e] eqn:Ew.
  rewrite E2, E1 in T2 |- *. simpl in *. rewrite T2. reflexivity.
Qed.

Lemma C3_toggle_voting_is_an_involution_witness :
  let once :=
    run (TournamentActionMenu.handleToggleVoting (js "t-cup") false)
        Sample.by_organizer TournamentActionMenu.initial
        (world_of Sample.store) in
  let twice :=
    run (TournamentActionMenu.handleToggleVoting (js "t-cup") true)
        Sample.by_organizer (fst once) (snd once) in
  Tournament.is_voting_live Sample.cup = false
  /\ (exists stored,
        tournaments_select_single (db (snd once)) (js "t-cup") = Data stored
        /\ Tournament.is_voting_live stored = true)
  /\ map title (toasts (snd twice))
     = [js "Voting Started"; js "Voting Stopped"]
  /\ (exists restored,
        tournaments_select_single (db (snd twice)) (js "t-cup")
        = Data restored
        /\ Tournament.is_voting_live restored = false)
  /\ db (snd twice) = Sample.store.
Proof.
  intros once twice.
  pose proof (C3_toggle_voting_is_an_involution (js "t-cup")
                Sample.by_organizer Sample.cup TournamentActionMenu.initial
                (world_of Sample.store) eq_refl (or_introl eq_refl)
                eq_refl eq_refl) as H.
  cbv zeta in H. destruct H as (_ & _ & H3 & H4 & _ & H6).
  specialize (H6 _ H3). destruct H6 as (_ & T & _ & R & B).
  split; [reflexivity|]. split; [exact H4|].
  split; [apply (f_equal (map title)) in T; exact T|].
  split; [exact R | exact B].
Defined.

(* ===================================================================== *)
(** ** Sorting and selections *)
(* ===================================================================== *)

Section Ordering.
Context {A : Type}.
Variable leb : A -> A -> bool.

Lemma insert_sorted_perm (x : A) (l : list A) :
  Permutation (x :: l) (insert_sorted leb x l).
Proof.
  induction l as [|y l IH]; simpl; [apply Permutation_refl|].
  destruct (leb x y); [apply Permutation_refl|].
  eapply perm_trans; [apply perm_swap|]. apply perm_skip, IH.
Qed.

(** [ORDER BY] returns the rows it was given. *)
Lemma order_by_perm (l : list A) : Permutation l (order_by leb l).
Proof.
  induction l as [|x l IH]; simpl; [constructor|].
  eapply perm_trans; [apply perm_skip, IH|]. apply insert_sorted_perm.
Qed.

Lemma order_by_In (x : A) (l : list A) : In x (order_by leb l) <-> In x l.
Proof.
  split; apply Permutation_in;
    [apply Permutation_sym|]; apply order_by_perm.
Qed.

Hypothesis leb_total : forall a b, leb a b = true \/ leb b a = true.
Hypothesis leb_trans :
  forall a b c, leb a b = true -> leb b c = true -> leb a c = true.

Lemma insert_sorted_sorted (x : A) (l : list A) :
  StronglySorted (fun a b => leb a b = true) l ->
  StronglySorted (fun a b => leb a b = true) (insert_sorted leb x l).
Proof.
  induction 1 as [|y l Hs IH Hy]; simpl.
  - repeat constructor.
  - destruct (leb x y) eqn:E.
    + constructor; [constructor; assumption|].
      constructor; [exact E|].
      rewrite Forall_forall in *. intros z Hz. eauto.
    + constructor; [exact IH|].
      rewrite Forall_forall in *. intros z Hz.
      apply (Permutation_in _ (Permutation_sym (insert_sorted_perm x l)))
        in Hz.
      destruct Hz as [<-|Hz]; [|auto].
      destruct (leb_total x y); congruence.
Qed.

(** [ORDER BY] returns them in order. *)
Lemma order_by_sorted (l : list A) :
  StronglySorted (fun a b => leb a b = true) (order_by leb l).
Proof.
  induction l as [|x l IH]; simpl; [constructor|].
  apply insert_sorted_sorted, IH.
Qed.

(** Rows that are already in order are returned as they stand. *)
Lemma order_by_of_sorted (l : list A) :
  StronglySorted (fun a b => leb a b = true) l -> order_by leb l = l.
Proof.
  induction 1 as [|x l Hs IH Hx]; simpl; [reflexivity|].
  rewrite IH. destruct l as [|y l]; simpl; [reflexivity|].
  inversion Hx; subst. rewrite H1. reflexivity.
Qed.

End Ordering.

Lemma filter_split_perm {A : Type} (p : A -> bool) (l : list A) :
  Permutation l (filter p l ++ filter (fun x => negb (p x)) l).
Proof.
  induction l as [|x l IH]; simpl; [constructor|].
  destruct (p x); simpl.
  - apply perm_skip, IH.
  - apply Permutation_cons_app, IH.
Qed.

Lemma filter_all {A : Type} (p : A -> bool) (l : list A) :
  (forall x, In x l -> p x = true) -> filter p l = l.
Proof.
  induction l as [|x l IH]; simpl; [reflexivity|]. intros H.
  rewrite (H x (or_introl eq_refl)). f_equal. apply IH. intros; apply H; auto.
Qed.

Lemma filter_none {A : Type} (p : A -> bool) (l : list A) :
  (forall x, In x l -> p x = false) -> filter p l = [].
Proof.
  induction l as [|x l IH]; simpl; [reflexivity|]. intros H.
  rewrite (H x (or_introl eq_refl)). apply IH. intros; apply H; auto.
Qed.

(* ===================================================================== *)
(** ** Category configuration: soft delete *)
(* ===================================================================== *)

(** C6. Soft-deleting a category config sends one update that carries
    only [is_active: false] and is keyed by the id. In the store the row
    with that id has [is_active] false afterwards and keeps its id,
    tournament, category, max_players, base_price and creation stamps
    (the update trigger refreshes its [updated_at]); every other row of
    [auction_config] and every other relation is unchanged. The row is
    absent from the active listing of every tournament, and from the
    listing the modal reloads, yet a selection by id still returns it. *)
Theorem C6_soft_delete_keeps_the_row :
  forall (tournamentId : uuid) (env : Env) (r : AuctionConfig.row)
         (s : CategoryConfigModal.State) (w : World),
    constraints_hold (db w) = true ->
    In r (auction_config (db w)) ->
    organizer_policy (db w) (session env) (AuctionConfig.tournament_id r)
    = true ->
    let id := AuctionConfig.id r in
    let after := run (CategoryConfigModal.handleDelete tournamentId id)
                     env s w in
    let r' := AuctionConfig.set_updated_at (clock env)
                (AuctionConfig.set_is_active (Some false) r) in
    requests (snd after)
    = requests w ++ [AuctionConfigUpdateIsActive id false;
                     AuctionConfigSelectActive tournamentId]
    /\ auction_config_select_by_id (db (snd after)) id = [r']
    /\ (AuctionConfig.is_active r' = Some false
        /\ AuctionConfig.id r' = AuctionConfig.id r
        /\ AuctionConfig.tournament_id r' = AuctionConfig.tournament_id r
        /\ AuctionConfig.category r' = AuctionConfig.category r
        /\ AuctionConfig.max_players r' = AuctionConfig.max_players r
        /\ AuctionConfig.base_price r' = AuctionConfig.base_price r
        /\ AuctionConfig.created_by r' = AuctionConfig.created_by r
        /\ AuctionConfig.created_at r' = AuctionConfig.created_at r)
    /\ (forall other, other <> id ->
          auction_config_select_by_id (db (snd after)) other
          = auction_config_select_by_id (db w) other)
    /\ map AuctionConfig.id (auction_config (db (snd after)))
       = map AuctionConfig.id (auction_config (db w))
    /\ (tournaments (db (snd after)) = tournaments (db w)
        /\ teams (db (snd after)) = teams (db w)
        /\ auction_timer (db (snd after)) = auction_timer (db w)
        /\ tournament_captain (db (snd after)) = tournament_captain (db w))
    /\ (forall t listing,
          auction_config_select_active (db (snd after)) t = Data listing ->
          forall x, In x listing -> AuctionConfig.id x <> id)
    /\ (forall x, In x (CategoryConfigModal.configs (fst after)) ->
          AuctionConfig.id x <> id).
Proof.
  intros tid env r s w C Hin Hpol id after r'.
  pose proof (constraints_config_ids _ C) as D.
  set (p := fun x : AuctionConfig.row =>
              jseqb (AuctionConfig.id x) id
              && organizer_policy (db w) (session env)
                   (AuctionConfig.tournament_id x)).
  set (f := fun x : AuctionConfig.row =>
              AuctionConfig.set_updated_at (now (session env))
                (AuctionConfig.set_is_active (Some false) x)).
  assert (E : db (snd after)
              = with_auction_config (db w)
                  (update_where p f (auction_config (db w))))
    by reflexivity.
  assert (Hsel : filter (keyed AuctionConfig.id id) (auction_config (db w))
                 = [r]) by (apply filter_key_unique; assumption).
  assert (Hpr : p r = true).
  { unfold p. rewrite Hpol. subst id. rewrite jseqb_refl. reflexivity. }
  assert (Sid : auction_config_select_by_id (db (snd after)) id = [r']).
  { rewrite E. unfold auction_config_select_by_id. simpl.
    change (fun x => jseqb (AuctionConfig.id x) id)
      with (keyed AuctionConfig.id id).
    rewrite filter_update_where by reflexivity.
    rewrite Hsel. simpl. rewrite Hpr. reflexivity. }
  assert (Hactive : forall t listing,
             auction_config_select_active (db (snd after)) t = Data listing ->
             forall x, In x listing -> AuctionConfig.id x <> id).
  { intros t listing Hl x Hx Hxid.
    unfold auction_config_select_active in Hl. inversion Hl; subst listing.
    apply order_by_In in Hx. apply filter_In in Hx as [Hx Hact].
    apply andb_true_iff in Hact as [_ Hact].
    assert (Hx' : In x (auction_config_select_by_id (db (snd after)) id)).
    { unfold auction_config_select_by_id. apply filter_In. split; [exact Hx|].
      apply jseqb_eq; exact Hxid. }
    rewrite Sid in Hx'. destruct Hx' as [<-|[]]. discriminate Hact. }
  split.
  { change (requests (snd after))
      with ((requests w ++ [AuctionConfigUpdateIsActive id false])
            ++ [AuctionConfigSelectActive tid]).
    rewrite <- app_assoc. reflexivity. }
  split; [exact Sid|].
  split; [repeat split|].
  split.
  { intros other Hother. rewrite E. unfold auction_config_select_by_id. simpl.
    change (fun x => jseqb (AuctionConfig.id x) other)
      with (keyed AuctionConfig.id other).
    rewrite filter_update_where by reflexivity.
    rewrite update_where_nowhere; [reflexivity|].
    intros x Hx. apply filter_In in Hx as [_ Hx]. apply jseqb_eq in Hx.
    unfold p. apply andb_false_iff. left. apply jseqb_neq. congruence. }
  split.
  { rewrite E. simpl. apply map_key_update_where. reflexivity. }
  split; [rewrite E; repeat split|].
  split; [exact Hactive|].
  intros x Hx.
  apply (Hactive tid (CategoryConfigModal.configs (fst after)));
    [reflexivity | exact Hx].
Qed.

Lemma C6_soft_delete_keeps_the_row_witness :
  let after :=
    run (CategoryConfigModal.handleDelete (js "t-cup") (js "c-gold"))
        Sample.by_organizer CategoryConfigModal.initial
        (world_of Sample.store) in
  auction_config_select_by_id (db (snd after)) (js "c-gold")
  = [AuctionConfig.set_updated_at 100
       (AuctionConfig.set_is_active (Some false) Sample.gold)]
  /\ CategoryConfigModal.configs (fst after) = [Sample.silver].
Proof.
  intros after.
  pose proof (C6_soft_delete_keeps_the_row (js "t-cup") Sample.by_organizer
                Sample.gold CategoryConfigModal.initial
                (world_of Sample.store) eq_refl (or_introl eq_refl) eq_refl)
    as H.
  cbv zeta in H. destruct H as (_ & H2 & _).
  split; [exact H2 | reflexivity].
Defined.

(* ===================================================================== *)
(** ** Vote results: the listing *)
(* ===================================================================== *)

Lemma StronglySorted_impl {A : Type} (R R' : A -> A -> Prop) (l : list A) :
  (forall a b, R a b -> R' a b) -> StronglySorted R l -> StronglySorted R' l.
Proof.
  intros H. induction 1 as [|x l Hs IH Hx]; constructor; [exact IH|].
  eapply Forall_impl; [|exact Hx]. intros; apply H; assumption.
Qed.

Lemma votes_desc_total (a b : Captain.row) :
  votes_desc a b = true \/ votes_desc b a = true.
Proof. unfold votes_desc; rewrite !Z.leb_le; lia. Qed.

Lemma votes_desc_trans (a b c : Captain.row) :
  votes_desc a b = true -> votes_desc b c = true -> votes_desc a c = true.
Proof. unfold votes_desc; rewrite !Z.leb_le; lia. Qed.

Lemma captain_active_of_spec (tid : uuid) (c : Captain.row) :
  captain_active_of tid c = true
  <-> Captain.tournament_id c = tid /\ Captain.is_active c = Some true.
Proof.
  unfold captain_active_of. rewrite andb_true_iff, jseqb_eq.
  destruct (Captain.is_active c) as [[|]|]; simpl;
    split; intros [? ?]; split; congruence.
Qed.

(** What the results page lists once the tournament has been found. *)
Lemma fetchData_captains (tid : uuid) (env : Env)
    (s : ViewCaptainVotes.State) (w : World) (t : Tournament.row) :
  tournaments_select_single (db w) tid = Data t ->
  ViewCaptainVotes.captains (fst (run (ViewCaptainVotes.fetchData tid) env s w))
  = order_by votes_desc
      (filter (captain_active_of tid) (tournament_captain (db w))).
Proof.
  intros Ht.
  unfold run, ViewCaptainVotes.fetchData, finally, try_catch, bind, supabase,
    ViewCaptainVotes.setLoading, set; simpl.
  rewrite Ht; simpl. reflexivity.
Qed.

(** C5. Once the tournament is found, the vote-results listing holds
    exactly the captains of that tournament whose [is_active] is true,
    each as many times as the relation has it, in descending order of
    votes. Between captains level on votes no order is promised: every
    arrangement of the listing that is descending by votes is the listing
    of a store that holds the same rows. *)
Theorem C5_results_listing_active_by_votes :
  forall (tournamentId : uuid) (env : Env) (s : ViewCaptainVotes.State)
         (w : World) (t : Tournament.row),
    tournaments_select_single (db w) tournamentId = Data t ->
    let listing :=
      ViewCaptainVotes.captains
        (fst (run (ViewCaptainVotes.fetchData tournamentId) env s w)) in
    Permutation
      (filter (captain_active_of tournamentId) (tournament_captain (db w)))
      listing
    /\ (forall c, In c listing <->
                  In c (tournament_captain (db w))
                  /\ Captain.tournament_id c = tournamentId
                  /\ Captain.is_active c = Some true)
    /\ Spec.by_votes_descending listing
    /\ (forall other,
          Permutation listing other -> Spec.by_votes_descending other ->
          exists rows,
            Permutation (tournament_captain (db w)) rows
            /\ ViewCaptainVotes.captains
                 (fst (run (ViewCaptainVotes.fetchData tournamentId) env s
                           {| db := with_tournament_captain (db w) rows;
                              toasts := toasts w;
                              navigations := navigations w;
                              requests := requests w |}))
               = other).
Proof.
  intros tid env s w t Ht listing.
  assert (EL : listing
               = order_by votes_desc
                   (filter (captain_active_of tid) (tournament_captain (db w))))
    by (apply (fetchData_captains tid env s w t Ht)).
  assert (P : Permutation
                (filter (captain_active_of tid) (tournament_captain (db w)))
                listing) by (rewrite EL; apply order_by_perm).
  split; [exact P|]. split; [|split].
  - intros c. rewrite EL, order_by_In, filter_In, captain_active_of_spec.
    tauto.
  - rewrite EL. unfold Spec.by_votes_descending.
    eapply StronglySorted_impl;
      [| apply order_by_sorted;
         [apply votes_desc_total | apply votes_desc_trans]].
    intros a b H. apply Z.leb_le. exact H.
  - intros other Hperm Hsorted.
    set (rest := filter (fun c => negb (captain_active_of tid c))
                        (tournament_captain (db w))).
    exists (other ++ rest). split.
    + eapply perm_trans; [apply (filter_split_perm (captain_active_of tid))|].
      apply Permutation_app_tail.
      eapply perm_trans; [exact P | exact Hperm].
    + rewrite (fetchData_captains tid env s _ t) by exact Ht.
      simpl. rewrite filter_app.
      rewrite (filter_all _ other), (filter_none _ rest), app_nil_r.
      * apply order_by_of_sorted.
        eapply StronglySorted_impl; [|exact Hsorted].
        intros a b H. apply Z.leb_le. exact H.
      * intros x Hx. apply filter_In in Hx as [_ Hx].
        apply negb_true_iff. exact Hx.
      * intros x Hx.
        apply (Permutation_in _ (Permutation_sym Hperm)) in Hx.
        apply (Permutation_in _ (Permutation_sym P)) in Hx.
        apply filter_In in Hx as [_ Hx]. exact Hx.
Qed.

(** On the sample store, where Asha and Meera are level on three votes:
    the listing is in descending order, and the arrangement with Meera
    before Asha is the listing of a store with the same rows. *)
Lemma C5_results_listing_active_by_votes_witness :
  let listing :=
    ViewCaptainVotes.captains
      (fst (run (ViewCaptainVotes.fetchData (js "t-cup")) Sample.by_visitor
                ViewCaptainVotes.initial (world_of Sample.store))) in
  map Captain.name listing = [js "Ravi"; js "Asha"; js "Meera"]
  /\ Spec.by_votes_descending listing
  /\ exists rows,
       Permutation (tournament_captain Sample.store) rows
       /\ map Captain.name
            (ViewCaptainVotes.captains
               (fst (run (ViewCaptainVotes.fetchData (js "t-cup"))
                         Sample.by_visitor ViewCaptainVotes.initial
                         (world_of
                            (with_tournament_captain Sample.store rows)))))
          = [js "Ravi"; js "Meera"; js "Asha"].
Proof.
  intros listing.
  pose proof (C5_results_listing_active_by_votes (js "t-cup")
                Sample.by_visitor ViewCaptainVotes.initial
                (world_of Sample.store) Sample.cup eq_refl) as H.
  cbv zeta in H. destruct H as (_ & _ & H3 & H4).
  split; [reflexivity|]. split; [exact H3|].
  destruct (H4 [Sample.captain "k-ravi" "Ravi" 5 (Some true) 2;
                Sample.captain "k-meera" "Meera" 3 (Some true) 3;
                Sample.captain "k-asha" "Asha" 3 (Some true) 1])
    as [rows [Hp Hl]].
  - apply perm_skip. apply perm_swap.
  - unfold Spec.by_votes_descending.
    repeat (constructor; simpl; try lia).
  - exists rows. split; [exact Hp|].
    change (world_of (with_tournament_captain Sample.store rows))
      with {| db := with_tournament_captain (db (world_of Sample.store)) rows;
              toasts := toasts (world_of Sample.store);
              navigations := navigations (world_of Sample.store);
              requests := requests (world_of Sample.store) |}.
    rewrite Hl. reflexivity.
Defined.

(* ===================================================================== *)
(** ** Bid timer: one row per tournament *)
(* ===================================================================== *)

Lemma in_range_tests (v : Z) :
  5 <= v <= 120 ->
  (v <? 5) = false /\ (120 <? v) = false /\ int4 v = true.
Proof.
  intros H. unfold int4.
  rewrite andb_true_iff, !Z.leb_le, !Z.ltb_ge. lia.
Qed.

(** A round of configuration when the tournament has its timer row: the
    modal loads it and the submission is an update keyed by its id. *)
Lemma configure_existing (tid : uuid) (env : Env) (text : jsstring) (v : Z)
    (r0 : AuctionTimer.row) (s : BidTimerConfigModal.State) (w : World) :
  Spec.timer_rows (db w) tid = [r0] ->
  truthy (AuctionTimer.id r0) = true ->
  parseInt text = Some v -> 5 <= v <= 120 ->
  snd (run (BidTimerConfigModal.configure tid text) env s w)
  = {| db := with_auction_timer (db w)
               (update_where
                  (fun r => jseqb (AuctionTimer.id r) (AuctionTimer.id r0)
                            && organizer_policy (db w) (session env)
                                 (AuctionTimer.tournament_id r))
                  (fun r => AuctionTimer.set_updated_at (clock env)
                              (AuctionTimer.set_bid_time v r))
                  (auction_timer (db w)));
       toasts := toasts w ++ [BidTimerConfigModal.saved];
       navigations := navigations w;
       requests := requests w ++
         [AuctionTimerSelectMaybeSingle tid;
          AuctionTimerUpdateBidTime (AuctionTimer.id r0) v] |}.
Proof.
  intros Hrows Hid Hparse Hv.
  destruct (in_range_tests v Hv) as (H5 & H120 & Hint).
  unfold run, BidTimerConfigModal.configure, BidTimerConfigModal.useEffect,
    BidTimerConfigModal.fetchTimer, BidTimerConfigModal.handleSubmit,
    finally, try_catch, bind, supabase, get, set,
    BidTimerConfigModal.onOpenChange, BidTimerConfigModal.setLoading,
    BidTimerConfigModal.setBidTime, BidTimerConfigModal.setSaving,
    BidTimerConfigModal.setExistingId; simpl.
  unfold auction_timer_select_maybeSingle.
  unfold Spec.timer_rows in Hrows. rewrite Hrows. simpl.
  rewrite Hparse. simpl. rewrite H5, H120. simpl. rewrite Hid. simpl.
  unfold auction_timer_update_bid_time. rewrite Hint. simpl.
  rewrite <- app_assoc. reflexivity.
Qed.

Lemma no_conflicting_timer (uuid_ tid : uuid) (l : list AuctionTimer.row) :
  existsb (jseqb uuid_) (map AuctionTimer.id l) = false ->
  filter (keyed AuctionTimer.tournament_id tid) l = [] ->
  existsb (fun r => jseqb (AuctionTimer.id r) uuid_
                    || jseqb (AuctionTimer.tournament_id r) tid) l = false.
Proof.
  induction l as [|x l IH]; simpl; [reflexivity|].
  intros H1 H2. apply orb_false_iff in H1 as [H1 H1'].
  unfold keyed at 1 in H2.
  destruct (jseqb (AuctionTimer.tournament_id x) tid); [discriminate|].
  rewrite jseqb_sym, H1. simpl. auto.
Qed.

(** A round of configuration when the tournament has no timer row: the
    submission is an insert, and the organizer's insert succeeds. *)
Lemma configure_absent (tid : uuid) (env : Env) (text : jsstring) (v : Z)
    (s : BidTimerConfigModal.State) (w : World) :
  Spec.timer_rows (db w) tid = [] ->
  organizer_policy (db w) (session env) tid = true ->
  existsb (jseqb (next_uuid env)) (map AuctionTimer.id (auction_timer (db w)))
  = false ->
  parseInt text = Some v -> 5 <= v <= 120 ->
  snd (run (BidTimerConfigModal.configure tid text) env s w)
  = {| db := with_auction_timer (db w)
               (auction_timer (db w) ++
                [ {| AuctionTimer.id := next_uuid env;
                     AuctionTimer.tournament_id := tid;
                     AuctionTimer.bid_time := v;
                     AuctionTimer.created_by := None;
                     AuctionTimer.created_at := clock env;
                     AuctionTimer.updated_at := clock env;
                     AuctionTimer.is_active := Some true |} ]);
       toasts := toasts w ++ [BidTimerConfigModal.saved];
       navigations := navigations w;
       requests := requests w ++
         [AuctionTimerSelectMaybeSingle tid; AuctionTimerInsert tid v] |}.
Proof.
  intros Hrows Hpol Hfresh Hparse Hv.
  destruct (in_range_tests v Hv) as (H5 & H120 & Hint).
  unfold run, BidTimerConfigModal.configure, BidTimerConfigModal.useEffect,
    BidTimerConfigModal.fetchTimer, BidTimerConfigModal.handleSubmit,
    finally, try_catch, bind, supabase, get, set,
    BidTimerConfigModal.onOpenChange, BidTimerConfigModal.setLoading,
    BidTimerConfigModal.setBidTime, BidTimerConfigModal.setSaving,
    BidTimerConfigModal.setExistingId; simpl.
  unfold auction_timer_select_maybeSingle.
  pose proof Hrows as Hrows'. unfold Spec.timer_rows in Hrows'.
  rewrite Hrows'. simpl.
  rewrite Hparse. simpl. rewrite H5, H120. simpl.
  unfold auction_timer_insert. rewrite Hint, Hpol. simpl.
  rewrite (no_conflicting_timer _ _ _ Hfresh Hrows'). simpl.
  rewrite <- app_assoc. reflexivity.
Qed.

(* ===================================================================== *)
(** ** The constraints are kept by the bid-timer statements *)
(* ===================================================================== *)

Lemma distinct_snoc (l : list jsstring) (k : jsstring) :
  distinct (l ++ [k]) = distinct l && negb (existsb (fun a => jseqb a k) l).
Proof.
  induction l as [|a l IH]; simpl; [reflexivity|].
  rewrite IH, existsb_app. simpl. rewrite orb_false_r.
  destruct (existsb (jseqb a) l), (jseqb a k), (distinct l),
    (existsb (fun a0 => jseqb a0 k) l); reflexivity.
Qed.

Lemma existsb_map {A B : Type} (f : A -> B) (p : B -> bool) (l : list A) :
  existsb p (map f l) = existsb (fun x => p (f x)) l.
Proof. induction l as [|x l IH]; simpl; [|rewrite IH]; reflexivity. Qed.

Lemma existsb_or_false {A : Type} (p q : A -> bool) (l : list A) :
  existsb (fun x => p x || q x) l = false ->
  existsb p l = false /\ existsb q l = false.
Proof.
  induction l as [|x l IH]; simpl; [auto|]. intros H.
  apply orb_false_iff in H as [H1 H2].
  apply orb_false_iff in H1 as [-> ->]. destruct (IH H2) as [-> ->]. auto.
Qed.

Lemma timer_keys_after_update (p : AuctionTimer.row -> bool) (ses : Session)
    (v : Z) (l : list AuctionTimer.row) :
  let l' := update_where p
              (fun r => update_auction_timer_updated_at ses
                          (AuctionTimer.set_bid_time v r)) l in
  map AuctionTimer.id l' = map AuctionTimer.id l
  /\ map AuctionTimer.tournament_id l' = map AuctionTimer.tournament_id l.
Proof.
  split; induction l as [|x l IH]; simpl; try reflexivity;
    rewrite IH; destruct (p x); reflexivity.
Qed.

(** An update of a bid time keeps the constraints of the schema. *)
Lemma auction_timer_update_keeps_constraints (ses : Session) (d : Db)
    (id : uuid) (v : Z) :
  constraints_hold d = true ->
  constraints_hold (snd (auction_timer_update_bid_time ses d id v)) = true.
Proof.
  unfold auction_timer_update_bid_time.
  destruct (int4 v); simpl; [|auto].
  unfold constraints_hold. simpl.
  destruct (timer_keys_after_update
              (fun r => jseqb (AuctionTimer.id r) id
                        && organizer_policy d ses
                             (AuctionTimer.tournament_id r))
              ses v (auction_timer d)) as [-> ->].
  auto.
Qed.

(** An insert keeps them: the store refuses a second row for a
    tournament and a key that is taken. *)
Lemma auction_timer_insert_keeps_constraints (ses : Session) (d : Db)
    (tid : uuid) (v : Z) :
  truthy (gen_random_uuid ses) = true ->
  constraints_hold d = true ->
  constraints_hold (snd (auction_timer_insert ses d tid v)) = true.
Proof.
  intros Hu C. unfold auction_timer_insert.
  destruct (negb (int4 v)); simpl; [exact C|].
  destruct (negb (organizer_policy d ses tid)); simpl; [exact C|].
  destruct (existsb _ (auction_timer d)) eqn:E; simpl; [exact C|].
  apply existsb_or_false in E as [E1 E2].
  unfold constraints_hold in *. simpl.
  repeat (apply andb_true_iff in C as [C ?]).
  rewrite !map_app. simpl.
  rewrite !distinct_snoc, forallb_app, !existsb_map. simpl.
  rewrite E1, E2, Hu. simpl.
  repeat (apply andb_true_iff; split); auto.
Qed.

(** Whatever is submitted, by whomever, the bid-timer form leaves a
    store that satisfies the constraints - in particular one with at most
    one timer row for each tournament. *)
Lemma handleSubmit_keeps_constraints (tid : uuid) (env : Env)
    (s : BidTimerConfigModal.State) (w : World) :
  truthy (next_uuid env) = true ->
  constraints_hold (db w) = true ->
  constraints_hold
    (db (snd (run (BidTimerConfigModal.handleSubmit tid) env s w))) = true.
Proof.
  intros Hu C.
  unfold run, BidTimerConfigModal.handleSubmit, bind, get.
  destruct (isNaN _ || lt _ 5 || gt _ 120); simpl; [exact C|].
  unfold finally, try_catch, bind, supabase, BidTimerConfigModal.setSaving,
    set; simpl.
  destruct (truthy_opt (BidTimerConfigModal.existingId s)); simpl.
  - match goal with
    | |- context [auction_timer_update_bid_time ?a ?b ?c ?e] =>
        pose proof (auction_timer_update_keeps_constraints a b c e C) as K;
        destruct (auction_timer_update_bid_time a b c e) as [[[]|err] d']
    end; simpl in *; exact K.
  - match goal with
    | |- context [auction_timer_insert ?a ?b ?c ?e] =>
        pose proof (auction_timer_insert_keeps_constraints a b c e Hu C) as K;
        destruct (auction_timer_insert a b c e) as [[[]|err] d']
    end; simpl in *; exact K.
Qed.

Lemma at_most_one_timer_row (d : Db) (tid : uuid) :
  constraints_hold d = true ->
  (List.length (Spec.timer_rows d tid) <= 1)%nat.
Proof.
  intros C. destruct (constraints_timer _ C) as (_ & _ & D).
  unfold Spec.timer_rows.
  destruct (filter_key_at_most_one AuctionTimer.tournament_id tid _ D)
    as [H | [r [_ H]]];
    change (fun r => jseqb (AuctionTimer.tournament_id r) tid)
      with (keyed AuctionTimer.tournament_id tid);
    rewrite H; simpl; lia.
Qed.

(** C2. The organizer configures the bid timer of a tournament twice,
    each time with a bid time between 5 and 120. Whether or not the
    tournament had a timer row before, it has exactly one after the first
    round and exactly one after the second. When the modal opens on an
    existing row the submission is an update keyed by the id of that row,
    and otherwise an insert; the second submission is always the update
    of the row the first round left, which holds the second bid time. *)
Theorem C2_configuring_twice_leaves_one_row :
  forall (tournamentId : uuid) (env1 env2 : Env) (t : Tournament.row)
         (text1 text2 : jsstring) (v1 v2 : Z)
         (s : BidTimerConfigModal.State) (w : World),
    constraints_hold (db w) = true ->
    In t (tournaments (db w)) ->
    Tournament.id t = tournamentId ->
    option_map Auth.id (user env1) = Some (Tournament.organizer_id t) ->
    option_map Auth.id (user env2) = Some (Tournament.organizer_id t) ->
    truthy (next_uuid env1) = true ->
    existsb (jseqb (next_uuid env1))
            (map AuctionTimer.id (auction_timer (db w))) = false ->
    parseInt text1 = Some v1 -> 5 <= v1 <= 120 ->
    parseInt text2 = Some v2 -> 5 <= v2 <= 120 ->
    let first := run (BidTimerConfigModal.configure tournamentId text1)
                     env1 s w in
    let second := run (BidTimerConfigModal.configure tournamentId text2)
                      env2 (fst first) (snd first) in
    exists r1,
      Spec.timer_rows (db (snd first)) tournamentId = [r1]
      /\ AuctionTimer.bid_time r1 = v1
      /\ requests (snd first)
         = requests w ++
           [AuctionTimerSelectMaybeSingle tournamentId;
            match Spec.timer_rows (db w) tournamentId with
            | r0 :: _ => AuctionTimerUpdateBidTime (AuctionTimer.id r0) v1
            | [] => AuctionTimerInsert tournamentId v1
            end]
      /\ Spec.timer_rows (db (snd second)) tournamentId
         = [AuctionTimer.set_updated_at (clock env2)
              (AuctionTimer.set_bid_time v2 r1)]
      /\ requests (snd second)
         = requests (snd first) ++
           [AuctionTimerSelectMaybeSingle tournamentId;
            AuctionTimerUpdateBidTime (AuctionTimer.id r1) v2]
      /\ List.length (Spec.timer_rows (db (snd second)) tournamentId) = 1%nat.
Proof.
  intros tid env1 env2 t text1 text2 v1 v2 s w C Hin Hid Hu1 Hu2 Htruthy
         Hfresh Hp1 Hv1 Hp2 Hv2 first second.
  destruct (constraints_timer _ C) as (Dids & Tids & Dtids).
  assert (Hpol : forall env d,
             tournaments d = tournaments (db w) ->
             option_map Auth.id (user env) = Some (Tournament.organizer_id t) ->
             organizer_policy d (session env) tid = true).
  { intros env d Hd Hu. rewrite <- Hid.
    apply organizer_passes_policy; [rewrite Hd; exact Hin | exact Hu]. }
  (* The second round, from any store where the tournament has one row. *)
  assert (Second : forall r1,
             Spec.timer_rows (db (snd first)) tid = [r1] ->
             truthy (AuctionTimer.id r1) = true ->
             tournaments (db (snd first)) = tournaments (db w) ->
             Spec.timer_rows (db (snd second)) tid
             = [AuctionTimer.set_updated_at (clock env2)
                  (AuctionTimer.set_bid_time v2 r1)]
             /\ requests (snd second)
                = requests (snd first) ++
                  [AuctionTimerSelectMaybeSingle tid;
                   AuctionTimerUpdateBidTime (AuctionTimer.id r1) v2]).
  { intros r1 Hrows Hr1 Ht. subst second.
    rewrite (configure_existing tid env2 text2 v2 r1 _ _ Hrows Hr1 Hp2 Hv2).
    split; [|reflexivity].
    unfold Spec.timer_rows in *. simpl.
    change (fun r => jseqb (AuctionTimer.tournament_id r) tid)
      with (keyed AuctionTimer.tournament_id tid) in *.
    rewrite filter_update_where by reflexivity.
    rewrite Hrows. simpl. rewrite jseqb_refl.
    assert (Htid : AuctionTimer.tournament_id r1 = tid).
    { assert (X : In r1 (filter (keyed AuctionTimer.tournament_id tid)
                           (auction_timer (db (snd first)))))
        by (rewrite Hrows; left; reflexivity).
      apply filter_In in X as [_ X]. apply jseqb_eq in X. exact X. }
    rewrite Htid, (Hpol env2 _ Ht Hu2). reflexivity. }
  destruct (filter_key_at_most_one AuctionTimer.tournament_id tid _ Dtids)
    as [Hnone | [r0 [Hr0 Hone]]].
  - (* no row yet: insert, then update *)
    assert (E1 : snd first = _)
      by (apply (configure_absent tid env1 text1 v1 s w Hnone
                   (Hpol env1 _ eq_refl Hu1) Hfresh Hp1 Hv1)).
    set (r1 := {| AuctionTimer.id := next_uuid env1;
                  AuctionTimer.tournament_id := tid;
                  AuctionTimer.bid_time := v1;
                  AuctionTimer.created_by := None;
                  AuctionTimer.created_at := clock env1;
                  AuctionTimer.updated_at := clock env1;
                  AuctionTimer.is_active := Some true |}) in *.
    assert (Hrows1 : Spec.timer_rows (db (snd first)) tid = [r1]).
    { rewrite E1. unfold Spec.timer_rows. simpl.
      change (fun r => jseqb (AuctionTimer.tournament_id r) tid)
        with (keyed AuctionTimer.tournament_id tid).
      rewrite filter_app, Hnone. simpl. unfold keyed. simpl.
      rewrite jseqb_refl. reflexivity. }
    destruct (Second r1 Hrows1 Htruthy) as [S1 S2];
      [rewrite E1; reflexivity|].
    exists r1. split; [exact Hrows1|]. split; [reflexivity|].
    split; [rewrite E1; unfold Spec.timer_rows;
            change (fun r => jseqb (AuctionTimer.tournament_id r) tid)
              with (keyed AuctionTimer.tournament_id tid);
            rewrite Hnone; reflexivity|].
    split; [exact S1|]. split; [exact S2|]. rewrite S1. reflexivity.
  - (* a row exists: update, then update *)
    assert (Hr0id : truthy (AuctionTimer.id r0) = true).
    { rewrite forallb_forall in Tids. apply Tids. apply in_map. exact Hr0. }
    assert (Htid0 : AuctionTimer.tournament_id r0 = tid).
    { assert (X : In r0 (filter (keyed AuctionTimer.tournament_id tid)
                           (auction_timer (db w))))
        by (rewrite Hone; left; reflexivity).
      apply filter_In in X as [_ X]. apply jseqb_eq in X. exact X. }
    assert (E1 : snd first = _)
      by (apply (configure_existing tid env1 text1 v1 r0 s w Hone Hr0id
                   Hp1 Hv1)).
    set (r1 := AuctionTimer.set_updated_at (clock env1)
                 (AuctionTimer.set_bid_time v1 r0)).
    assert (Hrows1 : Spec.timer_rows (db (snd first)) tid = [r1]).
    { rewrite E1. unfold Spec.timer_rows. simpl.
      change (fun r => jseqb (AuctionTimer.tournament_id r) tid)
        with (keyed AuctionTimer.tournament_id tid).
      rewrite filter_update_where by reflexivity.
      rewrite Hone. simpl. rewrite jseqb_refl, Htid0.
      rewrite (Hpol env1 _ eq_refl Hu1). reflexivity. }
    destruct (Second r1 Hrows1 Hr0id) as [S1 S2];
      [rewrite E1; reflexivity|].
    exists r1. split; [exact Hrows1|]. split; [reflexivity|].
    split; [rewrite E1; unfold Spec.timer_rows;
            change (fun r => jseqb (AuctionTimer.tournament_id r) tid)
              with (keyed AuctionTimer.tournament_id tid);
            rewrite Hone; reflexivity|].
    split; [exact S1|]. split; [exact S2|]. rewrite S1. reflexivity.
Qed.

Lemma C2_configuring_twice_leaves_one_row_witness :
  let first := run (BidTimerConfigModal.configure (js "t-cup") (js "15"))
                   Sample.by_organizer BidTimerConfigModal.initial
                   (world_of Sample.store) in
  let second := run (BidTimerConfigModal.configure (js "t-cup") (js "30"))
                    (Sample.env_of (Some Sample.organizer) 200 "id-200")
                    (fst first) (snd first) in
  requests (snd second)
  = [AuctionTimerSelectMaybeSingle (js "t-cup");
     AuctionTimerInsert (js "t-cup") 15;
     AuctionTimerSelectMaybeSingle (js "t-cup");
     AuctionTimerUpdateBidTime (js "id-100") 30]
  /\ map AuctionTimer.bid_time (Spec.timer_rows (db (snd second)) (js "t-cup"))
     = [30].
Proof.
  intros first second.
  destruct (C2_configuring_twice_leaves_one_row (js "t-cup")
              Sample.by_organizer
              (Sample.env_of (Some Sample.organizer) 200 "id-200")
              Sample.cup (js "15") (js "30") 15 30
              BidTimerConfigModal.initial (world_of Sample.store)
              eq_refl (or_introl eq_refl) eq_refl eq_refl eq_refl eq_refl
              eq_refl eq_refl ltac:(lia) eq_refl ltac:(lia))
    as (r1 & H1 & H2 & H3 & H4 & H5 & H6).
  split; [reflexivity|].
  fold first in H4. fold second in H4. rewrite H4. simpl. reflexivity.
Defined.

(* ===================================================================== *)
(** ** Team creation: validation *)
(* ===================================================================== *)

Lemma gt_zero_not_le_zero (x : jsnum) :
  is_NaN x = false -> gt_zero x = negb (le_zero x).
Proof. destruct x as [|neg|[|] m e]; simpl; intros H; congruence. Qed.

(** The budget check of [handleCreateTeam] relies on the budget field for
    the text being a numeral: on a text that is not one - which the page
    never writes into [teamBudget], see
    [written_budget_is_empty_or_numeric] - [parseFloat] yields NaN,
    [NaN <= 0] is false and, with the name "Lions" and the budget "abc",
    the insert would be sent to the store. *)
Lemma handleCreateTeam_relies_on_the_budget_field :
  ~ Spec.team_creation_claim (js "t-cup") Sample.by_organizer
      (Sample.team_form "Lions" "abc") (world_of Sample.store).
Proof.
  intros [_ H]. destruct (H eq_refl) as (_ & Hreq & _).
  vm_compute in Hreq. discriminate Hreq.
Qed.

(** C7. For every team-creation submission - the budget text being
    empty or a numeral, which is all the page ever writes into
    [teamBudget]: the value of its [type="number"] field and the
    tournament's budget printed, see
    [written_budget_is_empty_or_numeric] - a row is inserted into [teams]
    only if the trimmed team name is not empty and the budget is a
    strictly positive number; otherwise the submission is rejected with a
    validation notification before anything is sent, and nothing is
    inserted. A valid submission sends the insert of the trimmed name and
    the parsed budget, and adds at most one row. *)
Theorem C7_team_accepted_only_if_valid :
  forall (tournamentId : uuid) (env : Env) (s : CreateTeams.State)
         (w : World),
    truthy (CreateTeams.teamBudget s) = false
    \/ is_NaN (parseFloat (CreateTeams.teamBudget s)) = false ->
    let w' := snd (run (CreateTeams.handleCreateTeam tournamentId)
                       env s w) in
    Spec.team_creation_claim tournamentId env s w
    /\ (Spec.team_submission_valid s = true ->
        exists captain_id rest,
          requests w'
          = requests w ++
            TeamsInsert tournamentId (trim (CreateTeams.teamName s))
              captain_id (parseFloat (CreateTeams.teamBudget s))
              (option_map Auth.id (user env)) :: rest)
    /\ (teams (db w') = teams (db w)
        \/ exists row, teams (db w') = teams (db w) ++ [row]
                       /\ Team.name row = trim (CreateTeams.teamName s)
                       /\ Team.tournament_id row = tournamentId).
Proof.
  intros tid env s w Hnum w'.
  unfold Spec.team_creation_claim, Spec.team_submission_valid,
    Spec.strictly_positive_number.
  fold w'.
  destruct (truthy (trim (CreateTeams.teamName s))) eqn:En.
  2:{ (* no name *)
      assert (Ew : w' = {| db := db w;
                           toasts := toasts w ++
                             [validation_error "Team name is required."];
                           navigations := navigations w;
                           requests := requests w |}).
      { subst w'. unfold run, CreateTeams.handleCreateTeam, bind, get, ask.
        rewrite En. reflexivity. }
      rewrite Ew. simpl. split; [split|split].
      - intros H; exfalso; apply H; reflexivity.
      - intros _. split; [eexists; reflexivity | split; reflexivity].
      - discriminate.
      - left; reflexivity. }
  destruct (negb (truthy (CreateTeams.teamBudget s))
            || le_zero (parseFloat (CreateTeams.teamBudget s))) eqn:Eb.
  { (* no budget, or a budget that is not positive *)
    assert (Ew : w' = {| db := db w;
                         toasts := toasts w ++
                           [validation_error
                              "Please enter a valid team budget."];
                         navigations := navigations w;
                         requests := requests w |}).
    { subst w'. unfold run, CreateTeams.handleCreateTeam, bind, get, ask.
      rewrite En. simpl. rewrite Eb. reflexivity. }
    assert (Hg : gt_zero (parseFloat (CreateTeams.teamBudget s)) = false).
    { apply orb_true_iff in Eb as [Eb|Eb].
      - apply negb_true_iff in Eb.
        destruct (CreateTeams.teamBudget s); [reflexivity | discriminate].
      - destruct (parseFloat (CreateTeams.teamBudget s)) as [|neg|[|] m e];
          simpl in *; try reflexivity; try discriminate;
          rewrite Eb; reflexivity. }
    rewrite Ew, Hg. simpl. split; [split|split].
    - intros H; exfalso; apply H; reflexivity.
    - intros _. split; [eexists; reflexivity | split; reflexivity].
    - discriminate.
    - left; reflexivity. }
  (* the submission passes the checks *)
  apply orb_false_iff in Eb as [Et El]. apply negb_false_iff in Et.
  assert (Hg : gt_zero (parseFloat (CreateTeams.teamBudget s)) = true).
  { destruct Hnum as [Hnum|Hnum]; [congruence|].
    rewrite (gt_zero_not_le_zero _ Hnum), El. reflexivity. }
  rewrite Hg. simpl.
  split; [split; [reflexivity | discriminate]|].
  subst w'.
  unfold run, CreateTeams.handleCreateTeam, bind, get, ask.
  rewrite En. simpl. rewrite Et, El. simpl.
  unfold finally, try_catch, bind, supabase, CreateTeams.setCreating, set.
  simpl.
  unfold teams_insert.
  destruct (json_number (parseFloat (CreateTeams.teamBudget s))) as [budget|];
    simpl.
  2:{ split; [intros _; do 2 eexists; reflexivity | left; reflexivity]. }
  destruct (organizer_policy (db w) (session env) tid); simpl.
  2:{ split; [intros _; do 2 eexists; reflexivity | left; reflexivity]. }
  destruct (existsb _ (teams (db w))); simpl.
  { split; [intros _; do 2 eexists; reflexivity | left; reflexivity]. }
  unfold CreateTeams.fetchTournamentAndTeams, finally, try_catch, bind,
    supabase, CreateTeams.setLoading, set, ask; simpl.
  destruct (tournaments_select_single _ tid) as [t|e]; simpl.
  2:{ split; [intros _; do 2 eexists; rewrite <- !app_assoc; reflexivity|].
      right. eexists. split; [reflexivity | split; reflexivity]. }
  destruct (CreateTeams.not_the_organizer (user env) t); simpl.
  - split; [intros _; do 2 eexists; rewrite <- !app_assoc; reflexivity|].
    right. eexists. split; [reflexivity | split; reflexivity].
  - split; [intros _; do 2 eexists; rewrite <- !app_assoc; reflexivity|].
    right. eexists. split; [reflexivity | split; reflexivity].
Qed.

Lemma C7_team_accepted_only_if_valid_witness :
  let typed (text : string) : CreateTeams.State :=
    fst (run (BudgetField.onChange (js text)) Sample.by_organizer
             (Sample.team_form "Lions" "") (world_of Sample.store)) in
  Spec.team_creation_claim (js "t-cup") Sample.by_organizer
    (Sample.team_form "Lions" "50000") (world_of Sample.store)
  /\ Spec.team_creation_claim (js "t-cup") Sample.by_organizer
       (Sample.team_form "Lions" "") (world_of Sample.store)
  /\ Spec.team_creation_claim (js "t-cup") Sample.by_organizer
       (Sample.team_form "Lions" "-5") (world_of Sample.store)
  /\ (CreateTeams.teamBudget (typed "1.5e3"%string) = js "1.5e3"
      /\ Spec.team_creation_claim (js "t-cup") Sample.by_organizer
           (typed "1.5e3"%string) (world_of Sample.store))
  /\ (CreateTeams.teamBudget (typed "abc"%string) = []
      /\ Spec.team_creation_claim (js "t-cup") Sample.by_organizer
           (typed "abc"%string) (world_of Sample.store)).
Proof.
  intros typed.
  split; [|split; [|split; [|split; split; [reflexivity | | reflexivity | ]]]].
  - apply (C7_team_accepted_only_if_valid (js "t-cup") Sample.by_organizer
             (Sample.team_form "Lions" "50000") (world_of Sample.store)).
    right; reflexivity.
  - apply (C7_team_accepted_only_if_valid (js "t-cup") Sample.by_organizer
             (Sample.team_form "Lions" "") (world_of Sample.store)).
    left; reflexivity.
  - apply (C7_team_accepted_only_if_valid (js "t-cup") Sample.by_organizer
             (Sample.team_form "Lions" "-5") (world_of Sample.store)).
    right; reflexivity.
  - apply (C7_team_accepted_only_if_valid (js "t-cup") Sample.by_organizer
             (typed "1.5e3"%string) (world_of Sample.store)).
    right; reflexivity.
  - apply (C7_team_accepted_only_if_valid (js "t-cup") Sample.by_organizer
             (typed "abc"%string) (world_of Sample.store)).
    left; reflexivity.
Defined.

(* ===================================================================== *)
(** ** Numerals: printing and reading back *)
(* ===================================================================== *)

Lemma span_digits_numeral (d : Decimal.uint) :
  span_digits 10 (js (NilEmpty.string_of_uint d)) = (uint_digits d, []).
Proof.
  induction d; simpl; try reflexivity;
    unfold js in *; simpl; rewrite IHd; reflexivity.
Qed.

Lemma digits_value_acc (d : Decimal.uint) (acc : positive) :
  fold_left (fun a x => a * 10 + x) (uint_digits d) (Z.pos acc)
  = Z.pos (Pos.of_uint_acc d acc).
Proof.
  revert acc; induction d; intros acc;
    cbn [uint_digits fold_left Pos.of_uint_acc]; try reflexivity;
    rewrite <- IHd; f_equal;
    rewrite ?Pos2Z.inj_add, ?Pos2Z.inj_mul; lia.
Qed.

Lemma digits_value_numeral (d : Decimal.uint) :
  digits_value 10 (uint_digits d) = Z.of_N (Pos.of_uint d).
Proof.
  unfold digits_value.
  induction d; cbn [uint_digits fold_left Pos.of_uint Z.of_N];
    try reflexivity; try exact IHd;
    apply (digits_value_acc d).
Qed.

(** Reading a numeral that has at least one digit. *)
Lemma parseInt_numeral (d : Decimal.uint) :
  d <> Decimal.Nil ->
  parseInt (js (NilEmpty.string_of_uint d)) = Some (Z.of_N (Pos.of_uint d))
  /\ parseInt (45%N :: js (NilEmpty.string_of_uint d))
     = Some (- Z.of_N (Pos.of_uint d)).
Proof.
  intros Hd. rewrite <- digits_value_numeral.
  pose proof (span_digits_numeral d) as H.
  destruct d as [|d|d|d|d|d|d|d|d|d|d]; try congruence; clear Hd;
    destruct d as [|d|d|d|d|d|d|d|d|d|d];
    unfold parseInt, js in *; simpl in *;
    rewrite ?H; simpl; split; reflexivity.
Qed.

(** What [toString] prints, [parseInt] reads back. *)
Lemma parseInt_toString (n : Z) : parseInt (toString n) = Some n.
Proof.
  unfold toString. destruct n as [|p|p]; [reflexivity| |].
  - cbn [Z.to_int NilZero.string_of_int].
    pose proof (DecimalPos.Unsigned.to_uint_nonnil p) as Hn.
    assert (E : NilZero.string_of_uint (Pos.to_uint p)
                = NilEmpty.string_of_uint (Pos.to_uint p))
      by (destruct (Pos.to_uint p); [congruence | reflexivity..]).
    rewrite E. destruct (parseInt_numeral _ Hn) as [-> _].
    rewrite DecimalPos.Unsigned.of_to. reflexivity.
  - cbn [Z.to_int NilZero.string_of_int].
    pose proof (DecimalPos.Unsigned.to_uint_nonnil p) as Hn.
    assert (E : NilZero.string_of_uint (Pos.to_uint p)
                = NilEmpty.string_of_uint (Pos.to_uint p))
      by (destruct (Pos.to_uint p); [congruence | reflexivity..]).
    rewrite E.
    change (js (String "-" (NilEmpty.string_of_uint (Pos.to_uint p))))
      with (45%N :: js (NilEmpty.string_of_uint (Pos.to_uint p))).
    destruct (parseInt_numeral _ Hn) as [_ ->].
    rewrite DecimalPos.Unsigned.of_to. reflexivity.
Qed.

Lemma toString_truthy (n : Z) : truthy (toString n) = true.
Proof.
  pose proof (parseInt_toString n) as H.
  destruct (toString n); [discriminate H | reflexivity].
Qed.

(* ===================================================================== *)
(** ** Team creation: what the budget field holds *)
(* ===================================================================== *)

(** [strip_sign] by tests on the first code unit. *)
Lemma strip_sign_cons (c : N) (r : jsstring) :
  strip_sign (c :: r)
  = if (c =? 45)%N then (true, r)
    else if (c =? 43)%N then (false, r) else (false, c :: r).
Proof.
  destruct c as [|p]; [reflexivity|].
  do 7 (try (destruct p as [p|p|]; try reflexivity)).
Qed.

Lemma decimal_digit (c : N) (d : Z) :
  radix_digit 10 c = Some d -> (48 <= c <= 57)%N.
Proof.
  unfold radix_digit, digit_value.
  destruct ((48 <=? c) && (c <=? 57))%N eqn:E.
  - intros _. apply andb_true_iff in E as [A B].
    apply N.leb_le in A, B. lia.
  - destruct ((97 <=? c) && (c <=? 122))%N eqn:E2.
    + apply andb_true_iff in E2 as [A B]. apply N.leb_le in A, B.
      destruct (Z.of_N (c - 87) <? 10) eqn:L; [|discriminate].
      apply Z.ltb_lt in L. lia.
    + destruct ((65 <=? c) && (c <=? 90))%N eqn:E3; [|discriminate].
      apply andb_true_iff in E3 as [A B]. apply N.leb_le in A, B.
      destruct (Z.of_N (c - 55) <? 10) eqn:L; [|discriminate].
      apply Z.ltb_lt in L. lia.
Qed.

Lemma not_white_space (c : N) :
  (46 <= c <= 57)%N -> is_white_space c = false.
Proof.
  intros H. unfold is_white_space.
  repeat (apply orb_false_iff; split);
    try (apply andb_false_iff);
    rewrite ?N.leb_gt, ?N.eqb_neq; try lia.
  all: try (right; apply N.leb_gt; lia).
Qed.

Lemma parseFloat_unfold (s : jsstring) :
  parseFloat s
  = let (neg, u) := strip_sign (trimStart s) in
    if starts_with (js "Infinity") u then Infinity neg
    else
      let (ip, r1) := span_digits 10 u in
      let (fp, r2) :=
        match r1 with
        | c :: r => if (c =? 46)%N then span_digits 10 r else ([], r1)
        | [] => ([], r1)
        end in
      match ip ++ fp with
      | [] => NaN
      | ds => Decimal neg (digits_value 10 ds)
                (exponent_part r2 - Z.of_nat (List.length fp))
      end.
Proof.
  unfold parseFloat. destruct (strip_sign (trimStart s)) as [neg u].
  destruct (starts_with (js "Infinity") u); [reflexivity|].
  destruct (span_digits 10 u) as [ip r1].
  destruct r1 as [|c r]; [reflexivity|].
  destruct c as [|p]; [reflexivity|].
  do 7 (try (destruct p as [p|p|]; try reflexivity)).
Qed.

Lemma unsigned_number_is_read (neg : bool) (u : jsstring) :
  BudgetField.unsigned_number u = true ->
  is_NaN
    (if starts_with (js "Infinity") u then Infinity neg
     else
       let (ip, r1) := span_digits 10 u in
       let (fp, r2) :=
         match r1 with
         | c :: r => if (c =? 46)%N then span_digits 10 r else ([], r1)
         | [] => ([], r1)
         end in
       match ip ++ fp with
       | [] => NaN
       | ds => Decimal neg (digits_value 10 ds)
                 (exponent_part r2 - Z.of_nat (List.length fp))
       end) = false.
Proof.
  unfold BudgetField.unsigned_number. intros H.
  destruct (starts_with (js "Infinity") u); [reflexivity|].
  destruct (span_digits 10 u) as [ip r1].
  destruct r1 as [|c r].
  - destruct ip; [discriminate H | reflexivity].
  - destruct (c =? 46)%N.
    + destruct (span_digits 10 r) as [fp r2].
      destruct fp; [discriminate H|]. destruct ip; reflexivity.
    + destruct ip; [discriminate H | reflexivity].
Qed.

Lemma unsigned_number_head (c : N) (r : jsstring) :
  BudgetField.unsigned_number (c :: r) = true -> (46 <= c <= 57)%N.
Proof.
  unfold BudgetField.unsigned_number. cbn [span_digits].
  destruct (radix_digit 10 c) as [d|] eqn:E.
  - intros _. apply decimal_digit in E. lia.
  - destruct (c =? 46)%N eqn:E46.
    + intros _. apply N.eqb_eq in E46. lia.
    + discriminate.
Qed.

(** A valid floating-point number is read by [parseFloat] as a number. *)
Lemma valid_floating_point_number_is_numeric (s : jsstring) :
  BudgetField.valid_floating_point_number s = true ->
  is_NaN (parseFloat s) = false.
Proof.
  unfold BudgetField.valid_floating_point_number. intros H.
  rewrite parseFloat_unfold.
  destruct s as [|c r]; [discriminate H|].
  destruct (c =? 45)%N eqn:E.
  - apply N.eqb_eq in E. subst c.
    change (trimStart (45%N :: r)) with (45%N :: r).
    rewrite strip_sign_cons. cbn [N.eqb Pos.eqb].
    apply unsigned_number_is_read. exact H.
  - pose proof (unsigned_number_head _ _ H) as Hc.
    cbn [trimStart]. rewrite (not_white_space c Hc).
    rewrite strip_sign_cons, E.
    replace (c =? 43)%N with false by (symmetry; apply N.eqb_neq; lia).
    apply unsigned_number_is_read. exact H.
Qed.

Lemma parseFloat_numeral (d : Decimal.uint) :
  d <> Decimal.Nil ->
  is_NaN (parseFloat (js (NilEmpty.string_of_uint d))) = false
  /\ is_NaN (parseFloat (45%N :: js (NilEmpty.string_of_uint d))) = false.
Proof.
  intros Hd.
  pose proof (span_digits_numeral d) as H.
  destruct d as [|d|d|d|d|d|d|d|d|d|d]; try congruence; clear Hd;
    unfold parseFloat, js in *; simpl in *;
    destruct (span_digits 10 _) as [ds rest]; inversion H; subst;
    split; reflexivity.
Qed.

Lemma parseFloat_toString (n : Z) : is_NaN (parseFloat (toString n)) = false.
Proof.
  unfold toString. destruct n as [|p|p]; [reflexivity| |];
    cbn [Z.to_int NilZero.string_of_int];
    pose proof (DecimalPos.Unsigned.to_uint_nonnil p) as Hn;
    assert (E : NilZero.string_of_uint (Pos.to_uint p)
                = NilEmpty.string_of_uint (Pos.to_uint p))
      by (destruct (Pos.to_uint p); [congruence | reflexivity..]);
    rewrite E.
  - apply (parseFloat_numeral _ Hn).
  - change (js (String "-" (NilEmpty.string_of_uint (Pos.to_uint p))))
      with (45%N :: js (NilEmpty.string_of_uint (Pos.to_uint p))).
    apply (parseFloat_numeral _ Hn).
Qed.

(** Whatever the page writes into [teamBudget] is empty or is read by
    [parseFloat] as a number. *)
Lemma written_budget_is_empty_or_numeric (text : jsstring) :
  BudgetField.written text ->
  truthy text = false \/ is_NaN (parseFloat text) = false.
Proof.
  intros [|typed|n|n].
  - left; reflexivity.
  - unfold BudgetField.value.
    destruct (BudgetField.valid_floating_point_number typed) eqn:E.
    + right. apply valid_floating_point_number_is_numeric, E.
    + left; reflexivity.
  - right. apply parseFloat_toString.
  - unfold or_else. rewrite toString_truthy. right. apply parseFloat_toString.
Qed.

(** Loading the page writes the tournament's budget, printed, or leaves
    the field as it is. *)
Lemma fetch_keeps_written (tid : uuid) (env : Env) (s : CreateTeams.State)
    (w : World) :
  BudgetField.written (CreateTeams.teamBudget s) ->
  BudgetField.written
    (CreateTeams.teamBudget
       (fst (run (CreateTeams.fetchTournamentAndTeams tid) env s w))).
Proof.
  intros H.
  unfold run, CreateTeams.fetchTournamentAndTeams, finally, try_catch, bind,
    supabase, or_throw, ask, CreateTeams.setLoading, set; simpl.
  destruct (tournaments_select_single (db w) tid) as [t|e]; simpl;
    [|exact H].
  destruct (CreateTeams.not_the_organizer (user env) t); simpl;
    [exact H | constructor].
Qed.

(** The page keeps in [teamBudget] a text that it has written itself. *)
Lemma teamBudget_stays_written (tid : uuid) (env : Env)
    (s : CreateTeams.State) (w : World) :
  BudgetField.written (CreateTeams.teamBudget CreateTeams.initial)
  /\ (BudgetField.written (CreateTeams.teamBudget s) ->
      BudgetField.written
        (CreateTeams.teamBudget
           (fst (run (CreateTeams.fetchTournamentAndTeams tid) env s w)))
      /\ BudgetField.written
           (CreateTeams.teamBudget
              (fst (run (CreateTeams.handleCreateTeam tid) env s w)))
      /\ forall typed,
           BudgetField.written
             (CreateTeams.teamBudget
                (fst (run (BudgetField.onChange typed) env s w)))).
Proof.
  split; [constructor|]. intros H.
  split; [apply fetch_keeps_written, H|]. split; [|intros; constructor].
  unfold run, CreateTeams.handleCreateTeam, bind, get, ask.
  destruct (negb (truthy (trim (CreateTeams.teamName s)))); [exact H|].
  destruct (negb (truthy (CreateTeams.teamBudget s))
            || le_zero (parseFloat (CreateTeams.teamBudget s))); [exact H|].
  unfold finally, try_catch, bind, supabase, or_throw,
    CreateTeams.setCreating, set; simpl.
  destruct (teams_insert _ _ _ _ _ _ _) as [[u|e] d]; simpl; [|exact H].
  match goal with
  | |- context [CreateTeams.fetchTournamentAndTeams tid env ?s1 ?w1] =>
      pose proof (fetch_keeps_written tid env s1 w1) as F;
      unfold run in F;
      destruct (CreateTeams.fetchTournamentAndTeams tid env s1 w1)
        as [[o st] w'] eqn:E
  end.
  simpl in F.
  assert (G : BudgetField.written (CreateTeams.teamBudget st)).
  { apply F. destruct (CreateTeams.tournament s); constructor. }
  destruct o; simpl; exact G.
Qed.

(* ===================================================================== *)
(** ** Bid timer: loading and saving *)
(* ===================================================================== *)


(** X1. Opening the dialog loads the timer of the tournament: with one
    row, the field shows its bid time and its id is remembered; with no
    row, the field shows 10 and no id is remembered; when the lookup fails
    (the tournament has several rows), an error is shown and the field and
    the remembered id stay as they were. The store is only read. *)
Theorem open_dialog_loads_the_timer :
  forall (tournamentId : uuid) (env : Env) (s : BidTimerConfigModal.State)
         (w : World),
    let after := run (BidTimerRounds.open_dialog tournamentId) env s w in
    let sent :=
      {| db := db w; toasts := toasts w; navigations := navigations w;
         requests := requests w ++
                     [AuctionTimerSelectMaybeSingle tournamentId] |} in
    match Spec.timer_rows (db w) tournamentId with
    | [] =>
        after = ({| BidTimerConfigModal.open := true;
                    BidTimerConfigModal.bidTime := js "10";
                    BidTimerConfigModal.loading := false;
                    BidTimerConfigModal.saving :=
                      BidTimerConfigModal.saving s;
                    BidTimerConfigModal.existingId := None |}, sent)
    | [r] =>
        after = ({| BidTimerConfigModal.open := true;
                    BidTimerConfigModal.bidTime :=
                      toString (AuctionTimer.bid_time r);
                    BidTimerConfigModal.loading := false;
                    BidTimerConfigModal.saving :=
                      BidTimerConfigModal.saving s;
                    BidTimerConfigModal.existingId :=
                      Some (AuctionTimer.id r) |}, sent)
    | _ :: _ :: _ =>
        after = ({| BidTimerConfigModal.open := true;
                    BidTimerConfigModal.bidTime :=
                      BidTimerConfigModal.bidTime s;
                    BidTimerConfigModal.loading := false;
                    BidTimerConfigModal.saving :=
                      BidTimerConfigModal.saving s;
                    BidTimerConfigModal.existingId :=
                      BidTimerConfigModal.existingId s |},
                 {| db := db w;
                    toasts := toasts w ++
                      [error_toast no_single "Failed to load timer config."];
                    navigations := navigations w;
                    requests := requests w ++
                      [AuctionTimerSelectMaybeSingle tournamentId] |})
    end.
Proof.
  intros tid env s w.
  unfold BidTimerRounds.open_dialog, run, BidTimerConfigModal.useEffect,
    BidTimerConfigModal.fetchTimer, finally, try_catch, bind, supabase, get,
    set, BidTimerConfigModal.onOpenChange, BidTimerConfigModal.setLoading,
    BidTimerConfigModal.setBidTime, BidTimerConfigModal.setExistingId; simpl.
  unfold auction_timer_select_maybeSingle, Spec.timer_rows.
  destruct (filter _ (auction_timer (db w))) as [|r [|r' rest]]; reflexivity.
Qed.

Lemma useEffect_existing (tid : uuid) (env : Env)
    (s : BidTimerConfigModal.State) (w : World) (r : AuctionTimer.row) :
  Spec.timer_rows (db w) tid = [r] ->
  BidTimerConfigModal.open s = true ->
  BidTimerConfigModal.useEffect tid env s w
  = (Returned tt,
     {| BidTimerConfigModal.open := true;
        BidTimerConfigModal.bidTime := toString (AuctionTimer.bid_time r);
        BidTimerConfigModal.loading := false;
        BidTimerConfigModal.saving := BidTimerConfigModal.saving s;
        BidTimerConfigModal.existingId := Some (AuctionTimer.id r) |},
     {| db := db w; toasts := toasts w; navigations := navigations w;
        requests := requests w ++ [AuctionTimerSelectMaybeSingle tid] |}).
Proof.
  intros H Ho.
  unfold BidTimerConfigModal.useEffect,
    BidTimerConfigModal.fetchTimer, finally, try_catch, bind, supabase, get,
    set, BidTimerConfigModal.setLoading,
    BidTimerConfigModal.setBidTime, BidTimerConfigModal.setExistingId.
  rewrite Ho. simpl.
  unfold auction_timer_select_maybeSingle. unfold Spec.timer_rows in H.
  rewrite H. simpl. rewrite Ho. reflexivity.
Qed.

Lemma open_dialog_existing (tid : uuid) (env : Env)
    (s : BidTimerConfigModal.State) (w : World) (r : AuctionTimer.row) :
  Spec.timer_rows (db w) tid = [r] ->
  run (BidTimerRounds.open_dialog tid) env s w
  = ({| BidTimerConfigModal.open := true;
        BidTimerConfigModal.bidTime := toString (AuctionTimer.bid_time r);
        BidTimerConfigModal.loading := false;
        BidTimerConfigModal.saving := BidTimerConfigModal.saving s;
        BidTimerConfigModal.existingId := Some (AuctionTimer.id r) |},
     {| db := db w; toasts := toasts w; navigations := navigations w;
        requests := requests w ++ [AuctionTimerSelectMaybeSingle tid] |}).
Proof.
  intros H.
  unfold BidTimerRounds.open_dialog, run, BidTimerConfigModal.useEffect,
    BidTimerConfigModal.fetchTimer, finally, try_catch, bind, supabase, get,
    set, BidTimerConfigModal.onOpenChange, BidTimerConfigModal.setLoading,
    BidTimerConfigModal.setBidTime, BidTimerConfigModal.setExistingId; simpl.
  unfold auction_timer_select_maybeSingle. unfold Spec.timer_rows in H.
  rewrite H. reflexivity.
Qed.

(** Submitting the form when it shows a bid time between 5 and 120 and
    an id is remembered: an update keyed by that id. *)
Lemma handleSubmit_update (tid : uuid) (env : Env) (v : Z) (id : uuid)
    (s : BidTimerConfigModal.State) (w : World) :
  parseInt (BidTimerConfigModal.bidTime s) = Some v -> 5 <= v <= 120 ->
  BidTimerConfigModal.existingId s = Some id -> truthy id = true ->
  run (BidTimerConfigModal.handleSubmit tid) env s w
  = ({| BidTimerConfigModal.open := false;
        BidTimerConfigModal.bidTime := BidTimerConfigModal.bidTime s;
        BidTimerConfigModal.loading := BidTimerConfigModal.loading s;
        BidTimerConfigModal.saving := false;
        BidTimerConfigModal.existingId := Some id |},
     {| db := snd (auction_timer_update_bid_time (session env) (db w) id v);
        toasts := toasts w ++ [BidTimerConfigModal.saved];
        navigations := navigations w;
        requests := requests w ++ [AuctionTimerUpdateBidTime id v] |}).
Proof.
  intros Hp Hv He Ht.
  destruct (in_range_tests v Hv) as (H5 & H120 & Hint).
  unfold run, BidTimerConfigModal.handleSubmit, finally, try_catch, bind,
    supabase, get, set, BidTimerConfigModal.onOpenChange,
    BidTimerConfigModal.setSaving.
  rewrite Hp, He. simpl. rewrite H5, H120, Ht. simpl.
  unfold auction_timer_update_bid_time. rewrite Hint. simpl.
  rewrite He. reflexivity.
Qed.

Lemma handleSubmit_number_out_of_range (tid : uuid) (env : Env) (v : Z)
    (s : BidTimerConfigModal.State) (w : World) :
  parseInt (BidTimerConfigModal.bidTime s) = Some v -> ~ 5 <= v <= 120 ->
  run (BidTimerConfigModal.handleSubmit tid) env s w
  = (s, {| db := db w;
           toasts := toasts w ++
             [validation_error
                "Bid time must be between 5 and 120 seconds."];
           navigations := navigations w;
           requests := requests w |}).
Proof.
  intros Hp Hv.
  unfold run, BidTimerConfigModal.handleSubmit, bind, get.
  rewrite Hp. simpl.
  destruct (v <? 5) eqn:E5; [reflexivity|].
  apply Z.ltb_ge in E5.
  assert (E120 : (120 <? v) = true) by (apply Z.ltb_lt; lia).
  rewrite E120. reflexivity.
Qed.

(** Rows of a relation with distinct keys: an update keyed by the key of
    a row, with a function that leaves that row's column as it is, leaves
    the column as it is everywhere. *)
Lemma update_by_key_keeps_column {A B : Type} (key : A -> jsstring)
    (col : A -> B) (q : A -> bool) (f : A -> A) (r : A) (l : list A) :
  distinct (map key l) = true -> In r l ->
  col (f r) = col r ->
  map col (update_where (fun x => jseqb (key x) (key r) && q x) f l)
  = map col l.
Proof.
  intros D Hin Hc.
  assert (G : forall l', (forall x, In x l' -> In x l) ->
              map col (update_where
                         (fun x => jseqb (key x) (key r) && q x) f l')
              = map col l').
  { induction l' as [|x l' IH]; simpl; [reflexivity|]. intros Hsub.
    rewrite IH by (intros; apply Hsub; right; assumption). f_equal.
    destruct (jseqb (key x) (key r)) eqn:E; simpl; [|reflexivity].
    destruct (q x); [|reflexivity].
    apply jseqb_eq in E.
    assert (x = r)
      by (apply (distinct_key_inj key l); auto; apply Hsub; left; auto).
    subst x. exact Hc. }
  apply G. auto.
Qed.

(** X2. Opening the dialog on a stored timer and saving without touching
    the field: when the stored bid time lies between 5 and 120 the form
    sends it back in an update keyed by the row, and the bid times in the
    store are what they were; when it lies outside, the submission is
    rejected by the validation and the store is untouched. *)
Theorem save_as_loaded_sends_the_stored_bid_time :
  forall (tournamentId : uuid) (env : Env) (r : AuctionTimer.row)
         (s : BidTimerConfigModal.State) (w : World),
    constraints_hold (db w) = true ->
    Spec.timer_rows (db w) tournamentId = [r] ->
    let after :=
      snd (run (BidTimerRounds.save_as_loaded tournamentId) env s w) in
    (5 <= AuctionTimer.bid_time r <= 120 ->
     requests after
     = requests w ++
       [AuctionTimerSelectMaybeSingle tournamentId;
        AuctionTimerUpdateBidTime (AuctionTimer.id r)
          (AuctionTimer.bid_time r)]
     /\ toasts after = toasts w ++ [BidTimerConfigModal.saved]
     /\ map AuctionTimer.bid_time (auction_timer (db after))
        = map AuctionTimer.bid_time (auction_timer (db w)))
    /\ (~ 5 <= AuctionTimer.bid_time r <= 120 ->
        after
        = {| db := db w;
             toasts := toasts w ++
               [validation_error
                  "Bid time must be between 5 and 120 seconds."];
             navigations := navigations w;
             requests := requests w ++
                         [AuctionTimerSelectMaybeSingle tournamentId] |}).
Proof.
  intros tid env r s w C Hrows after.
  destruct (constraints_timer _ C) as (Dids & Tids & _).
  assert (Hin : In r (auction_timer (db w))).
  { assert (X : In r (Spec.timer_rows (db w) tid))
      by (rewrite Hrows; left; reflexivity).
    apply filter_In in X as [X _]. exact X. }
  assert (Ht : truthy (AuctionTimer.id r) = true).
  { rewrite forallb_forall in Tids. apply Tids, in_map, Hin. }
  assert (E : after
              = snd (run (BidTimerConfigModal.handleSubmit tid) env
                       (fst (run (BidTimerRounds.open_dialog tid) env s w))
                       (snd (run (BidTimerRounds.open_dialog tid) env s w)))).
  { subst after. rewrite (open_dialog_existing tid env s w r Hrows).
    unfold BidTimerRounds.save_as_loaded, run.
    unfold bind at 1. unfold BidTimerConfigModal.onOpenChange at 1.
    unfold set at 1. unfold bind at 1.
    rewrite (useEffect_existing tid env _ w r Hrows) by reflexivity.
    unfold bind at 1. unfold get at 1. reflexivity. }
  rewrite (open_dialog_existing tid env s w r Hrows) in E. simpl in E.
  split.
  - intros Hv.
    rewrite (handleSubmit_update tid env (AuctionTimer.bid_time r)
               (AuctionTimer.id r)) in E;
      [| apply parseInt_toString | exact Hv | reflexivity | exact Ht].
    simpl in E. rewrite E. simpl.
    split; [rewrite <- app_assoc; reflexivity|]. split; [reflexivity|].
    destruct (in_range_tests _ Hv) as (_ & _ & Hint).
    unfold auction_timer_update_bid_time. rewrite Hint. simpl.
    apply (update_by_key_keeps_column AuctionTimer.id AuctionTimer.bid_time);
      [exact Dids | exact Hin | reflexivity].
  - intros Hv.
    rewrite (handleSubmit_number_out_of_range tid env
               (AuctionTimer.bid_time r)) in E;
      [| apply parseInt_toString | exact Hv].
    exact E.
Qed.

Lemma save_as_loaded_sends_the_stored_bid_time_witness :
  requests
    (snd (run (BidTimerRounds.save_as_loaded (js "t-cup")) Sample.by_organizer
              BidTimerConfigModal.initial
              (world_of SampleMore.store_with_timer)))
  = [AuctionTimerSelectMaybeSingle (js "t-cup");
     AuctionTimerUpdateBidTime (js "tm-1") 45].
Proof.
  destruct (save_as_loaded_sends_the_stored_bid_time (js "t-cup")
              Sample.by_organizer SampleMore.timer BidTimerConfigModal.initial
              (world_of SampleMore.store_with_timer) eq_refl eq_refl)
    as [H _].
  destruct (H ltac:(simpl; lia)) as [H1 _]. exact H1.
Defined.

(** After a round of configuration by the organizer the tournament has
    one timer row, and it holds the bid time that was submitted. *)
Lemma configure_leaves_one_row (tid : uuid) (env : Env) (t : Tournament.row)
    (text : jsstring) (v : Z) (s : BidTimerConfigModal.State) (w : World) :
  constraints_hold (db w) = true ->
  In t (tournaments (db w)) -> Tournament.id t = tid ->
  option_map Auth.id (user env) = Some (Tournament.organizer_id t) ->
  truthy (next_uuid env) = true ->
  existsb (jseqb (next_uuid env))
          (map AuctionTimer.id (auction_timer (db w))) = false ->
  parseInt text = Some v -> 5 <= v <= 120 ->
  exists r,
    Spec.timer_rows
      (db (snd (run (BidTimerConfigModal.configure tid text) env s w))) tid
    = [r]
    /\ AuctionTimer.bid_time r = v
    /\ truthy (AuctionTimer.id r) = true.
Proof.
  intros C Hin Hid Hu Htruthy Hfresh Hp Hv.
  destruct (constraints_timer _ C) as (Dids & Tids & Dtids).
  assert (Hpol : organizer_policy (db w) (session env) tid = true)
    by (rewrite <- Hid; apply organizer_passes_policy; assumption).
  destruct (filter_key_at_most_one AuctionTimer.tournament_id tid _ Dtids)
    as [Hnone | [r0 [Hr0 Hone]]].
  - rewrite (configure_absent tid env text v s w Hnone Hpol Hfresh Hp Hv).
    eexists. split.
    { unfold Spec.timer_rows. simpl.
      change (fun r => jseqb (AuctionTimer.tournament_id r) tid)
        with (keyed AuctionTimer.tournament_id tid).
      rewrite filter_app, Hnone. simpl. unfold keyed. simpl.
      rewrite jseqb_refl. reflexivity. }
    split; [reflexivity | exact Htruthy].
  - assert (Hr0id : truthy (AuctionTimer.id r0) = true).
    { rewrite forallb_forall in Tids. apply Tids, in_map, Hr0. }
    assert (Htid0 : AuctionTimer.tournament_id r0 = tid).
    { assert (X : In r0 (filter (keyed AuctionTimer.tournament_id tid)
                           (auction_timer (db w))))
        by (rewrite Hone; left; reflexivity).
      apply filter_In in X as [_ X]. apply jseqb_eq in X. exact X. }
    rewrite (configure_existing tid env text v r0 s w Hone Hr0id Hp Hv).
    eexists. split.
    { unfold Spec.timer_rows. simpl.
      change (fun r => jseqb (AuctionTimer.tournament_id r) tid)
        with (keyed AuctionTimer.tournament_id tid).
      rewrite filter_update_where by reflexivity.
      rewrite Hone. simpl. rewrite jseqb_refl, Htid0, Hpol. reflexivity. }
    split; [reflexivity | exact Hr0id].
Qed.

(** X3. What the organizer saves is what the dialog shows next time, to
    whoever opens it: after a round of configuration with a bid time
    between 5 and 120, opening the dialog again puts that number in the
    field, remembers the id of the one timer row of the tournament, and
    only reads the store. *)
Theorem saved_bid_time_is_shown_on_reopening :
  forall (tournamentId : uuid) (env env' : Env) (t : Tournament.row)
         (text : jsstring) (v : Z) (s : BidTimerConfigModal.State)
         (w : World),
    constraints_hold (db w) = true ->
    In t (tournaments (db w)) -> Tournament.id t = tournamentId ->
    option_map Auth.id (user env) = Some (Tournament.organizer_id t) ->
    truthy (next_uuid env) = true ->
    existsb (jseqb (next_uuid env))
            (map AuctionTimer.id (auction_timer (db w))) = false ->
    parseInt text = Some v -> 5 <= v <= 120 ->
    let saved := run (BidTimerConfigModal.configure tournamentId text)
                     env s w in
    let reopened := run (BidTimerRounds.open_dialog tournamentId) env'
                        (fst saved) (snd saved) in
    BidTimerConfigModal.bidTime (fst reopened) = toString v
    /\ parseInt (BidTimerConfigModal.bidTime (fst reopened)) = Some v
    /\ (exists r,
          Spec.timer_rows (db (snd saved)) tournamentId = [r]
          /\ AuctionTimer.bid_time r = v
          /\ BidTimerConfigModal.existingId (fst reopened)
             = Some (AuctionTimer.id r))
    /\ db (snd reopened) = db (snd saved).
Proof.
  intros tid env env' t text v s w C Hin Hid Hu Htr Hfresh Hp Hv
         saved reopened.
  destruct (configure_leaves_one_row tid env t text v s w C Hin Hid Hu Htr
              Hfresh Hp Hv) as (r & Hrows & Hbid & _).
  fold saved in Hrows.
  assert (E : reopened = _)
    by (apply (open_dialog_existing tid env' (fst saved) (snd saved) r Hrows)).
  rewrite E. simpl. rewrite Hbid.
  split; [reflexivity|]. split; [apply parseInt_toString|].
  split; [|reflexivity].
  exists r. auto.
Qed.

Lemma saved_bid_time_is_shown_on_reopening_witness :
  let saved := run (BidTimerConfigModal.configure (js "t-cup") (js "15"))
                   Sample.by_organizer BidTimerConfigModal.initial
                   (world_of Sample.store) in
  BidTimerConfigModal.bidTime
    (fst (run (BidTimerRounds.open_dialog (js "t-cup")) Sample.by_visitor
              (fst saved) (snd saved)))
  = js "15".
Proof.
  intros saved.
  destruct (saved_bid_time_is_shown_on_reopening (js "t-cup")
              Sample.by_organizer Sample.by_visitor Sample.cup (js "15") 15
              BidTimerConfigModal.initial (world_of Sample.store)
              eq_refl (or_introl eq_refl) eq_refl eq_refl eq_refl eq_refl
              eq_refl ltac:(lia)) as [H _].
  exact H.
Defined.

(* ===================================================================== *)
(** ** Bid timer: what a submission can and cannot do *)
(* ===================================================================== *)

Lemma forallb_update_where {A : Type} (ok p : A -> bool) (f : A -> A)
    (l : list A) :
  forallb ok l = true -> (forall x, ok (f x) = true) ->
  forallb ok (update_where p f l) = true.
Proof.
  intros H Hf. induction l as [|x l IH]; simpl in *; [reflexivity|].
  apply andb_true_iff in H as [H1 H2].
  rewrite (IH H2). destruct (p x); [rewrite Hf | rewrite H1]; reflexivity.
Qed.

(** X4. Whatever is typed and whoever submits, the bid-timer form keeps
    the stored bid times between 5 and 120 seconds: a store whose bid
    times are in that range is left in that range, and every statement
    the form sends carries a bid time in that range. *)
Theorem handleSubmit_keeps_bid_times_in_range :
  forall (tournamentId : uuid) (env : Env) (s : BidTimerConfigModal.State)
         (w : World),
    bid_times_in_range (db w) = true ->
    let after :=
      snd (run (BidTimerConfigModal.handleSubmit tournamentId) env s w) in
    bid_times_in_range (db after) = true
    /\ (requests after = requests w
        \/ exists v, 5 <= v <= 120
             /\ (requests after
                 = requests w ++ [AuctionTimerInsert tournamentId v]
                 \/ exists id,
                      requests after
                      = requests w ++ [AuctionTimerUpdateBidTime id v])).
Proof.
  intros tid env s w R after. subst after.
  unfold run, BidTimerConfigModal.handleSubmit, bind, get.
  destruct (parseInt (BidTimerConfigModal.bidTime s)) as [v|] eqn:Ep;
    simpl; [|split; [exact R | left; reflexivity]].
  destruct (v <? 5) eqn:E5; simpl; [split; [exact R | left; reflexivity]|].
  destruct (120 <? v) eqn:E120; simpl;
    [split; [exact R | left; reflexivity]|].
  apply Z.ltb_ge in E5, E120.
  assert (Hv : 5 <= v <= 120) by lia.
  destruct (in_range_tests v Hv) as (_ & _ & Hint).
  unfold finally, try_catch, bind, supabase, BidTimerConfigModal.setSaving,
    set; simpl.
  destruct (truthy_opt (BidTimerConfigModal.existingId s)); simpl.
  - unfold auction_timer_update_bid_time. rewrite Hint. simpl. split.
    + unfold bid_times_in_range. simpl.
      apply forallb_update_where; [exact R|].
      intros x. simpl. apply andb_true_iff. rewrite !Z.leb_le. lia.
    + right. exists v. split; [exact Hv|]. right. eexists. reflexivity.
  - unfold auction_timer_insert. rewrite Hint. simpl.
    destruct (organizer_policy (db w) (session env) tid); simpl;
      [|split; [exact R | right; exists v; split; [exact Hv|left; reflexivity]]].
    destruct (existsb _ (auction_timer (db w))); simpl;
      [split; [exact R | right; exists v; split; [exact Hv|left; reflexivity]]|].
    split.
    + unfold bid_times_in_range in *. simpl. rewrite forallb_app, R. simpl.
      rewrite andb_true_r. apply andb_true_iff. rewrite !Z.leb_le. lia.
    + right. exists v. split; [exact Hv|]. left. reflexivity.
Qed.

Lemma handleSubmit_keeps_bid_times_in_range_witness :
  bid_times_in_range
    (db (snd (run (BidTimerConfigModal.handleSubmit (js "t-cup"))
                  Sample.by_organizer
                  {| BidTimerConfigModal.open := true;
                     BidTimerConfigModal.bidTime := js "7.9";
                     BidTimerConfigModal.loading := false;
                     BidTimerConfigModal.saving := false;
                     BidTimerConfigModal.existingId := Some (js "tm-1") |}
                  (world_of SampleMore.store_with_timer)))) = true.
Proof.
  apply (handleSubmit_keeps_bid_times_in_range (js "t-cup")
           Sample.by_organizer).
  reflexivity.
Defined.

(** X5. The bid-timer form cannot touch the timer of a tournament the
    caller does not organize: whatever the state of the modal and the
    tournament it was opened for, the timer rows of every tournament that
    the organizer policy denies to the caller are after the submission
    what they were before. *)
Theorem handleSubmit_leaves_other_organizers_timers :
  forall (tournamentId other : uuid) (env : Env)
         (s : BidTimerConfigModal.State) (w : World),
    organizer_policy (db w) (session env) other = false ->
    Spec.timer_rows
      (db (snd (run (BidTimerConfigModal.handleSubmit tournamentId)
                    env s w))) other
    = Spec.timer_rows (db w) other.
Proof.
  intros tid other env s w Hpol.
  unfold run, BidTimerConfigModal.handleSubmit, bind, get.
  destruct (isNaN _ || lt _ 5 || gt _ 120); simpl; [reflexivity|].
  unfold finally, try_catch, bind, supabase, BidTimerConfigModal.setSaving,
    set; simpl.
  destruct (truthy_opt (BidTimerConfigModal.existingId s)); simpl.
  - unfold auction_timer_update_bid_time.
    destruct (int4 _); simpl; [|reflexivity].
    unfold Spec.timer_rows. simpl.
    change (fun r => jseqb (AuctionTimer.tournament_id r) other)
      with (keyed AuctionTimer.tournament_id other).
    rewrite filter_update_where by reflexivity.
    apply update_where_nowhere.
    intros x Hx. apply filter_In in Hx as [_ Hx]. apply jseqb_eq in Hx.
    rewrite Hx, Hpol. apply andb_false_r.
  - unfold auction_timer_insert.
    destruct (negb (int4 _)); simpl; [reflexivity|].
    destruct (organizer_policy (db w) (session env) tid) eqn:Ep; simpl;
      [|reflexivity].
    destruct (existsb _ (auction_timer (db w))); simpl; [reflexivity|].
    unfold Spec.timer_rows. simpl. rewrite filter_app. simpl.
    destruct (jseqb tid other) eqn:E; [|apply app_nil_r].
    apply jseqb_eq in E. congruence.
Qed.

Lemma handleSubmit_leaves_other_organizers_timers_witness :
  Spec.timer_rows
    (db (snd (run (BidTimerConfigModal.handleSubmit (js "t-cup"))
                  Sample.by_visitor
                  {| BidTimerConfigModal.open := true;
                     BidTimerConfigModal.bidTime := js "30";
                     BidTimerConfigModal.loading := false;
                     BidTimerConfigModal.saving := false;
                     BidTimerConfigModal.existingId := Some (js "tm-1") |}
                  (world_of SampleMore.store_with_timer)))) (js "t-cup")
  = [SampleMore.timer].
Proof.
  rewrite (handleSubmit_leaves_other_organizers_timers (js "t-cup")
             (js "t-cup") Sample.by_visitor);
    reflexivity.
Defined.

(** X6. A submission by a user who organizes no tournament, with a bid
    time between 5 and 120. When the modal remembers no row, the insert
    is refused by the row-level policy: the store's message, which names
    the relation [auction_timer], is shown, the modal stays as it is and
    no row is added. When it remembers a row, the
    update reaches no row and raises no error: the store is unchanged,
    yet the modal reports success and closes. *)
Theorem handleSubmit_by_a_stranger :
  forall (tournamentId : uuid) (env : Env) (v : Z)
         (s : BidTimerConfigModal.State) (w : World),
    (forall t, organizer_policy (db w) (session env) t = false) ->
    parseInt (BidTimerConfigModal.bidTime s) = Some v -> 5 <= v <= 120 ->
    let after := run (BidTimerConfigModal.handleSubmit tournamentId)
                     env s w in
    db (snd after) = db w
    /\ BidTimerConfigModal.saving (fst after) = false
    /\ (truthy_opt (BidTimerConfigModal.existingId s) = false ->
        toasts (snd after)
        = toasts w ++
          [ {| title := js "Error";
               description :=
                 js "new row violates row-level security policy for table "
                 ++ quoted "auction_timer";
               variant := Destructive |} ]
        /\ BidTimerConfigModal.open (fst after) = BidTimerConfigModal.open s)
    /\ (truthy_opt (BidTimerConfigModal.existingId s) = true ->
        toasts (snd after) = toasts w ++ [BidTimerConfigModal.saved]
        /\ BidTimerConfigModal.open (fst after) = false).
Proof.
  intros tid env v s w Hpol Hp Hv after. subst after.
  destruct (in_range_tests v Hv) as (H5 & H120 & Hint).
  unfold run, BidTimerConfigModal.handleSubmit, finally, try_catch, bind,
    supabase, get, set, BidTimerConfigModal.onOpenChange,
    BidTimerConfigModal.setSaving.
  rewrite Hp. simpl. rewrite H5, H120. simpl.
  destruct (truthy_opt (BidTimerConfigModal.existingId s)); simpl.
  - unfold auction_timer_update_bid_time. rewrite Hint. simpl.
    rewrite update_where_nowhere
      by (intros x _; rewrite Hpol; apply andb_false_r).
    split; [destruct (db w); reflexivity|]. split; [reflexivity|].
    split; [discriminate | intros _; split; reflexivity].
  - unfold auction_timer_insert. rewrite Hint, Hpol. simpl.
    split; [reflexivity|]. split; [reflexivity|].
    split; [intros _; split; reflexivity | discriminate].
Qed.

Lemma handleSubmit_by_a_stranger_witness :
  let form (existing : option uuid) : BidTimerConfigModal.State :=
    {| BidTimerConfigModal.open := true;
       BidTimerConfigModal.bidTime := js "30";
       BidTimerConfigModal.loading := false;
       BidTimerConfigModal.saving := false;
       BidTimerConfigModal.existingId := existing |} in
  let updated :=
    run (BidTimerConfigModal.handleSubmit (js "t-cup")) Sample.by_visitor
        (form (Some (js "tm-1"))) (world_of SampleMore.store_with_timer) in
  let inserted :=
    run (BidTimerConfigModal.handleSubmit (js "t-cup")) Sample.by_visitor
        (form None) (world_of Sample.store) in
  (db (snd updated) = SampleMore.store_with_timer
   /\ toasts (snd updated) = [BidTimerConfigModal.saved])
  /\ (db (snd inserted) = Sample.store
      /\ map description (toasts (snd inserted))
         = [js "new row violates row-level security policy for table "
            ++ [34%N] ++ js "auction_timer" ++ [34%N]]
      /\ BidTimerConfigModal.open (fst inserted) = true).
Proof.
  intros form updated inserted.
  assert (P : forall d t,
             tournaments d = tournaments Sample.store ->
             organizer_policy d (session Sample.by_visitor) t = false).
  { intros d t E. unfold organizer_policy. rewrite E. simpl.
    rewrite andb_false_r. reflexivity. }
  split.
  - destruct (handleSubmit_by_a_stranger (js "t-cup") Sample.by_visitor 30
                (form (Some (js "tm-1")))
                (world_of SampleMore.store_with_timer)
                (fun t => P _ t eq_refl) eq_refl ltac:(lia))
      as (H1 & _ & _ & H4).
    split; [exact H1|]. destruct (H4 eq_refl) as [H _]. exact H.
  - destruct (handleSubmit_by_a_stranger (js "t-cup") Sample.by_visitor 30
                (form None) (world_of Sample.store)
                (fun t => P _ t eq_refl) eq_refl ltac:(lia))
      as (H1 & _ & H3 & _).
    split; [exact H1|]. destruct (H3 eq_refl) as [H H'].
    split; [|exact H'].
    apply (f_equal (map description)) in H. exact H.
Defined.

(* ===================================================================== *)
(** ** Voting flag: a parent that does not refresh *)
(* ===================================================================== *)

Lemma update_where_again {A : Type} (p : A -> bool) (f : A -> A)
    (l : list A) :
  (forall x, p (f x) = p x) -> (forall x, f (f x) = f x) ->
  update_where p f (update_where p f l) = update_where p f l.
Proof.
  intros Hp Hf. induction l as [|x l IH]; simpl; [reflexivity|].
  rewrite IH. f_equal.
  destruct (p x) eqn:E; [rewrite Hp, E, Hf | rewrite E]; reflexivity.
Qed.

(** X7. The menu negates the flag it was given, not the flag in the
    store: toggling twice with the same [isVotingLive] prop (the parent
    has not read the tournament again) stores the same value twice and
    shows the same notification twice; the second toggle changes nothing
    in the store. *)
Theorem toggling_with_a_stale_flag_repeats_itself :
  forall (tournamentId : uuid) (env : Env) (isVotingLive : bool)
         (s : TournamentActionMenu.State) (w : World),
    let once :=
      run (TournamentActionMenu.handleToggleVoting tournamentId isVotingLive)
          env s w in
    let again :=
      run (TournamentActionMenu.handleToggleVoting tournamentId isVotingLive)
          env (fst once) (snd once) in
    db (snd again) = db (snd once)
    /\ requests (snd again)
       = requests w ++
         [TournamentsUpdateIsVotingLive tournamentId (negb isVotingLive);
          TournamentsUpdateIsVotingLive tournamentId (negb isVotingLive)]
    /\ map title (toasts (snd again))
       = map title (toasts w)
         ++ (if isVotingLive
             then [js "Voting Stopped"; js "Voting Stopped"]
             else [js "Voting Started"; js "Voting Started"]).
Proof.
  intros tid env b s w once again. subst again once.
  unfold run, TournamentActionMenu.handleToggleVoting, finally, try_catch,
    bind, supabase, set, TournamentActionMenu.setIsTogglingVoting,
    TournamentActionMenu.onVotingToggle,
    tournaments_update_is_voting_live; simpl.
  split; [|split].
  - rewrite update_where_again; [reflexivity | reflexivity |].
    intros x; destruct x; reflexivity.
  - rewrite <- app_assoc. reflexivity.
  - rewrite !map_app. simpl. rewrite <- app_assoc.
    destruct b; reflexivity.
Qed.

(* ===================================================================== *)
(** ** Team pages: loading *)
(* ===================================================================== *)

(** The team-management page once the tournament is found and the user
    is not turned away. *)
Lemma fetchTournamentAndTeams_loads (tid : uuid) (env : Env)
    (t : Tournament.row) (s : CreateTeams.State) (w : World) :
  tournaments_select_single (db w) tid = Data t ->
  CreateTeams.not_the_organizer (user env) t = false ->
  run (CreateTeams.fetchTournamentAndTeams tid) env s w
  = ({| CreateTeams.tournament := Some t;
        CreateTeams.teams :=
          order_by (fun a b => Team.created_at a <=? Team.created_at b)
            (filter (fun r => jseqb (Team.tournament_id r) tid)
                    (teams (db w)));
        CreateTeams.loading := false;
        CreateTeams.creating := CreateTeams.creating s;
        CreateTeams.teamName := CreateTeams.teamName s;
        CreateTeams.teamBudget := toString (Tournament.team_budget t);
        CreateTeams.selectedCaptain := CreateTeams.selectedCaptain s |},
     {| db := db w; toasts := toasts w; navigations := navigations w;
        requests := requests w ++
                    [TournamentsSelectSingle tid; TeamsSelect tid] |}).
Proof.
  intros Ht Hno.
  unfold run, CreateTeams.fetchTournamentAndTeams, finally, try_catch,
    bind, supabase, CreateTeams.setLoading, CreateTeams.setTournament,
    CreateTeams.setTeamBudget, CreateTeams.setTeams, set, ask; simpl.
  rewrite Ht; simpl. rewrite Hno; simpl.
  rewrite <- app_assoc. reflexivity.
Qed.

Lemma order_by_length {A : Type} (leb : A -> A -> bool) (l : list A) :
  List.length (order_by leb l) = List.length l.
Proof. symmetry. apply Permutation_length, order_by_perm. Qed.

(** X8. The menu and the team-management page agree. Given the numbers
    of the store ([numTeams] the tournament's [number_of_teams],
    [currentTeamsCount] the number of its team rows), the menu item reads
    "Create Teams" and leads to the creation page exactly when that page,
    loaded by the organizer, shows the creation form; otherwise it reads
    "View Teams", leads to the listing, and the creation page would show
    the completion banner. *)
Theorem menu_item_agrees_with_the_creation_page :
  forall (tournamentId : uuid) (env : Env) (t : Tournament.row)
         (s : CreateTeams.State) (w : World),
    tournaments_select_single (db w) tournamentId = Data t ->
    CreateTeams.not_the_organizer (user env) t = false ->
    let page :=
      fst (run (CreateTeams.fetchTournamentAndTeams tournamentId) env s w) in
    let numTeams := Tournament.number_of_teams t in
    let currentTeamsCount :=
      Z.of_nat (List.length
                  (filter (fun r => jseqb (Team.tournament_id r) tournamentId)
                          (teams (db w)))) in
    (CreateTeams.render page = CreateTeams.Page true None
     /\ TournamentActionMenuItems.teamsLabel numTeams currentTeamsCount
        = js "Create Teams"
     /\ TournamentActionMenuItems.teamsLink tournamentId numTeams
          currentTeamsCount
        = TournamentActionMenuItems.createTeamsRoute tournamentId)
    \/ (CreateTeams.render page
        = CreateTeams.Page false
            (Some (js "All " ++ toString numTeams
                   ++ js " teams have been created!"))
        /\ TournamentActionMenuItems.teamsLabel numTeams currentTeamsCount
           = js "View Teams"
        /\ TournamentActionMenuItems.teamsLink tournamentId numTeams
             currentTeamsCount
           = TournamentActionMenuItems.viewTeamsRoute tournamentId).
Proof.
  intros tid env t s w Ht Hno page numTeams count.
  subst page. rewrite (fetchTournamentAndTeams_loads tid env t s w Ht Hno).
  unfold CreateTeams.render, CreateTeams.canCreateMore,
    TournamentActionMenuItems.teamsLabel, TournamentActionMenuItems.teamsLink,
    TournamentActionMenu.hasAllTeams. simpl.
  rewrite order_by_length. fold count. fold numTeams.
  destruct (count <? numTeams) eqn:E.
  - left. apply Z.ltb_lt in E.
    assert (E' : (numTeams <=? count) = false) by (apply Z.leb_gt; lia).
    rewrite E'. repeat split.
  - right. apply Z.ltb_ge in E.
    assert (E' : (numTeams <=? count) = true) by (apply Z.leb_le; lia).
    rewrite E'. repeat split.
Qed.

Lemma menu_item_agrees_with_the_creation_page_witness :
  TournamentActionMenuItems.teamsLabel 8 0 = js "Create Teams"
  /\ CreateTeams.render (fst Sample.page_loaded) = CreateTeams.Page true None.
Proof.
  destruct (menu_item_agrees_with_the_creation_page (js "t-cup")
              Sample.by_organizer Sample.cup CreateTeams.initial
              (world_of Sample.store) eq_refl eq_refl)
    as [(H1 & H2 & _) | (H1 & _)].
  - split; [exact H2 | exact H1].
  - vm_compute in H1. discriminate H1.
Defined.

(** X9. The organizer check is made only when a user is present: for a
    visitor who is not signed in, the team-management page and the
    captain-management page (voting enabled) load the tournament and its
    rows, show no notification and do not navigate away. *)
Theorem management_pages_load_for_an_anonymous_visitor :
  forall (tournamentId : uuid) (env : Env) (t : Tournament.row) (w : World),
    user env = None ->
    tournaments_select_single (db w) tournamentId = Data t ->
    (forall s : CreateTeams.State,
        let after :=
          run (CreateTeams.fetchTournamentAndTeams tournamentId) env s w in
        CreateTeams.tournament (fst after) = Some t
        /\ Permutation
             (filter (fun r => jseqb (Team.tournament_id r) tournamentId)
                     (teams (db w)))
             (CreateTeams.teams (fst after))
        /\ toasts (snd after) = toasts w
        /\ navigations (snd after) = navigations w)
    /\ (Tournament.captain_voting_enabled t = true ->
        forall s : CreateCaptains.State,
          let after :=
            run (CreateCaptains.fetchData tournamentId) env s w in
          CreateCaptains.tournament (fst after) = Some t
          /\ Permutation
               (filter (captain_active_of tournamentId)
                       (tournament_captain (db w)))
               (CreateCaptains.captains (fst after))
          /\ toasts (snd after) = toasts w
          /\ navigations (snd after) = navigations w).
Proof.
  intros tid env t w Hu Ht.
  assert (Hno : CreateTeams.not_the_organizer (user env) t = false)
    by (rewrite Hu; reflexivity).
  split.
  - intros s after. subst after.
    rewrite (fetchTournamentAndTeams_loads tid env t s w Ht Hno). simpl.
    split; [reflexivity|]. split; [apply order_by_perm|].
    split; reflexivity.
  - intros Hen s after. subst after.
    unfold run, CreateCaptains.fetchData, CreateCaptains.fetchCaptains,
      finally, try_catch, bind, supabase, CreateCaptains.setLoading,
      CreateCaptains.setTournament, CreateCaptains.setCaptains, set, ask;
      simpl.
    rewrite Ht; simpl. rewrite Hno, Hen; simpl.
    split; [reflexivity|]. split; [apply order_by_perm|].
    split; reflexivity.
Qed.

Lemma management_pages_load_for_an_anonymous_visitor_witness :
  CreateTeams.tournament
    (fst (run (CreateTeams.fetchTournamentAndTeams (js "t-cup"))
              SampleMore.anonymous CreateTeams.initial
              (world_of Sample.store)))
  = Some Sample.cup.
Proof.
  destruct (management_pages_load_for_an_anonymous_visitor (js "t-cup")
              SampleMore.anonymous Sample.cup (world_of Sample.store)
              eq_refl eq_refl) as [H _].
  destruct (H CreateTeams.initial) as [H1 _]. exact H1.
Defined.



(** X11. The team listing is open to everybody and is the listing the
    organizer manages: for any user, signed in or not, [ViewTeams] shows
    the tournament and exactly its team rows, oldest first, with the
    counter "{count} / {number_of_teams} Teams"; it is the list the
    team-management page shows to a user it does not turn away. The store
    is only read. *)
Theorem ViewTeams_lists_the_teams_for_everybody :
  forall (tournamentId : uuid) (env env' : Env) (t : Tournament.row)
         (s : ViewTeams.State) (s' : CreateTeams.State) (w : World),
    tournaments_select_single (db w) tournamentId = Data t ->
    CreateTeams.not_the_organizer (user env') t = false ->
    let after := run (ViewTeams.fetchData tournamentId) env s w in
    let mine :=
      filter (fun r => jseqb (Team.tournament_id r) tournamentId)
             (teams (db w)) in
    ViewTeams.tournament (fst after) = Some t
    /\ Permutation mine (ViewTeams.teams (fst after))
    /\ StronglySorted (fun a b => Team.created_at a <= Team.created_at b)
         (ViewTeams.teams (fst after))
    /\ ViewTeams.teams (fst after)
       = CreateTeams.teams
           (fst (run (CreateTeams.fetchTournamentAndTeams tournamentId)
                     env' s' w))
    /\ ViewTeams.counter (fst after)
       = toString (Z.of_nat (List.length mine)) ++ js " / "
         ++ toString (Tournament.number_of_teams t) ++ js " Teams"
    /\ db (snd after) = db w
    /\ toasts (snd after) = toasts w.
Proof.
  intros tid env env' t s s' w Ht Hno after mine.
  assert (E : after
              = ({| ViewTeams.tournament := Some t;
                    ViewTeams.teams :=
                      order_by
                        (fun a b => Team.created_at a <=? Team.created_at b)
                        mine;
                    ViewTeams.loading := false |},
                 {| db := db w; toasts := toasts w;
                    navigations := navigations w;
                    requests := requests w ++
                      [TournamentsSelectSingle tid; TeamsSelect tid] |})).
  { subst after.
    unfold run, ViewTeams.fetchData, finally, try_catch, bind, supabase,
      ViewTeams.setLoading, ViewTeams.setTournament, ViewTeams.setTeams, set;
      simpl.
    rewrite Ht; simpl. rewrite <- app_assoc. reflexivity. }
  rewrite E. simpl.
  rewrite (fetchTournamentAndTeams_loads tid env' t s' w Ht Hno). simpl.
  split; [reflexivity|]. split; [apply order_by_perm|].
  split.
  { eapply StronglySorted_impl;
      [| apply (order_by_sorted
                  (fun a b => Team.created_at a <=? Team.created_at b))].
    - intros a b H. apply Z.leb_le. exact H.
    - intros a b. rewrite !Z.leb_le. lia.
    - intros a b c. rewrite !Z.leb_le. lia. }
  split; [reflexivity|]. split; [|split; reflexivity].
  unfold ViewTeams.counter. simpl. rewrite order_by_length. reflexivity.
Qed.

Lemma ViewTeams_lists_the_teams_for_everybody_witness :
  map Team.name
    (ViewTeams.teams
       (fst (run (ViewTeams.fetchData (js "t-cup")) Sample.by_visitor
                 ViewTeams.initial (snd Sample.eight_teams_later))))
  = map Team.name (CreateTeams.teams (fst Sample.eight_teams_later))
  /\ ViewTeams.counter
       (fst (run (ViewTeams.fetchData (js "t-cup")) Sample.by_visitor
                 ViewTeams.initial (snd Sample.eight_teams_later)))
     = js "8 / 8 Teams".
Proof.
  destruct (ViewTeams_lists_the_teams_for_everybody (js "t-cup")
              Sample.by_visitor Sample.by_organizer Sample.cup
              ViewTeams.initial CreateTeams.initial
              (snd Sample.eight_teams_later) eq_refl eq_refl)
    as (_ & _ & _ & H4 & H5 & _).
  split; [rewrite H4; vm_compute; reflexivity|].
  rewrite H5. vm_compute. reflexivity.
Defined.

(* ===================================================================== *)
(** ** [trim] *)
(* ===================================================================== *)

Lemma trimStart_head (s : jsstring) (c : N) (r : jsstring) :
  trimStart s = c :: r -> is_white_space c = false.
Proof.
  induction s as [|x s IH]; simpl; [discriminate|].
  destruct (is_white_space x) eqn:E; [exact IH|].
  intros H; inversion H; subst; exact E.
Qed.

Lemma trimStart_snoc (l : jsstring) (c : N) :
  is_white_space c = false -> trimStart (l ++ [c]) = trimStart l ++ [c].
Proof.
  intros Hc. induction l as [|x l IH]; simpl; [rewrite Hc; reflexivity|].
  destruct (is_white_space x); [exact IH | reflexivity].
Qed.

(** What [trim] returns neither begins nor ends with white space. *)
Lemma trim_trimmed (s : jsstring) : trimmed (trim s) = true.
Proof.
  unfold trim, trimEnd.
  destruct (trimStart s) as [|c r] eqn:E; [reflexivity|].
  pose proof (trimStart_head s c r E) as Hc.
  assert (R : rev (c :: r) = rev r ++ [c]) by reflexivity.
  rewrite R, (trimStart_snoc (rev r) c Hc), rev_app_distr.
  simpl app. unfold trimmed.
  assert (R' : rev (c :: rev (trimStart (rev r)))
               = trimStart (rev r) ++ [c])
    by (simpl; rewrite rev_involutive; reflexivity).
  rewrite R'. rewrite Hc. simpl.
  destruct (trimStart (rev r)) as [|d r'] eqn:E'; simpl.
  - rewrite Hc. reflexivity.
  - rewrite (trimStart_head _ _ _ E'). reflexivity.
Qed.

(* ===================================================================== *)
(** ** Team creation: an accepted submission *)
(* ===================================================================== *)

Lemma single_found (d : Db) (tid : uuid) (t : Tournament.row) :
  tournaments_select_single d tid = Data t ->
  In t (tournaments d) /\ Tournament.id t = tid.
Proof.
  unfold tournaments_select_single, single. intros H.
  destruct (filter _ (tournaments d)) as [|x [|y l]] eqn:E;
    try discriminate H.
  inversion H; subst x.
  assert (X : In t (filter (fun t0 => jseqb (Tournament.id t0) tid)
                      (tournaments d))) by (rewrite E; left; reflexivity).
  apply filter_In in X as [X1 X2]. apply jseqb_eq in X2. auto.
Qed.

Lemma organizer_is_not_turned_away (env : Env) (t : Tournament.row) :
  option_map Auth.id (user env) = Some (Tournament.organizer_id t) ->
  CreateTeams.not_the_organizer (user env) t = false.
Proof.
  unfold CreateTeams.not_the_organizer. destruct (user env) as [u|]; simpl;
    [|reflexivity].
  intros H; inversion H. rewrite jseqb_refl. reflexivity.
Qed.

(** The row an accepted submission inserts. *)
Lemma handleCreateTeam_accepted (tid : uuid) (env : Env) (t : Tournament.row)
    (budget : jsnum) (s : CreateTeams.State) (w : World) :
  tournaments_select_single (db w) tid = Data t ->
  option_map Auth.id (user env) = Some (Tournament.organizer_id t) ->
  existsb (fun r => jseqb (Team.id r) (next_uuid env)) (teams (db w))
  = false ->
  truthy (trim (CreateTeams.teamName s)) = true ->
  truthy (CreateTeams.teamBudget s) = true ->
  le_zero (parseFloat (CreateTeams.teamBudget s)) = false ->
  json_number (parseFloat (CreateTeams.teamBudget s)) = Some budget ->
  let row :=
    {| Team.id := next_uuid env;
       Team.tournament_id := tid;
       Team.name := trim (CreateTeams.teamName s);
       Team.logo_url := None;
       Team.captain_id :=
         match CreateTeams.selectedCaptain s with
         | Some p => if truthy (CreateTeams.user_id p)
                     then Some (CreateTeams.user_id p) else None
         | None => None
         end;
       Team.budget_remaining := budget;
       Team.owner_id := Some (Tournament.organizer_id t);
       Team.created_at := clock env |} in
  run (CreateTeams.handleCreateTeam tid) env s w
  = ({| CreateTeams.tournament := Some t;
        CreateTeams.teams :=
          order_by (fun a b => Team.created_at a <=? Team.created_at b)
            (filter (fun r => jseqb (Team.tournament_id r) tid)
                    (teams (db w) ++ [row]));
        CreateTeams.loading := false;
        CreateTeams.creating := false;
        CreateTeams.teamName := [];
        CreateTeams.teamBudget := toString (Tournament.team_budget t);
        CreateTeams.selectedCaptain := None |},
     {| db := with_teams (db w) (teams (db w) ++ [row]);
        toasts := toasts w ++
          [ {| title := js "Success";
               description :=
                 js "Team " ++ [34%N] ++ CreateTeams.teamName s ++ [34%N]
                 ++ js " created successfully.";
               variant := Default |} ];
        navigations := navigations w;
        requests := requests w ++
          [TeamsInsert tid (trim (CreateTeams.teamName s))
             (Team.captain_id row) (parseFloat (CreateTeams.teamBudget s))
             (Some (Tournament.organizer_id t));
           TournamentsSelectSingle tid; TeamsSelect tid] |}).
Proof.
  intros Ht Hu Hfresh Hn Hb Hl Hj row.
  destruct (single_found _ _ _ Ht) as [Hin Hid].
  assert (Hpol : organizer_policy (db w) (session env) tid = true)
    by (rewrite <- Hid; apply organizer_passes_policy; assumption).
  pose proof (organizer_is_not_turned_away env t Hu) as Hno.
  unfold run, CreateTeams.handleCreateTeam, bind, get, ask.
  rewrite Hn. simpl. rewrite Hb, Hl. simpl.
  unfold finally, try_catch, bind, supabase, CreateTeams.setCreating, set.
  simpl. unfold teams_insert. rewrite Hj, Hpol. simpl. rewrite Hfresh.
  simpl.
  unfold CreateTeams.fetchTournamentAndTeams, finally, try_catch, bind,
    supabase, CreateTeams.setLoading, set, ask; simpl.
  change (tournaments_select_single
            (with_teams (db w)
               (teams (db w) ++
                [ {| Team.id := next_uuid env;
                     Team.tournament_id := tid;
                     Team.name := trim (CreateTeams.teamName s);
                     Team.logo_url := None;
                     Team.captain_id :=
                       match CreateTeams.selectedCaptain s with
                       | Some p => if truthy (CreateTeams.user_id p)
                                   then Some (CreateTeams.user_id p)
                                   else None
                       | None => None
                       end;
                     Team.budget_remaining := budget;
                     Team.owner_id := option_map Auth.id (user env);
                     Team.created_at := clock env |} ])) tid)
    with (tournaments_select_single (db w) tid).
  rewrite Ht. simpl. rewrite Hno. simpl. rewrite Hu.
  rewrite <- !app_assoc. reflexivity.
Qed.

(** X12. An accepted team creation. When the organizer submits a name
    that is not blank and a budget that is a finite number above zero,
    exactly one row is appended to [teams]: it carries the trimmed name
    (not empty, no white space around it), the parsed budget, the user id
    of the selected captain if there is one, and the organizer as owner.
    The success notification names the team as typed, the form is reset
    (name cleared, captain cleared, budget back to the tournament's
    default) and the refreshed list shows the new team. The handler does
    not look at the number of teams already created. *)
Theorem accepted_team_is_inserted_and_the_form_reset :
  forall (tournamentId : uuid) (env : Env) (t : Tournament.row)
         (budget : jsnum) (s : CreateTeams.State) (w : World),
    tournaments_select_single (db w) tournamentId = Data t ->
    option_map Auth.id (user env) = Some (Tournament.organizer_id t) ->
    existsb (fun r => jseqb (Team.id r) (next_uuid env)) (teams (db w))
    = false ->
    truthy (trim (CreateTeams.teamName s)) = true ->
    truthy (CreateTeams.teamBudget s) = true ->
    le_zero (parseFloat (CreateTeams.teamBudget s)) = false ->
    json_number (parseFloat (CreateTeams.teamBudget s)) = Some budget ->
    let after := run (CreateTeams.handleCreateTeam tournamentId) env s w in
    let row :=
      {| Team.id := next_uuid env;
         Team.tournament_id := tournamentId;
         Team.name := trim (CreateTeams.teamName s);
         Team.logo_url := None;
         Team.captain_id :=
           match CreateTeams.selectedCaptain s with
           | Some p => if truthy (CreateTeams.user_id p)
                       then Some (CreateTeams.user_id p) else None
           | None => None
           end;
         Team.budget_remaining := budget;
         Team.owner_id := Some (Tournament.organizer_id t);
         Team.created_at := clock env |} in
    teams (db (snd after)) = teams (db w) ++ [row]
    /\ budget = parseFloat (CreateTeams.teamBudget s)
    /\ truthy (Team.name row) = true
    /\ trimmed (Team.name row) = true
    /\ toasts (snd after)
       = toasts w ++
         [ {| title := js "Success";
              description :=
                js "Team " ++ [34%N] ++ CreateTeams.teamName s ++ [34%N]
                ++ js " created successfully.";
              variant := Default |} ]
    /\ In row (CreateTeams.teams (fst after))
    /\ CreateTeams.teamName (fst after) = []
    /\ CreateTeams.selectedCaptain (fst after) = None
    /\ CreateTeams.teamBudget (fst after)
       = toString (Tournament.team_budget t)
    /\ CreateTeams.creating (fst after) = false
    /\ CreateTeams.loading (fst after) = false.
Proof.
  intros tid env t budget s w Ht Hu Hfresh Hn Hb Hl Hj after row.
  subst after.
  rewrite (handleCreateTeam_accepted tid env t budget s w Ht Hu Hfresh Hn Hb
             Hl Hj).
  simpl.
  assert (Hbudget : budget = parseFloat (CreateTeams.teamBudget s)).
  { destruct (parseFloat (CreateTeams.teamBudget s)) as [|neg|neg m e];
      simpl in Hj; try discriminate.
    destruct (overflows m e); [discriminate|]. inversion Hj; reflexivity. }
  split; [reflexivity|]. split; [exact Hbudget|]. split; [exact Hn|].
  split; [apply trim_trimmed|]. split; [reflexivity|].
  split; [|repeat split].
  apply order_by_In. apply filter_In. split.
  - apply in_or_app. right. left. reflexivity.
  - simpl. apply jseqb_refl.
Qed.

Lemma accepted_team_is_inserted_and_the_form_reset_witness :
  map Team.name
    (teams (db (snd (run (CreateTeams.handleCreateTeam (js "t-cup"))
                         Sample.by_organizer
                         (Sample.team_form "  Lions " "50000")
                         (world_of Sample.store)))))
  = [js "Lions"].
Proof.
  destruct (accepted_team_is_inserted_and_the_form_reset (js "t-cup")
              Sample.by_organizer Sample.cup (Decimal false 50000 0)
              (Sample.team_form "  Lions " "50000") (world_of Sample.store)
              eq_refl eq_refl eq_refl eq_refl eq_refl eq_refl eq_refl)
    as [H _].
  rewrite H. reflexivity.
Defined.

(* ===================================================================== *)
(** ** Team creation: the captain search *)
(* ===================================================================== *)

(** X13. The captain search. A mobile number that is empty or shorter
    than 10 characters is rejected with a validation notification and
    nothing is looked up. Otherwise [profiles] is asked once, and the
    results are exactly the registered players whose mobile is the text
    as typed (no trimming), in the order of the relation; "No Results" is
    shown exactly when there is none. The store is not written. *)
Theorem captain_search_finds_registered_players_by_exact_mobile :
  forall (profiles : list Profile) (env : Env)
         (st : CaptainSearch.PageState) (w : World),
    let typed := CaptainSearch.searchMobile (snd st) in
    let after := run (CaptainSearch.handleSearchCaptain profiles) env st w in
    let found :=
      filter (fun p => jseqb (mobile p) typed && is_player_registered p)
             profiles in
    db (snd after) = db w
    /\ fst (fst after) = fst st
    /\ if negb (truthy typed) || (jslength typed <? 10)
       then toasts (snd after)
            = toasts w ++
              [validation_error "Please enter a valid mobile number."]
            /\ snd (fst after) = snd st
       else CaptainSearch.lookups (snd (fst after))
            = CaptainSearch.lookups (snd st) ++ [typed]
            /\ map CreateTeams.user_id
                 (CaptainSearch.searchResults (snd (fst after)))
               = map user_id found
            /\ map CreateTeams.mobile
                 (CaptainSearch.searchResults (snd (fst after)))
               = map (fun _ => typed) found
            /\ CaptainSearch.searching (snd (fst after)) = false
            /\ toasts (snd after)
               = toasts w ++
                 match found with
                 | [] => [ {| title := js "No Results";
                              description :=
                                js "No registered player found with this mobile number.";
                              variant := Default |} ]
                 | _ :: _ => []
                 end.
Proof.
  intros profiles env [s q] w typed after found. subst after. simpl in typed.
  unfold run, CaptainSearch.handleSearchCaptain, bind, get. simpl.
  fold typed.
  destruct (negb (truthy typed) || (jslength typed <? 10)) eqn:E; simpl.
  - repeat split.
  - unfold finally, try_catch, bind, CaptainSearch.setSearching,
      CaptainSearch.look_up, CaptainSearch.setSearchResults,
      CaptainSearch.on_search, set, or_throw, profiles_select_registered,
      ret; simpl.
    fold found.
    assert (Hm : map CreateTeams.mobile
                   (map (fun p => {| CreateTeams.id := id p;
                                     CreateTeams.user_id := user_id p;
                                     CreateTeams.full_name := full_name p;
                                     CreateTeams.mobile := mobile p |}) found)
                 = map (fun _ => typed) found).
    { rewrite map_map. simpl. apply map_ext_in.
      intros p Hp. apply filter_In in Hp as [_ Hp].
      apply andb_true_iff in Hp as [Hp _]. apply jseqb_eq in Hp. exact Hp. }
    destruct found as [|p rest] eqn:Ef; simpl in *.
    + repeat split.
    + rewrite map_map. simpl. rewrite app_nil_r.
      repeat split; try reflexivity. exact Hm.
Qed.

(** X14. From the search to the team. A registered player found by
    mobile number and selected becomes the captain of the next team: the
    selection closes the dialog and clears the search, and an accepted
    creation stores the player's user id as [captain_id] and clears the
    selection. *)
Theorem selected_player_becomes_the_captain :
  forall (profiles : list Profile) (p : Profile) (tournamentId : uuid)
         (env : Env) (t : Tournament.row) (budget : jsnum)
         (st : CaptainSearch.PageState) (w : World),
    In p profiles -> is_player_registered p = true ->
    truthy (user_id p) = true ->
    CaptainSearch.searchMobile (snd st) = mobile p ->
    10 <= jslength (mobile p) ->
    tournaments_select_single (db w) tournamentId = Data t ->
    option_map Auth.id (user env) = Some (Tournament.organizer_id t) ->
    existsb (fun r => jseqb (Team.id r) (next_uuid env)) (teams (db w))
    = false ->
    truthy (trim (CreateTeams.teamName (fst st))) = true ->
    truthy (CreateTeams.teamBudget (fst st)) = true ->
    le_zero (parseFloat (CreateTeams.teamBudget (fst st))) = false ->
    json_number (parseFloat (CreateTeams.teamBudget (fst st)))
    = Some budget ->
    let player :=
      {| CreateTeams.id := id p; CreateTeams.user_id := user_id p;
         CreateTeams.full_name := full_name p;
         CreateTeams.mobile := mobile p |} in
    let searched :=
      run (CaptainSearch.handleSearchCaptain profiles) env st w in
    let selected :=
      run (CaptainSearch.handleSelectCaptain player) env
          (fst searched) (snd searched) in
    let created :=
      run (zoom (CreateTeams.handleCreateTeam tournamentId)) env
          (fst selected) (snd selected) in
    In player (CaptainSearch.searchResults (snd (fst searched)))
    /\ CaptainSearch.searchModalOpen (snd (fst selected)) = false
    /\ CaptainSearch.searchMobile (snd (fst selected)) = []
    /\ CaptainSearch.searchResults (snd (fst selected)) = []
    /\ CreateTeams.selectedCaptain (fst (fst selected)) = Some player
    /\ (exists row,
          teams (db (snd created)) = teams (db w) ++ [row]
          /\ Team.captain_id row = Some (user_id p)
          /\ Team.name row = trim (CreateTeams.teamName (fst st)))
    /\ CreateTeams.selectedCaptain (fst (fst created)) = None.
Proof.
  intros profiles p tid env t budget [s q] w Hin Hreg Hu Hm Hlen Ht Hu'
         Hfresh Hn Hb Hl Hj player searched selected created.
  simpl in Hm, Hn, Hb, Hl, Hj.
  assert (Hvalid : negb (truthy (mobile p)) || (jslength (mobile p) <? 10)
                   = false).
  { apply orb_false_iff. split.
    - apply negb_false_iff. unfold jslength in Hlen.
      destruct (mobile p); [simpl in Hlen; lia | reflexivity].
    - apply Z.ltb_ge. exact Hlen. }
  assert (Es : searched
               = (s, {| CaptainSearch.searchModalOpen :=
                          CaptainSearch.searchModalOpen q;
                        CaptainSearch.searchMobile := mobile p;
                        CaptainSearch.searchResults :=
                          map (fun p0 =>
                                 {| CreateTeams.id := id p0;
                                    CreateTeams.user_id := user_id p0;
                                    CreateTeams.full_name := full_name p0;
                                    CreateTeams.mobile := mobile p0 |})
                              (filter (fun p0 => jseqb (mobile p0) (mobile p)
                                                 && is_player_registered p0)
                                      profiles);
                        CaptainSearch.searching := false;
                        CaptainSearch.lookups :=
                          CaptainSearch.lookups q ++ [mobile p] |},
                  w)).
  { subst searched.
    unfold run, CaptainSearch.handleSearchCaptain, bind, get. simpl.
    rewrite Hm, Hvalid. simpl.
    unfold finally, try_catch, bind, CaptainSearch.setSearching,
      CaptainSearch.look_up, CaptainSearch.setSearchResults,
      CaptainSearch.on_search, set, or_throw, profiles_select_registered,
      ret; simpl.
    rewrite Hm.
    assert (Hp : In p (filter (fun p0 => jseqb (mobile p0) (mobile p)
                                         && is_player_registered p0)
                              profiles)).
    { apply filter_In. split; [exact Hin|].
      rewrite jseqb_refl, Hreg. reflexivity. }
    destruct (filter _ profiles) as [|x rest]; [destruct Hp|].
    simpl. destruct w; reflexivity. }
  assert (Hfound : In player
                     (CaptainSearch.searchResults (snd (fst searched)))).
  { rewrite Es. simpl.
    apply (in_map (fun p0 => {| CreateTeams.id := id p0;
                                CreateTeams.user_id := user_id p0;
                                CreateTeams.full_name := full_name p0;
                                CreateTeams.mobile := mobile p0 |})).
    apply filter_In. split; [exact Hin|].
    rewrite jseqb_refl, Hreg. reflexivity. }
  split; [exact Hfound|].
  set (s1 := {| CreateTeams.tournament := CreateTeams.tournament s;
                CreateTeams.teams := CreateTeams.teams s;
                CreateTeams.loading := CreateTeams.loading s;
                CreateTeams.creating := CreateTeams.creating s;
                CreateTeams.teamName := CreateTeams.teamName s;
                CreateTeams.teamBudget := CreateTeams.teamBudget s;
                CreateTeams.selectedCaptain := Some player |}).
  set (q1 := {| CaptainSearch.searchModalOpen := false;
                CaptainSearch.searchMobile := [];
                CaptainSearch.searchResults := [];
                CaptainSearch.searching := false;
                CaptainSearch.lookups :=
                  CaptainSearch.lookups q ++ [mobile p] |}).
  assert (Esel : selected = ((s1, q1), w))
    by (subst selected; rewrite Es; reflexivity).
  assert (Ecr : created
                = ((fst (run (CreateTeams.handleCreateTeam tid) env s1 w), q1),
                   snd (run (CreateTeams.handleCreateTeam tid) env s1 w))).
  { subst created. rewrite Esel. unfold run, zoom. cbn [fst snd].
    destruct (CreateTeams.handleCreateTeam tid env s1 w) as [[o s2] w2].
    reflexivity. }
  rewrite Ecr, Esel.
  rewrite (handleCreateTeam_accepted tid env t budget s1 w Ht Hu' Hfresh
             Hn Hb Hl Hj).
  cbn [fst snd CreateTeams.selectedCaptain CaptainSearch.searchModalOpen
       CaptainSearch.searchMobile CaptainSearch.searchResults db teams
       with_teams s1 q1].
  split; [reflexivity|]. split; [reflexivity|]. split; [reflexivity|].
  split; [reflexivity|]. split; [|reflexivity].
  eexists. split; [reflexivity|]. simpl. rewrite Hu. split; reflexivity.
Qed.

Lemma selected_player_becomes_the_captain_witness :
  let st := (Sample.team_form "Lions" "50000",
             {| CaptainSearch.searchModalOpen := true;
                CaptainSearch.searchMobile := js "9876543210";
                CaptainSearch.searchResults := [];
                CaptainSearch.searching := false;
                CaptainSearch.lookups := [] |}) in
  let player :=
    {| CreateTeams.id := js "p-asha"; CreateTeams.user_id := js "u-asha";
       CreateTeams.full_name := js "Asha Rao";
       CreateTeams.mobile := js "9876543210" |} in
  let searched :=
    run (CaptainSearch.handleSearchCaptain SampleMore.profiles)
        Sample.by_organizer st (world_of Sample.store) in
  let selected :=
    run (CaptainSearch.handleSelectCaptain player) Sample.by_organizer
        (fst searched) (snd searched) in
  let created :=
    run (zoom (CreateTeams.handleCreateTeam (js "t-cup")))
        Sample.by_organizer (fst selected) (snd selected) in
  CaptainSearch.searchResults (snd (fst searched)) = [player]
  /\ exists row,
       teams (db (snd created)) = [row]
       /\ Team.captain_id row = Some (js "u-asha")
       /\ Team.name row = js "Lions".
Proof.
  intros st player searched selected created.
  destruct (selected_player_becomes_the_captain SampleMore.profiles
              SampleMore.asha_profile (js "t-cup") Sample.by_organizer
              Sample.cup (Decimal false 50000 0) st (world_of Sample.store)
              (or_introl eq_refl) eq_refl eq_refl eq_refl
              ltac:(vm_compute; discriminate) eq_refl eq_refl eq_refl
              eq_refl eq_refl eq_refl eq_refl)
    as (_ & _ & _ & _ & _ & (row & H1 & H2 & H3) & _).
  split; [reflexivity|].
  exists row. split; [exact H1|]. split; [exact H2 | exact H3].
Defined.

(* ===================================================================== *)
(** ** Category configuration: the listing and the form *)
(* ===================================================================== *)


Lemma fetchConfigs_run (tid : uuid) (env : Env)
    (s : CategoryConfigModal.State) (w : World) :
  run (CategoryConfigModal.fetchConfigs tid) env s w
  = ({| CategoryConfigModal.configs :=
          order_by (fun a b => AuctionConfig.created_at a
                               <=? AuctionConfig.created_at b)
            (filter (fun r => jseqb (AuctionConfig.tournament_id r) tid
                              && is_true (AuctionConfig.is_active r))
                    (auction_config (db w)));
        CategoryConfigModal.loading := false;
        CategoryConfigModal.saving := CategoryConfigModal.saving s;
        CategoryConfigModal.editingId := CategoryConfigModal.editingId s;
        CategoryConfigModal.category := CategoryConfigModal.category s;
        CategoryConfigModal.maxPlayers := CategoryConfigModal.maxPlayers s;
        CategoryConfigModal.basePrice := CategoryConfigModal.basePrice s |},
     {| db := db w; toasts := toasts w; navigations := navigations w;
        requests := requests w ++ [AuctionConfigSelectActive tid] |}).
Proof. reflexivity. Qed.

(** X15. The category listing of the modal holds exactly the rows of
    [auction_config] of the tournament whose [is_active] is true, each
    once per row, oldest first; loading it changes nothing in the store,
    shows no notification and leaves the form fields (category, maximum
    of players, base price), the edit mode and the saving flag as they
    are. *)
Theorem fetchConfigs_lists_active_configs_oldest_first :
  forall (tournamentId : uuid) (env : Env) (s : CategoryConfigModal.State)
         (w : World),
    let after := run (CategoryConfigModal.fetchConfigs tournamentId)
                     env s w in
    let listing := CategoryConfigModal.configs (fst after) in
    (forall c, In c listing <->
               In c (auction_config (db w))
               /\ AuctionConfig.tournament_id c = tournamentId
               /\ AuctionConfig.is_active c = Some true)
    /\ Permutation
         (filter (fun r => jseqb (AuctionConfig.tournament_id r) tournamentId
                           && is_true (AuctionConfig.is_active r))
                 (auction_config (db w)))
         listing
    /\ StronglySorted
         (fun a b => AuctionConfig.created_at a <= AuctionConfig.created_at b)
         listing
    /\ db (snd after) = db w
    /\ CategoryConfigModal.category (fst after)
       = CategoryConfigModal.category s
    /\ CategoryConfigModal.editingId (fst after)
       = CategoryConfigModal.editingId s
    /\ CategoryConfigModal.maxPlayers (fst after)
       = CategoryConfigModal.maxPlayers s
    /\ CategoryConfigModal.basePrice (fst after)
       = CategoryConfigModal.basePrice s
    /\ CategoryConfigModal.saving (fst after)
       = CategoryConfigModal.saving s
    /\ CategoryConfigModal.loading (fst after) = false
    /\ toasts (snd after) = toasts w.
Proof.
  intros tid env s w after listing. subst listing after.
  rewrite fetchConfigs_run. simpl.
  split; [|split; [apply order_by_perm | split; [|repeat split]]].
  - intros c. rewrite order_by_In, filter_In, andb_true_iff, jseqb_eq.
    unfold is_true.
    destruct (AuctionConfig.is_active c) as [[|]|];
      split; intros [? [? ?]]; repeat split; congruence.
  - eapply StronglySorted_impl;
      [| apply (order_by_sorted
                  (fun a b => AuctionConfig.created_at a
                              <=? AuctionConfig.created_at b))].
    + intros a b H. apply Z.leb_le. exact H.
    + intros a b. rewrite !Z.leb_le. lia.
    + intros a b c. rewrite !Z.leb_le. lia.
Qed.

(** X16. A soft delete by a user who organizes no tournament reaches no
    row, and the store raises no error for that: nothing changes in the
    store, the reloaded listing still shows whatever was active, and the
    modal nevertheless reports "Category deleted." *)
Theorem handleDelete_by_a_stranger_changes_nothing :
  forall (tournamentId id : uuid) (env : Env)
         (s : CategoryConfigModal.State) (w : World),
    (forall t, organizer_policy (db w) (session env) t = false) ->
    let after := run (CategoryConfigModal.handleDelete tournamentId id)
                     env s w in
    db (snd after) = db w
    /\ toasts (snd after)
       = toasts w ++ [ {| title := js "Success";
                          description := js "Category deleted.";
                          variant := Default |} ]
    /\ CategoryConfigModal.configs (fst after)
       = CategoryConfigModal.configs
           (fst (run (CategoryConfigModal.fetchConfigs tournamentId)
                     env s w)).
Proof.
  intros tid id env s w Hpol after. subst after.
  unfold run, CategoryConfigModal.handleDelete, try_catch, bind, supabase,
    auction_config_update_is_active. simpl.
  rewrite update_where_nowhere
    by (intros x _; rewrite Hpol; apply andb_false_r).
  assert (Ed : with_auction_config (db w) (auction_config (db w)) = db w)
    by (destruct (db w); reflexivity).
  rewrite Ed.
  unfold CategoryConfigModal.fetchConfigs, finally, try_catch, bind, supabase,
    CategoryConfigModal.setLoading, CategoryConfigModal.setConfigs, set.
  simpl. repeat split.
Qed.

Lemma handleDelete_by_a_stranger_changes_nothing_witness :
  let after :=
    run (CategoryConfigModal.handleDelete (js "t-cup") (js "c-gold"))
        Sample.by_visitor CategoryConfigModal.initial
        (world_of Sample.store) in
  db (snd after) = Sample.store
  /\ CategoryConfigModal.configs (fst after) = [Sample.gold; Sample.silver].
Proof.
  intros after.
  destruct (handleDelete_by_a_stranger_changes_nothing (js "t-cup")
              (js "c-gold") Sample.by_visitor CategoryConfigModal.initial
              (world_of Sample.store)) as (H1 & _ & H3).
  - intros t. unfold organizer_policy. simpl.
    rewrite andb_false_r. reflexivity.
  - split; [exact H1|]. fold after in H3. rewrite H3. reflexivity.
Defined.

(** X17. The category form requires its three fields: when the
    category, the maximum of players or the base price is empty, the
    submission is rejected with "All fields are required.", no statement
    is sent, and neither the store nor the modal changes. *)
Theorem category_form_requires_all_fields :
  forall (tournamentId : uuid) (env : Env)
         (st : CategoryConfigForm.FormState) (w : World),
    truthy (CategoryConfigModal.category (fst st)) = false
    \/ truthy (CategoryConfigModal.maxPlayers (fst st)) = false
    \/ truthy (CategoryConfigModal.basePrice (fst st)) = false ->
    run (CategoryConfigForm.handleSubmit tournamentId) env st w
    = (st, {| db := db w;
              toasts := toasts w ++
                [validation_error "All fields are required."];
              navigations := navigations w;
              requests := requests w |}).
Proof.
  intros tid env st w H.
  unfold run, CategoryConfigForm.handleSubmit, bind, get.
  assert (E : negb (truthy (CategoryConfigModal.category (fst st)))
              || negb (truthy (CategoryConfigModal.maxPlayers (fst st)))
              || negb (truthy (CategoryConfigModal.basePrice (fst st)))
              = true).
  { destruct H as [-> | [-> | ->]]; simpl;
      rewrite ?orb_true_r; reflexivity. }
  rewrite E. reflexivity.
Qed.

Lemma category_form_requires_all_fields_witness :
  snd (run (CategoryConfigForm.handleSubmit (js "t-cup")) Sample.by_organizer
           (SampleMore.category_form "Gold" "" "5000" None, [])
           (world_of Sample.store))
  = {| db := Sample.store;
       toasts := [validation_error "All fields are required."];
       navigations := []; requests := [] |}.
Proof.
  rewrite (category_form_requires_all_fields (js "t-cup")
             Sample.by_organizer);
    [reflexivity | right; left; reflexivity].
Defined.

Lemma parsed_means_typed (text : jsstring) (n : Z) :
  parseInt text = Some n -> truthy text = true.
Proof. destruct text; [discriminate | reflexivity]. Qed.

Lemma json_number_means_typed (text : jsstring) (x : jsnum) :
  json_number (parseFloat text) = Some x ->
  truthy text = true /\ x = parseFloat text.
Proof.
  destruct text as [|c r]; [discriminate|]. intros H. split; [reflexivity|].
  destruct (parseFloat (c :: r)) as [|neg|neg m e]; simpl in H;
    try discriminate.
  destruct (overflows m e); [discriminate | inversion H; reflexivity].
Qed.

(** What the form does when it adds a category. *)
Lemma category_form_adds (tid : uuid) (env : Env) (n : Z) (price : jsnum)
    (s : CategoryConfigModal.State) (sent : list CategoryConfigForm.Statement)
    (w : World) :
  truthy_opt (CategoryConfigModal.editingId s) = false ->
  truthy (CategoryConfigModal.category s) = true ->
  parseInt (CategoryConfigModal.maxPlayers s) = Some n -> int4 n = true ->
  json_number (parseFloat (CategoryConfigModal.basePrice s)) = Some price ->
  organizer_policy (db w) (session env) tid = true ->
  existsb (fun r => jseqb (AuctionConfig.id r) (next_uuid env))
          (auction_config (db w)) = false ->
  let row :=
    {| AuctionConfig.id := next_uuid env;
       AuctionConfig.tournament_id := tid;
       AuctionConfig.category := CategoryConfigModal.category s;
       AuctionConfig.max_players := n;
       AuctionConfig.base_price := price;
       AuctionConfig.created_by := None;
       AuctionConfig.created_at := clock env;
       AuctionConfig.updated_at := clock env;
       AuctionConfig.is_active := Some true |} in
  let d := with_auction_config (db w) (auction_config (db w) ++ [row]) in
  run (CategoryConfigForm.handleSubmit tid) env (s, sent) w
  = (({| CategoryConfigModal.configs :=
           order_by (fun a b => AuctionConfig.created_at a
                                <=? AuctionConfig.created_at b)
             (filter (fun r => jseqb (AuctionConfig.tournament_id r) tid
                               && is_true (AuctionConfig.is_active r))
                     (auction_config d));
         CategoryConfigModal.loading := false;
         CategoryConfigModal.saving := false;
         CategoryConfigModal.editingId := None;
         CategoryConfigModal.category := [];
         CategoryConfigModal.maxPlayers := [];
         CategoryConfigModal.basePrice := [] |},
      sent ++ [CategoryConfigForm.AuctionConfigInsert tid
                 (CategoryConfigModal.category s) (Some n)
                 (parseFloat (CategoryConfigModal.basePrice s))]),
     {| db := d;
        toasts := toasts w ++ [ {| title := js "Success";
                                   description := js "Category added.";
                                   variant := Default |} ];
        navigations := navigations w;
        requests := requests w ++ [AuctionConfigSelectActive tid] |}).
Proof.
  intros He Hc Hn Hint Hj Hpol Hfresh row d.
  pose proof (parsed_means_typed _ _ Hn) as Hm.
  destruct (json_number_means_typed _ _ Hj) as [Hb Hprice].
  unfold run, CategoryConfigForm.handleSubmit, bind, get. simpl.
  rewrite Hc, Hm, Hb. simpl. rewrite He.
  unfold finally, try_catch, bind, zoom, CategoryConfigForm.send, note, set,
    CategoryConfigForm.setSaving, CategoryConfigForm.resetForm,
    CategoryConfigForm.setCategory, CategoryConfigForm.setMaxPlayers,
    CategoryConfigForm.setBasePrice, CategoryConfigForm.setEditingId,
    bind, set. simpl.
  unfold auction_config_insert. rewrite Hn, Hj, Hint, Hpol. simpl.
  rewrite Hfresh. simpl. reflexivity.
Qed.

(** X18. Adding a category. When the organizer submits the form with a
    category, a maximum of players that [parseInt] reads as an INTEGER and
    a base price that [parseFloat] reads as a finite number, one active
    row with these values is appended to [auction_config]; "Category
    added." is shown, the form is cleared and the reloaded listing shows
    the new row. No other row changes, and no check is made against the
    categories already configured. *)
Theorem category_form_adds_one_active_row :
  forall (tournamentId : uuid) (env : Env) (n : Z) (price : jsnum)
         (s : CategoryConfigModal.State)
         (sent : list CategoryConfigForm.Statement) (w : World),
    truthy_opt (CategoryConfigModal.editingId s) = false ->
    truthy (CategoryConfigModal.category s) = true ->
    parseInt (CategoryConfigModal.maxPlayers s) = Some n -> int4 n = true ->
    json_number (parseFloat (CategoryConfigModal.basePrice s)) = Some price ->
    organizer_policy (db w) (session env) tournamentId = true ->
    existsb (fun r => jseqb (AuctionConfig.id r) (next_uuid env))
            (auction_config (db w)) = false ->
    let after := run (CategoryConfigForm.handleSubmit tournamentId) env
                     (s, sent) w in
    exists row,
      auction_config (db (snd after)) = auction_config (db w) ++ [row]
      /\ AuctionConfig.tournament_id row = tournamentId
      /\ AuctionConfig.category row = CategoryConfigModal.category s
      /\ AuctionConfig.max_players row = n
      /\ AuctionConfig.base_price row
         = parseFloat (CategoryConfigModal.basePrice s)
      /\ AuctionConfig.is_active row = Some true
      /\ In row (CategoryConfigModal.configs (fst (fst after)))
      /\ snd (fst after)
         = sent ++ [CategoryConfigForm.AuctionConfigInsert tournamentId
                      (CategoryConfigModal.category s) (Some n)
                      (parseFloat (CategoryConfigModal.basePrice s))]
      /\ map title (toasts (snd after)) = map title (toasts w) ++ [js "Success"]
      /\ CategoryConfigModal.category (fst (fst after)) = []
      /\ CategoryConfigModal.maxPlayers (fst (fst after)) = []
      /\ CategoryConfigModal.basePrice (fst (fst after)) = []
      /\ CategoryConfigModal.editingId (fst (fst after)) = None
      /\ CategoryConfigModal.saving (fst (fst after)) = false.
Proof.
  intros tid env n price s sent w He Hc Hn Hint Hj Hpol Hfresh after.
  subst after.
  rewrite (category_form_adds tid env n price s sent w He Hc Hn Hint Hj Hpol
             Hfresh).
  destruct (json_number_means_typed _ _ Hj) as [_ Hprice].
  eexists. cbn [fst snd db auction_config with_auction_config].
  split; [reflexivity|]. simpl.
  split; [reflexivity|]. split; [reflexivity|]. split; [reflexivity|].
  split; [exact Hprice|]. split; [reflexivity|].
  split.
  { apply order_by_In, filter_In. split.
    - apply in_or_app. right. left. reflexivity.
    - simpl. rewrite jseqb_refl. reflexivity. }
  split; [reflexivity|].
  split; [rewrite map_app; reflexivity|]. repeat split.
Qed.

(** The sample store has a Gold category; the organizer adds another. *)
Lemma category_form_adds_one_active_row_witness :
  map AuctionConfig.category
    (auction_config
       (db (snd (run (CategoryConfigForm.handleSubmit (js "t-cup"))
                     Sample.by_organizer
                     (SampleMore.category_form "Gold" "6" "7500.50" None, [])
                     (world_of Sample.store)))))
  = [js "Gold"; js "Silver"; js "Gold"].
Proof.
  destruct (category_form_adds_one_active_row (js "t-cup")
              Sample.by_organizer 6 (Decimal false 750050 (-2))
              (SampleMore.category_form "Gold" "6" "7500.50" None) []
              (world_of Sample.store)
              eq_refl eq_refl eq_refl eq_refl eq_refl eq_refl eq_refl)
    as (row & H1 & _ & H3 & _).
  rewrite H1, map_app. simpl. rewrite H3. reflexivity.
Defined.

(** X19. Editing a category. [handleEdit] fills the form from a row and
    remembers its id; submitting the form as filled sends one update
    keyed by that id which carries the row's own category and its own
    [max_players] (printed by [toString], read back by [parseInt]) and
    the price as printed and read back. In the store that row keeps its
    id, tournament, category, maximum of players, activity and creation
    stamps; no row is added and no other row changes; "Category updated."
    is shown and the form leaves edit mode. *)
Theorem editing_a_category_updates_that_row :
  forall (Number_toString : jsnum -> jsstring) (tournamentId : uuid)
         (env : Env) (c : AuctionConfig.row) (price : jsnum)
         (s : CategoryConfigModal.State)
         (sent : list CategoryConfigForm.Statement) (w : World),
    constraints_hold (db w) = true ->
    In c (auction_config (db w)) ->
    organizer_policy (db w) (session env) (AuctionConfig.tournament_id c)
    = true ->
    truthy (AuctionConfig.id c) = true ->
    truthy (AuctionConfig.category c) = true ->
    int4 (AuctionConfig.max_players c) = true ->
    json_number (parseFloat (Number_toString (AuctionConfig.base_price c)))
    = Some price ->
    let edited :=
      run (zoom (CategoryConfigForm.handleEdit Number_toString c)) env
          (s, sent) w in
    let after :=
      run (CategoryConfigForm.handleSubmit tournamentId) env
          (fst edited) (snd edited) in
    CategoryConfigModal.editingId (fst (fst edited))
    = Some (AuctionConfig.id c)
    /\ parseInt (CategoryConfigModal.maxPlayers (fst (fst edited)))
       = Some (AuctionConfig.max_players c)
    /\ snd (fst after)
       = sent ++
         [CategoryConfigForm.AuctionConfigUpdate (AuctionConfig.id c)
            (AuctionConfig.category c) (Some (AuctionConfig.max_players c))
            (parseFloat (Number_toString (AuctionConfig.base_price c)))]
    /\ auction_config_select_by_id (db (snd after)) (AuctionConfig.id c)
       = [ {| AuctionConfig.id := AuctionConfig.id c;
              AuctionConfig.tournament_id := AuctionConfig.tournament_id c;
              AuctionConfig.category := AuctionConfig.category c;
              AuctionConfig.max_players := AuctionConfig.max_players c;
              AuctionConfig.base_price := price;
              AuctionConfig.created_by := AuctionConfig.created_by c;
              AuctionConfig.created_at := AuctionConfig.created_at c;
              AuctionConfig.updated_at := clock env;
              AuctionConfig.is_active := AuctionConfig.is_active c |} ]
    /\ map AuctionConfig.id (auction_config (db (snd after)))
       = map AuctionConfig.id (auction_config (db w))
    /\ (forall other, other <> AuctionConfig.id c ->
          auction_config_select_by_id (db (snd after)) other
          = auction_config_select_by_id (db w) other)
    /\ toasts (snd after)
       = toasts w ++ [ {| title := js "Success";
                          description := js "Category updated.";
                          variant := Default |} ]
    /\ CategoryConfigModal.editingId (fst (fst after)) = None.
Proof.
  intros toStr tid env c price s sent w C Hin Hpol Hid Hcat Hint Hj
         edited after.
  pose proof (constraints_config_ids _ C) as D.
  destruct (json_number_means_typed _ _ Hj) as [Hb Hprice].
  set (s1 := {| CategoryConfigModal.configs := CategoryConfigModal.configs s;
                CategoryConfigModal.loading := CategoryConfigModal.loading s;
                CategoryConfigModal.saving := CategoryConfigModal.saving s;
                CategoryConfigModal.editingId := Some (AuctionConfig.id c);
                CategoryConfigModal.category := AuctionConfig.category c;
                CategoryConfigModal.maxPlayers :=
                  toString (AuctionConfig.max_players c);
                CategoryConfigModal.basePrice :=
                  toStr (AuctionConfig.base_price c) |}).
  assert (Ee : edited = ((s1, sent), w)) by reflexivity.
  set (p := fun x : AuctionConfig.row =>
              jseqb (AuctionConfig.id x) (AuctionConfig.id c)
              && organizer_policy (db w) (session env)
                   (AuctionConfig.tournament_id x)).
  set (f := fun x : AuctionConfig.row =>
              update_auction_config_updated_at (session env)
                (set_config_fields (AuctionConfig.category c)
                   (AuctionConfig.max_players c) price x)).
  set (d := with_auction_config (db w)
              (update_where p f (auction_config (db w)))).
  assert (Ea : after
               = (({| CategoryConfigModal.configs :=
                        order_by (fun a b => AuctionConfig.created_at a
                                             <=? AuctionConfig.created_at b)
                          (filter
                             (fun r => jseqb (AuctionConfig.tournament_id r)
                                             tid
                                       && is_true (AuctionConfig.is_active r))
                             (auction_config d));
                      CategoryConfigModal.loading := false;
                      CategoryConfigModal.saving := false;
                      CategoryConfigModal.editingId := None;
                      CategoryConfigModal.category := [];
                      CategoryConfigModal.maxPlayers := [];
                      CategoryConfigModal.basePrice := [] |},
                   sent ++
                   [CategoryConfigForm.AuctionConfigUpdate
                      (AuctionConfig.id c) (AuctionConfig.category c)
                      (Some (AuctionConfig.max_players c))
                      (parseFloat (toStr (AuctionConfig.base_price c)))]),
                  {| db := d;
                     toasts := toasts w ++
                       [ {| title := js "Success";
                            description := js "Category updated.";
                            variant := Default |} ];
                     navigations := navigations w;
                     requests := requests w ++
                                 [AuctionConfigSelectActive tid] |})).
  { subst after. rewrite Ee. cbn [fst snd].
    unfold run, CategoryConfigForm.handleSubmit, bind, get.
    cbn [fst s1 CategoryConfigModal.category CategoryConfigModal.maxPlayers
         CategoryConfigModal.basePrice CategoryConfigModal.editingId].
    rewrite Hcat, toString_truthy, Hb. simpl negb. simpl orb. cbv iota.
    cbn [truthy_opt]. rewrite Hid.
    unfold finally, try_catch, bind, zoom, CategoryConfigForm.send, note, set,
      CategoryConfigForm.setSaving, CategoryConfigForm.resetForm,
      CategoryConfigForm.setCategory, CategoryConfigForm.setMaxPlayers,
      CategoryConfigForm.setBasePrice, CategoryConfigForm.setEditingId,
      bind, set.
    cbn [fst snd].
    unfold auction_config_update.
    rewrite parseInt_toString, Hj, Hint. reflexivity. }
  assert (Hsel : filter (keyed AuctionConfig.id (AuctionConfig.id c))
                        (auction_config (db w)) = [c])
    by (apply filter_key_unique; assumption).
  assert (Hpc : p c = true)
    by (unfold p; rewrite Hpol, jseqb_refl; reflexivity).
  rewrite Ea, Ee. cbn [fst snd].
  split; [reflexivity|]. split; [apply parseInt_toString|].
  split; [reflexivity|]. split; [|split; [|split]].
  - unfold auction_config_select_by_id. cbn [db].
    change (fun x => jseqb (AuctionConfig.id x) (AuctionConfig.id c))
      with (keyed AuctionConfig.id (AuctionConfig.id c)).
    unfold d. cbn [auction_config with_auction_config].
    rewrite filter_update_where by reflexivity.
    rewrite Hsel. simpl. rewrite Hpc. reflexivity.
  - unfold d. cbn [db auction_config with_auction_config].
    apply map_key_update_where. reflexivity.
  - intros other Hother. unfold auction_config_select_by_id.
    unfold d. cbn [db auction_config with_auction_config].
    change (fun x => jseqb (AuctionConfig.id x) other)
      with (keyed AuctionConfig.id other).
    rewrite filter_update_where by reflexivity.
    rewrite update_where_nowhere; [reflexivity|].
    intros x Hx. apply filter_In in Hx as [_ Hx]. apply jseqb_eq in Hx.
    unfold p. apply andb_false_iff. left. apply jseqb_neq. congruence.
  - split; reflexivity.
Qed.

Lemma editing_a_category_updates_that_row_witness :
  let printed (x : jsnum) : jsstring := js "5000" in
  let edited :=
    run (zoom (CategoryConfigForm.handleEdit printed Sample.gold))
        Sample.by_organizer (CategoryConfigModal.initial, [])
        (world_of Sample.store) in
  let after :=
    run (CategoryConfigForm.handleSubmit (js "t-cup")) Sample.by_organizer
        (fst edited) (snd edited) in
  map AuctionConfig.max_players
      (auction_config_select_by_id (db (snd after)) (js "c-gold"))
  = [5].
Proof.
  intros printed edited after.
  destruct (editing_a_category_updates_that_row printed (js "t-cup")
              Sample.by_organizer Sample.gold (Decimal false 5000 0)
              CategoryConfigModal.initial [] (world_of Sample.store)
              eq_refl (or_introl eq_refl) eq_refl eq_refl eq_refl eq_refl
              eq_refl) as (_ & _ & _ & H4 & _).
  fold edited in H4. fold after in H4.
  change (js "c-gold") with (AuctionConfig.id Sample.gold).
  rewrite H4. reflexivity.
Defined.

(* ===================================================================== *)
(** ** Captains *)
(* ===================================================================== *)

(** X20. Captain management needs captain voting: when the tournament
    has [captain_voting_enabled] false, the page - for its organizer as
    for a visitor who is not signed in - shows "Not Available",
    navigates to the tournament, requests no captains and sets neither
    its tournament nor its captains. *)
Theorem captain_page_needs_voting_enabled :
  forall (tournamentId : uuid) (env : Env) (t : Tournament.row)
         (s : CreateCaptains.State) (w : World),
    tournaments_select_single (db w) tournamentId = Data t ->
    CreateTeams.not_the_organizer (user env) t = false ->
    Tournament.captain_voting_enabled t = false ->
    run (CreateCaptains.fetchData tournamentId) env s w
    = ({| CreateCaptains.tournament := CreateCaptains.tournament s;
          CreateCaptains.captains := CreateCaptains.captains s;
          CreateCaptains.loading := false;
          CreateCaptains.creating := CreateCaptains.creating s;
          CreateCaptains.captainName := CreateCaptains.captainName s;
          CreateCaptains.captainMobile := CreateCaptains.captainMobile s;
          CreateCaptains.photoPreview := CreateCaptains.photoPreview s |},
       {| db := db w;
          toasts := toasts w ++
            [ {| title := js "Not Available";
                 description :=
                   js "Captain voting is not enabled for this tournament.";
                 variant := Destructive |} ];
          navigations := navigations w ++ [js "/tournaments/" ++ tournamentId];
          requests := requests w ++ [TournamentsSelectSingle tournamentId] |}).
Proof.
  intros tid env t s w Ht Hno Hen.
  unfold run, CreateCaptains.fetchData, finally, try_catch, bind, supabase,
    CreateCaptains.setLoading, set, ask; simpl.
  rewrite Ht; simpl. rewrite Hno, Hen; simpl. reflexivity.
Qed.

Lemma captain_page_needs_voting_enabled_witness :
  let plain := Tournament.set_is_voting_live false
                 {| Tournament.id := js "t-plain";
                    Tournament.name := js "Plain Cup";
                    Tournament.organizer_id := js "u-organizer";
                    Tournament.number_of_teams := 4;
                    Tournament.team_budget := 1000;
                    Tournament.captain_voting_enabled := false;
                    Tournament.is_voting_live := false;
                    Tournament.is_auction_live := false |} in
  navigations
    (snd (run (CreateCaptains.fetchData (js "t-plain")) Sample.by_organizer
              CreateCaptains.initial
              (world_of (with_tournaments Sample.store [Sample.cup; plain]))))
  = [js "/tournaments/t-plain"].
Proof.
  intros plain.
  rewrite (captain_page_needs_voting_enabled (js "t-plain")
             Sample.by_organizer plain);
    reflexivity.
Defined.






(* ===================================================================== *)
(** ** Vote results: totals, the leader and the bars *)
(* ===================================================================== *)




Lemma maxVotes_fold (l : list Captain.row) :
  ViewCaptainVotes.maxVotes l = fold_left Z.max (map Captain.votes l) 1.
Proof. destruct l; reflexivity. Qed.



Lemma progress_bounds (v m : Z) :
  1 <= m -> 0 <= v <= m ->
  (0 <= inject_Z v / inject_Z m * inject_Z 100 <= inject_Z 100)%Q.
Proof.
  intros Hm Hv.
  destruct m as [|m|m]; try lia.
  unfold Qle, Qdiv, Qmult, Qinv, inject_Z. simpl.
  split; nia.
Qed.

Lemma progress_full (m : Z) :
  1 <= m -> (inject_Z m / inject_Z m * inject_Z 100 == inject_Z 100)%Q.
Proof.
  intros Hm. destruct m as [|m|m]; try lia.
  unfold Qeq, Qdiv, Qmult, Qinv, inject_Z. simpl. nia.
Qed.

(** X24. The leader and the bars. In the loaded vote results the captain
    listed first - the one shown with the trophy - has at least as many
    votes as every other listed captain, and the bars are scaled by that
    captain's votes, or by 1 when nobody has a vote. Every listed captain whose
    votes are not negative gets a bar between 0 and 100, and a leader
    with at least one vote gets a bar of exactly 100. *)
Theorem leader_is_listed_first_and_bars_are_bounded :
  forall (tournamentId : uuid) (env : Env) (s : ViewCaptainVotes.State)
         (w : World) (t : Tournament.row) (first : Captain.row)
         (rest : list Captain.row),
    tournaments_select_single (db w) tournamentId = Data t ->
    let listing :=
      ViewCaptainVotes.captains
        (fst (run (ViewCaptainVotes.fetchData tournamentId) env s w)) in
    listing = first :: rest ->
    ViewCaptainVotesRanks.rank 0 = ViewCaptainVotesRanks.Trophy
    /\ (forall c, In c listing -> Captain.votes c <= Captain.votes first)
    /\ ViewCaptainVotes.maxVotes listing = Z.max 1 (Captain.votes first)
    /\ (forall c, In c listing -> 0 <= Captain.votes c ->
          exists q, ViewCaptainVotes.progress listing c = Some q
                    /\ (0 <= q <= inject_Z 100)%Q)
    /\ (1 <= Captain.votes first ->
        exists q, ViewCaptainVotes.progress listing first = Some q
                  /\ (q == inject_Z 100)%Q).
Proof.
  intros tid env s w t first rest Ht listing El.
  assert (Hs : StronglySorted (fun a b => votes_desc a b = true) listing).
  { subst listing. rewrite (fetchData_captains tid env s w t Ht).
    apply order_by_sorted; [apply votes_desc_total | apply votes_desc_trans]. }
  assert (Hle : forall c, In c listing ->
                          Captain.votes c <= Captain.votes first).
  { rewrite El. intros c [<-|Hc]; [lia|].
    rewrite El in Hs. inversion Hs as [|? ? _ Hf]; subst.
    rewrite Forall_forall in Hf. apply Z.leb_le. apply (Hf c Hc). }
  assert (Hmax : ViewCaptainVotes.maxVotes listing
                 = Z.max 1 (Captain.votes first)).
  { rewrite maxVotes_fold.
    assert (G : forall l a, (forall x, In x l -> x <= a) ->
                            fold_left Z.max l a = a).
    { induction l as [|x l IH]; intros a H; simpl; [reflexivity|].
      rewrite (Z.max_l a x) by (apply H; left; reflexivity).
      apply IH. intros y Hy. apply H. right. exact Hy. }
    rewrite El. simpl. apply G.
    intros x Hx. apply in_map_iff in Hx as [c [<- Hc]].
    assert (Captain.votes c <= Captain.votes first)
      by (apply Hle; rewrite El; right; exact Hc).
    lia. }
  split; [reflexivity|]. split; [exact Hle|]. split; [exact Hmax|].
  split.
  - intros c Hc Hpos. unfold ViewCaptainVotes.progress.
    pose proof (Hle c Hc) as Hcf.
    destruct (ViewCaptainVotes.maxVotes listing =? 0) eqn:E;
      [apply Z.eqb_eq in E; lia|].
    eexists. split; [reflexivity|].
    apply progress_bounds; lia.
  - intros H1. unfold ViewCaptainVotes.progress.
    destruct (ViewCaptainVotes.maxVotes listing =? 0) eqn:E;
      [apply Z.eqb_eq in E; lia|].
    eexists. split; [reflexivity|].
    rewrite Hmax, Z.max_r by lia. apply progress_full. exact H1.
Qed.

Lemma leader_is_listed_first_and_bars_are_bounded_witness :
  ViewCaptainVotes.maxVotes
    (ViewCaptainVotes.captains
       (fst (run (ViewCaptainVotes.fetchData (js "t-cup")) Sample.by_visitor
                 ViewCaptainVotes.initial (world_of Sample.store))))
  = 5.
Proof.
  destruct (leader_is_listed_first_and_bars_are_bounded (js "t-cup")
              Sample.by_visitor ViewCaptainVotes.initial
              (world_of Sample.store) Sample.cup
              (Sample.captain "k-ravi" "Ravi" 5 (Some true) 2)
              [Sample.captain "k-asha" "Asha" 3 (Some true) 1;
               Sample.captain "k-meera" "Meera" 3 (Some true) 3]
              eq_refl eq_refl) as (_ & _ & H & _).
  rewrite H. reflexivity.
Defined.

(* ===================================================================== *)
(** ** The schema is kept *)
(* ===================================================================== *)

Lemma policy_means_known (d : Db) (s : Session) (tid : uuid) :
  organizer_policy d s tid = true ->
  existsb (fun t => jseqb (Tournament.id t) tid) (tournaments d) = true.
Proof.
  unfold organizer_policy. intros H.
  apply existsb_exists in H as [t [Hin Ht]].
  apply andb_true_iff in Ht as [Ht _].
  apply existsb_exists. exists t. auto.
Qed.

Lemma update_keeps_keys {A B : Type} (col : A -> B) (p : A -> bool)
    (f : A -> A) (l : list A) :
  (forall x, col (f x) = col x) ->
  map col (update_where p f l) = map col l.
Proof.
  intros Hf. induction l as [|x l IH]; simpl; [reflexivity|].
  rewrite IH. destruct (p x); [rewrite Hf|]; reflexivity.
Qed.

Lemma forallb_known_map {A : Type} (col : A -> uuid) (known : uuid -> bool)
    (l : list A) :
  forallb (fun r => known (col r)) l = forallb known (map col l).
Proof. induction l as [|x l IH]; simpl; [|rewrite IH]; reflexivity. Qed.

Lemma forallb_same {A : Type} (f g : A -> bool) (l : list A) :
  (forall x, f x = g x) -> forallb f l = forallb g l.
Proof.
  intros H. induction l as [|x l IH]; simpl; [|rewrite H, IH]; reflexivity.
Qed.

Lemma references_hold_maps (d : Db) :
  references_hold d
  = let known (tid : uuid) :=
      existsb (fun t => jseqb (Tournament.id t) tid) (tournaments d) in
    forallb known (map AuctionConfig.tournament_id (auction_config d))
    && forallb known (map AuctionTimer.tournament_id (auction_timer d))
    && forallb known (map Captain.tournament_id (tournament_captain d))
    && forallb known (map Team.tournament_id (teams d)).
Proof.
  unfold references_hold. cbv zeta.
  rewrite <- !forallb_known_map. reflexivity.
Qed.

(** A store whose key columns are those of a store that satisfies the
    schema satisfies it too. *)
Lemma schema_ok_same_keys (d d' : Db) :
  map Tournament.id (tournaments d') = map Tournament.id (tournaments d) ->
  map AuctionTimer.id (auction_timer d')
  = map AuctionTimer.id (auction_timer d) ->
  map AuctionTimer.tournament_id (auction_timer d')
  = map AuctionTimer.tournament_id (auction_timer d) ->
  map AuctionConfig.id (auction_config d')
  = map AuctionConfig.id (auction_config d) ->
  map AuctionConfig.tournament_id (auction_config d')
  = map AuctionConfig.tournament_id (auction_config d) ->
  map Captain.id (tournament_captain d')
  = map Captain.id (tournament_captain d) ->
  map Captain.tournament_id (tournament_captain d')
  = map Captain.tournament_id (tournament_captain d) ->
  map Team.id (teams d') = map Team.id (teams d) ->
  map Team.tournament_id (teams d') = map Team.tournament_id (teams d) ->
  schema_ok d -> schema_ok d'.
Proof.
  intros H1 H2 H3 H4 H5 H6 H7 H8 H9 [C R]. split.
  - unfold constraints_hold in *. rewrite H1, H2, H3, H4, H6, H8. exact C.
  - rewrite references_hold_maps in *.
    assert (K : forall tid,
               existsb (fun t => jseqb (Tournament.id t) tid) (tournaments d')
               = existsb (fun t => jseqb (Tournament.id t) tid)
                         (tournaments d)).
    { intros tid.
      rewrite <- (existsb_map Tournament.id (fun i => jseqb i tid)).
      rewrite <- (existsb_map Tournament.id (fun i => jseqb i tid)
                    (tournaments d)).
      rewrite H1. reflexivity. }
    cbv zeta in *. rewrite H5, H3, H7, H9.
    rewrite !(forallb_same _ _ _ K). exact R.
Qed.

Lemma existsb_swap (k : jsstring) (l : list jsstring) :
  existsb (fun a => jseqb a k) l = existsb (jseqb k) l.
Proof.
  induction l as [|x l IH]; simpl; [reflexivity|].
  rewrite IH, (jseqb_sym x k). reflexivity.
Qed.

Lemma schema_ok_timer_added (d : Db) (r : AuctionTimer.row) :
  schema_ok d ->
  existsb (fun x => jseqb (AuctionTimer.id x) (AuctionTimer.id r)
                    || jseqb (AuctionTimer.tournament_id x)
                             (AuctionTimer.tournament_id r))
          (auction_timer d) = false ->
  truthy (AuctionTimer.id r) = true ->
  existsb (fun t => jseqb (Tournament.id t) (AuctionTimer.tournament_id r))
          (tournaments d) = true ->
  schema_ok (with_auction_timer d (auction_timer d ++ [r])).
Proof.
  intros [C R] E Ht Hk. apply existsb_or_false in E as [E1 E2]. split.
  - unfold constraints_hold in *. simpl.
    repeat (apply andb_true_iff in C as [C ?]).
    rewrite !map_app. simpl.
    rewrite !distinct_snoc, forallb_app, !existsb_map. simpl.
    rewrite E1, E2, Ht. simpl.
    repeat (apply andb_true_iff; split); auto.
  - rewrite references_hold_maps in *. cbv zeta in *. simpl.
    repeat (apply andb_true_iff in R as [R ?]).
    rewrite map_app, forallb_app. simpl. rewrite Hk.
    repeat (apply andb_true_iff; split); auto.
Qed.

Lemma schema_ok_config_added (d : Db) (r : AuctionConfig.row) :
  schema_ok d ->
  existsb (fun x => jseqb (AuctionConfig.id x) (AuctionConfig.id r))
          (auction_config d) = false ->
  existsb (fun t => jseqb (Tournament.id t) (AuctionConfig.tournament_id r))
          (tournaments d) = true ->
  schema_ok (with_auction_config d (auction_config d ++ [r])).
Proof.
  intros [C R] E Hk. split.
  - unfold constraints_hold in *. simpl.
    repeat (apply andb_true_iff in C as [C ?]).
    rewrite !map_app. simpl.
    rewrite !distinct_snoc, !existsb_map. simpl. rewrite E. simpl.
    repeat (apply andb_true_iff; split); auto.
  - rewrite references_hold_maps in *. cbv zeta in *. simpl.
    repeat (apply andb_true_iff in R as [R ?]).
    rewrite map_app, forallb_app. simpl. rewrite Hk.
    repeat (apply andb_true_iff; split); auto.
Qed.

Lemma schema_ok_captain_added (d : Db) (r : Captain.row) :
  schema_ok d ->
  existsb (fun x => jseqb (Captain.id x) (Captain.id r))
          (tournament_captain d) = false ->
  existsb (fun t => jseqb (Tournament.id t) (Captain.tournament_id r))
          (tournaments d) = true ->
  schema_ok (with_tournament_captain d (tournament_captain d ++ [r])).
Proof.
  intros [C R] E Hk. split.
  - unfold constraints_hold in *. simpl.
    repeat (apply andb_true_iff in C as [C ?]).
    rewrite !map_app. simpl.
    rewrite !distinct_snoc, !existsb_map. simpl. rewrite E. simpl.
    repeat (apply andb_true_iff; split); auto.
  - rewrite references_hold_maps in *. cbv zeta in *. simpl.
    repeat (apply andb_true_iff in R as [R ?]).
    rewrite map_app, forallb_app. simpl. rewrite Hk.
    repeat (apply andb_true_iff; split); auto.
Qed.

Lemma schema_ok_team_added (d : Db) (r : Team.row) :
  schema_ok d ->
  existsb (fun x => jseqb (Team.id x) (Team.id r)) (teams d) = false ->
  existsb (fun t => jseqb (Tournament.id t) (Team.tournament_id r))
          (tournaments d) = true ->
  schema_ok (with_teams d (teams d ++ [r])).
Proof.
  intros [C R] E Hk. split.
  - unfold constraints_hold in *. simpl.
    repeat (apply andb_true_iff in C as [C ?]).
    rewrite !map_app. simpl.
    rewrite !distinct_snoc, !existsb_map. simpl. rewrite E. simpl.
    repeat (apply andb_true_iff; split); auto.
  - rewrite references_hold_maps in *. cbv zeta in *. simpl.
    repeat (apply andb_true_iff in R as [R ?]).
    rewrite map_app, forallb_app. simpl. rewrite Hk.
    repeat (apply andb_true_iff; split); auto.
Qed.

(** Each statement of the store keeps the schema. *)
Lemma statements_keep_the_schema (ses : Session) (d : Db) :
  schema_ok d ->
  (forall id b,
      schema_ok (snd (tournaments_update_is_voting_live ses d id b)))
  /\ (forall id v, schema_ok (snd (auction_timer_update_bid_time ses d id v)))
  /\ (forall tid v, truthy (gen_random_uuid ses) = true ->
                    schema_ok (snd (auction_timer_insert ses d tid v)))
  /\ (forall id b, schema_ok (snd (auction_config_update_is_active ses d id b)))
  /\ (forall tid c n p, schema_ok (snd (auction_config_insert ses d tid c n p)))
  /\ (forall id c n p, schema_ok (snd (auction_config_update ses d id c n p)))
  /\ (forall tid n m ph by_,
         schema_ok (snd (tournament_captain_insert ses d tid n m ph by_)))
  /\ (forall tid n c b o, schema_ok (snd (teams_insert ses d tid n c b o))).
Proof.
  intros S.
  split; [|split; [|split; [|split; [|split; [|split; [|split]]]]]].
  - intros id b. simpl.
    apply (schema_ok_same_keys d); try reflexivity; [|exact S].
    simpl. apply update_keeps_keys. intros x; reflexivity.
  - intros id v. unfold auction_timer_update_bid_time.
    destruct (int4 v); simpl; [|exact S].
    apply (schema_ok_same_keys d); try reflexivity; try exact S;
      simpl; apply update_keeps_keys; intros x; reflexivity.
  - intros tid v Hu. unfold auction_timer_insert.
    destruct (negb (int4 v)); simpl; [exact S|].
    destruct (organizer_policy d ses tid) eqn:Ep; simpl; [|exact S].
    destruct (existsb _ (auction_timer d)) eqn:E; simpl; [exact S|].
    apply schema_ok_timer_added; simpl; auto.
    apply (policy_means_known d ses tid Ep).
  - intros id b. simpl.
    apply (schema_ok_same_keys d); try reflexivity; try exact S;
      simpl; apply update_keeps_keys; intros x; reflexivity.
  - intros tid c n p. unfold auction_config_insert.
    destruct n as [n|]; [|destruct (json_number p); exact S].
    destruct (json_number p) as [price|]; [|exact S].
    destruct (negb (int4 n)); simpl; [exact S|].
    destruct (organizer_policy d ses tid) eqn:Ep; simpl; [|exact S].
    destruct (existsb _ (auction_config d)) eqn:E; simpl; [exact S|].
    apply schema_ok_config_added; simpl; auto.
    apply (policy_means_known d ses tid Ep).
  - intros id c n p. unfold auction_config_update.
    destruct n as [n|]; [|destruct (json_number p); exact S].
    destruct (json_number p) as [price|]; [|exact S].
    destruct (negb (int4 n)); simpl; [exact S|].
    apply (schema_ok_same_keys d); try reflexivity; try exact S;
      simpl; apply update_keeps_keys; intros x; reflexivity.
  - intros tid n m ph by_. unfold tournament_captain_insert.
    destruct (organizer_policy d ses tid) eqn:Ep; simpl; [|exact S].
    destruct (existsb _ (tournament_captain d)) eqn:E; simpl; [exact S|].
    apply schema_ok_captain_added; simpl; auto.
    apply (policy_means_known d ses tid Ep).
  - intros tid n c b o. unfold teams_insert.
    destruct (json_number b) as [budget|]; [|exact S].
    destruct (organizer_policy d ses tid) eqn:Ep; simpl; [|exact S].
    destruct (existsb _ (teams d)) eqn:E; simpl; [exact S|].
    apply schema_ok_team_added; simpl; auto.
    apply (policy_means_known d ses tid Ep).
Qed.

(** X25. Every handler that writes keeps the schema. From a store in
    which the primary keys are distinct, a tournament has at most one
    timer row and every row refers to an existing tournament, each of the
    six writing handlers - whatever the state of its form and whoever the
    caller - leaves a store with the same properties. *)
Theorem writing_handlers_keep_the_schema :
  forall (env : Env) (w : World),
    schema_ok (db w) ->
    truthy (next_uuid env) = true ->
    (forall tid s,
        schema_ok (db (snd (run (BidTimerConfigModal.handleSubmit tid)
                                env s w))))
    /\ (forall tid live s,
        schema_ok (db (snd (run (TournamentActionMenu.handleToggleVoting
                                   tid live) env s w))))
    /\ (forall tid id s,
        schema_ok (db (snd (run (CategoryConfigModal.handleDelete tid id)
                                env s w))))
    /\ (forall tid st,
        schema_ok (db (snd (run (CategoryConfigForm.handleSubmit tid)
                                env st w))))
    /\ (forall tid s,
        schema_ok (db (snd (run (CreateTeams.handleCreateTeam tid)
                                env s w))))
    /\ (forall tid s,
        schema_ok (db (snd (run (CreateCaptains.handleCreateCaptain tid)
                                env s w)))).
Proof.
  intros env w S Hu.
  destruct (statements_keep_the_schema (session env) (db w) S)
    as (K1 & K2 & K3 & K4 & K5 & K6 & K7 & K8).
  split; [|split; [|split; [|split; [|split]]]].
  - intros tid s.
    unfold run, BidTimerConfigModal.handleSubmit, bind, get.
    destruct (isNaN _ || lt _ 5 || gt _ 120); simpl; [exact S|].
    unfold finally, try_catch, bind, supabase, BidTimerConfigModal.setSaving,
      set; simpl.
    destruct (truthy_opt (BidTimerConfigModal.existingId s)); simpl.
    + match goal with
      | |- context [auction_timer_update_bid_time ?a ?b ?c ?e] =>
          pose proof (K2 c e) as K;
          destruct (auction_timer_update_bid_time a b c e) as [[[]|err] d']
      end; simpl in *; exact K.
    + match goal with
      | |- context [auction_timer_insert ?a ?b ?c ?e] =>
          pose proof (K3 c e Hu) as K;
          destruct (auction_timer_insert a b c e) as [[[]|err] d']
      end; simpl in *; exact K.
  - intros tid live s. exact (K1 tid (negb live)).
  - intros tid id s. exact (K4 id false).
  - intros tid [s sent].
    unfold run, CategoryConfigForm.handleSubmit, bind, get. simpl.
    destruct (negb _ || negb _ || negb _); simpl; [exact S|].
    unfold finally, try_catch, bind, zoom, CategoryConfigForm.send, note, set,
      CategoryConfigForm.setSaving, bind, set. simpl.
    destruct (truthy_opt (CategoryConfigModal.editingId s)); simpl.
    + match goal with
      | |- context [auction_config_update ?a ?b ?c ?e ?f ?g] =>
          pose proof (K6 c e f g) as K;
          destruct (auction_config_update a b c e f g) as [[[]|err] d']
      end; simpl in *; exact K.
    + match goal with
      | |- context [auction_config_insert ?a ?b ?c ?e ?f ?g] =>
          pose proof (K5 c e f g) as K;
          destruct (auction_config_insert a b c e f g) as [[[]|err] d']
      end; simpl in *; exact K.
  - intros tid s.
    unfold run, CreateTeams.handleCreateTeam, bind, get, ask.
    destruct (negb (truthy (trim (CreateTeams.teamName s)))); simpl;
      [exact S|].
    destruct (negb _ || le_zero _); simpl; [exact S|].
    unfold finally, try_catch, bind, supabase, CreateTeams.setCreating, set.
    simpl.
    match goal with
    | |- context [teams_insert ?a ?b ?c ?e ?f ?g ?h] =>
        pose proof (K8 c e f g h) as K;
        destruct (teams_insert a b c e f g h) as [[[]|err] d']
    end; simpl in *; [|exact K].
    unfold CreateTeams.fetchTournamentAndTeams, finally, try_catch, bind,
      supabase, CreateTeams.setLoading, set, ask; simpl.
    destruct (tournaments_select_single d' tid) as [t|e]; simpl; [|exact K].
    destruct (CreateTeams.not_the_organizer (user env) t); simpl; exact K.
  - intros tid s.
    unfold run, CreateCaptains.handleCreateCaptain, bind, get, ask.
    destruct (negb _ || negb _); simpl; [exact S|].
    destruct (jslength _ <? 10); simpl; [exact S|].
    unfold finally, try_catch, bind, supabase, CreateCaptains.setCreating,
      set. simpl.
    match goal with
    | |- context [tournament_captain_insert ?a ?b ?c ?e ?f ?g ?h] =>
        pose proof (K7 c e f g h) as K;
        destruct (tournament_captain_insert a b c e f g h) as [[[]|err] d']
    end; simpl in *; exact K.
Qed.

Lemma writing_handlers_keep_the_schema_witness :
  schema_ok
    (db (snd (run (CreateCaptains.handleCreateCaptain (js "t-cup"))
                  Sample.by_organizer
                  (SampleMore.captain_form "Kiran" "9000000001")
                  (world_of Sample.store)))).
Proof.
  destruct (writing_handlers_keep_the_schema Sample.by_organizer
              (world_of Sample.store) (conj eq_refl eq_refl) eq_refl)
    as (_ & _ & _ & _ & _ & H).
  apply H.
Defined.

(* ===================================================================== *)
(** ** Categories and captains of other organizers *)
(* ===================================================================== *)

(** X26. The organizer policy of the migration confines the category
    and captain handlers to the caller's own tournaments: for every
    tournament the policy denies to the caller, its rows of
    [auction_config] are the same after a soft delete and after a
    submission of the category form as before, and its rows of
    [tournament_captain] are the same after a captain creation -
    whatever ids and values the handlers are run with. *)
Theorem handlers_leave_other_organizers_rows :
  forall (other : uuid) (env : Env) (w : World),
    organizer_policy (db w) (session env) other = false ->
    (forall tid id s,
        filter (keyed AuctionConfig.tournament_id other)
          (auction_config
             (db (snd (run (CategoryConfigModal.handleDelete tid id)
                           env s w))))
        = filter (keyed AuctionConfig.tournament_id other)
                 (auction_config (db w)))
    /\ (forall tid st,
        filter (keyed AuctionConfig.tournament_id other)
          (auction_config
             (db (snd (run (CategoryConfigForm.handleSubmit tid)
                           env st w))))
        = filter (keyed AuctionConfig.tournament_id other)
                 (auction_config (db w)))
    /\ (forall tid s,
        filter (keyed Captain.tournament_id other)
          (tournament_captain
             (db (snd (run (CreateCaptains.handleCreateCaptain tid)
                           env s w))))
        = filter (keyed Captain.tournament_id other)
                 (tournament_captain (db w))).
Proof.
  intros other env w Hpol.
  assert (U : forall (id : uuid) (f : AuctionConfig.row -> AuctionConfig.row),
             (forall x, AuctionConfig.tournament_id (f x)
                        = AuctionConfig.tournament_id x) ->
             filter (keyed AuctionConfig.tournament_id other)
               (update_where
                  (fun r => jseqb (AuctionConfig.id r) id
                            && organizer_policy (db w) (session env)
                                 (AuctionConfig.tournament_id r))
                  f (auction_config (db w)))
             = filter (keyed AuctionConfig.tournament_id other)
                      (auction_config (db w))).
  { intros id f Hf. rewrite filter_update_where by exact Hf.
    apply update_where_nowhere.
    intros x Hx. apply filter_In in Hx as [_ Hx]. apply jseqb_eq in Hx.
    rewrite Hx, Hpol. apply andb_false_r. }
  split; [|split].
  - intros tid id s. apply U. reflexivity.
  - intros tid [s sent].
    unfold run, CategoryConfigForm.handleSubmit, bind, get. simpl.
    destruct (negb _ || negb _ || negb _); simpl; [reflexivity|].
    unfold finally, try_catch, bind, zoom, CategoryConfigForm.send, note, set,
      CategoryConfigForm.setSaving, bind, set. simpl.
    destruct (truthy_opt (CategoryConfigModal.editingId s)); simpl.
    + unfold auction_config_update.
      destruct (parseInt (CategoryConfigModal.maxPlayers s)) as [n|];
        [|destruct (json_number
                      (parseFloat (CategoryConfigModal.basePrice s)));
          reflexivity].
      destruct (json_number (parseFloat (CategoryConfigModal.basePrice s)))
        as [price|]; [|reflexivity].
      destruct (negb (int4 n)); simpl; [reflexivity|].
      apply U. reflexivity.
    + unfold auction_config_insert.
      destruct (parseInt (CategoryConfigModal.maxPlayers s)) as [n|];
        [|destruct (json_number
                      (parseFloat (CategoryConfigModal.basePrice s)));
          reflexivity].
      destruct (json_number (parseFloat (CategoryConfigModal.basePrice s)))
        as [price|]; [|reflexivity].
      destruct (negb (int4 n)); simpl; [reflexivity|].
      destruct (organizer_policy (db w) (session env) tid) eqn:Ep; simpl;
        [|reflexivity].
      destruct (existsb _ (auction_config (db w))); simpl; [reflexivity|].
      rewrite filter_app. simpl. unfold keyed at 2. simpl.
      destruct (jseqb tid other) eqn:E; [|apply app_nil_r].
      apply jseqb_eq in E. congruence.
  - intros tid s.
    unfold run, CreateCaptains.handleCreateCaptain, bind, get, ask.
    destruct (negb _ || negb _); simpl; [reflexivity|].
    destruct (jslength _ <? 10); simpl; [reflexivity|].
    unfold finally, try_catch, bind, supabase, CreateCaptains.setCreating,
      set. simpl.
    unfold tournament_captain_insert.
    destruct (organizer_policy (db w) (session env) tid) eqn:Ep; simpl;
      [|reflexivity].
    destruct (existsb _ (tournament_captain (db w))); simpl; [reflexivity|].
    rewrite filter_app. simpl. unfold keyed at 2. simpl.
    destruct (jseqb tid other) eqn:E; [|apply app_nil_r].
    apply jseqb_eq in E. congruence.
Qed.

Lemma handlers_leave_other_organizers_rows_witness :
  map AuctionConfig.category
    (filter (keyed AuctionConfig.tournament_id (js "t-cup"))
       (auction_config
          (db (snd (run (CategoryConfigForm.handleSubmit (js "t-cup"))
                        Sample.by_visitor
                        (SampleMore.category_form "Platinum" "3" "9000"
                           (Some (js "c-gold")), [])
                        (world_of Sample.store))))))
  = [js "Gold"; js "Silver"].
Proof.
  destruct (handlers_leave_other_organizers_rows (js "t-cup")
              Sample.by_visitor (world_of Sample.store) eq_refl)
    as (_ & H & _).
  rewrite H. reflexivity.
Defined.
